(** * Forecasting API: strategy dispatch and feature engineering

    A shallow embedding of the Python sources under [api/]:

    - [api/core/base.py], [api/core/registry.py]     (modules [Base], [Registry])
    - [api/services/preprocessing_service.py]        (modules [Encoder], [Assembler],
                                                      [PreprocessingService])
    - [api/services/data_service.py]                 (modules [DataService],
                                                      [DataServiceLoading])
    - [api/services/prediction_service.py],
      [api/handlers/demand_handler.py]               (module [PredictionService])
    - [api/strategies/demand/lightgbm_strategy.py]   (module [LightGBM])
    - [api/strategies/price/dnn_strategy.py]         (module [DNN])
    - [api/strategies/price/linear_strategy.py]      (module [Linear])
    - [api/strategies/*/registry.py]                 (module [Registries])

    Conventions.  A Python [float] is idealised as a real number (rounding is
    not modelled), a Python [int] is a [Z], a [str] is a [string].  A method
    that mutates [self] is a function from the old object to an outcome and
    the new object; a Python exception is the [Raise] outcome, and whatever
    was mutated before the [raise] stays mutated.  The first half of the file
    holds the definitions, the second half the theorems. *)

From Stdlib Require Import Reals Lra Lia ZArith Ascii String.
From Stdlib Require Import Permutation Sorted.
From stdpp Require Import base option list strings gmap pretty sorting.

(* ===================================================================== *)
(** * Part I: definitions                                                 *)
(* ===================================================================== *)

(** ** Exceptions and outcomes *)

(** The text of an exception, kept structured: the formatted pieces of the
    f-strings are the constructor arguments. *)
Inductive message : Type :=
  | NoDefaultStrategy
      (* "No default strategy set and no strategy name provided" *)
  | StrategyNotFound (name : string) (available : list string)
      (* f"Strategy '{name}' not found. Available: {self.list_all()}" *)
  | StoreNotFound (store_id : Z)
      (* f"Store {store_id} not found" *)
  | NoFeaturesForStore (store_id : Z)
      (* f"No features found for store {store_id}" *)
  | MissingFeature (col : string)
      (* f"Missing feature: {col}" *)
  | NoModelsLoaded
      (* f"No models loaded from {model_dir}" *)
  | BadDateString (s : string)
      (* raised by datetime.strptime / pd.to_datetime *)
  | NotANumber (s : string)
      (* raised by float() on a string *)
  | KerasImportFailed
      (* "TensorFlow/Keras could not be imported. ..." *)
  | KerasPreviouslyFailed.
      (* "TensorFlow/Keras previously failed to import; ..." *)

Inductive py_exn : Type :=
  | ValueError (m : message)
  | RuntimeError (m : message)
  | KeyError
  | TypeError
  | FileNotFoundError (path : string)
  | LibraryError (what : string).

Inductive result (A : Type) : Type :=
  | Ok (a : A)
  | Raise (e : py_exn).
Arguments Ok {A} a.
Arguments Raise {A} e.

#[global] Instance result_ret : MRet result := @Ok.
#[global] Instance result_bind : MBind result := λ A B f m,
  match m with
  | Ok a => f a
  | Raise e => Raise e
  end.

Definition is_ok {A} (r : result A) : bool :=
  match r with Ok _ => true | Raise _ => false end.

(** The error taxonomy of the design document, read off the exception. *)
Inductive error_kind : Type :=
  | NotFound | NotConfigured | ValidationError
  | UnavailableError | ConfigurationError | OtherError.

Definition kind_of (e : py_exn) : error_kind :=
  match e with
  | ValueError NoDefaultStrategy => NotConfigured
  | ValueError (StrategyNotFound _ _) => NotFound
  | ValueError (StoreNotFound _) => NotFound
  | ValueError (NoFeaturesForStore _) => NotFound
  | ValueError (MissingFeature _) => ValidationError
  | ValueError (BadDateString _) => ValidationError
  | ValueError NoModelsLoaded => ConfigurationError
  | FileNotFoundError _ => ConfigurationError
  | RuntimeError KerasImportFailed => UnavailableError
  | RuntimeError KerasPreviouslyFailed => UnavailableError
  | _ => OtherError
  end.

(** ** Python dictionaries that remember insertion order

    [d[k] = v] overwrites the value in place when [k] is already a key and
    appends the pair otherwise; [list(d.keys())] is the insertion order. *)
Module PyDict.
Section Ordered.
Context {K V : Type} `{EqDecision K}.

Fixpoint get (k : K) (d : list (K * V)) : option V :=
  match d with
  | [] => None
  | (k', v) :: d' => if decide (k = k') then Some v else get k d'
  end.

Fixpoint set (k : K) (v : V) (d : list (K * V)) : list (K * V) :=
  match d with
  | [] => [(k, v)]
  | (k', v') :: d' =>
      if decide (k = k') then (k', v) :: d' else (k', v') :: set k v d'
  end.

Definition keys (d : list (K * V)) : list K := d.*1.

(** [k in d] *)
Definition contains (k : K) (d : list (K * V)) : bool :=
  bool_decide (k ∈ keys d).

(** [d[k]] *)
Definition subscript (d : list (K * V)) (k : K) : result V :=
  match get k d with
  | Some v => Ok v
  | None => Raise KeyError
  end.
End Ordered.
End PyDict.

(** ** [api/core/base.py] *)
Module Base.
(** [BaseStrategy]: the abstract methods besides [predict], whose argument
    differs from strategy to strategy.  [World] is what a [load] reads
    from outside the process: files and importable modules, as they are at
    the time of the call. *)
Class BaseStrategy (World S : Type) : Type := {
  is_loaded : S → bool;
  load : World → S → result () * S;
  get_name : S → string
}.

(** [BaseStrategy.ensure_loaded] *)
Definition ensure_loaded {World S} `{BaseStrategy World S}
    (w : World) (self : S) : result () * S :=
  if negb (is_loaded self) then load w self else (Ok (), self).

End Base.

(** ** [api/core/registry.py] *)
Module Registry.
Import Base.

Section StrategyRegistry.
Context {S : Type}.

Record t : Type := Build {
  _strategies : list (string * S);
  _default_name : option string
}.

(** [StrategyRegistry.__init__] *)
Definition init : t :=
  {| _strategies := []; _default_name := None |}.

(** [StrategyRegistry.list_all] *)
Definition list_all (self : t) : list string * t :=
  (PyDict.keys (_strategies self), self).

(** [StrategyRegistry.register] *)
Definition register (name : string) (strategy : S) (self : t) : () * t :=
  ((), {| _strategies := PyDict.set name strategy (_strategies self);
          _default_name := _default_name self |}).

(** [StrategyRegistry.get] *)
Definition get (name : option string) (self : t) : result S * t :=
  let name := match name with
              | None => _default_name self
              | Some n => Some n
              end in
  match name with
  | None => (Raise (ValueError NoDefaultStrategy), self)
  | Some name =>
      if negb (PyDict.contains name (_strategies self)) then
        let '(names, self) := list_all self in
        (Raise (ValueError (StrategyNotFound name names)), self)
      else
        match PyDict.get name (_strategies self) with
        | Some strategy => (Ok strategy, self)
        | None => (Raise KeyError, self)
        end
  end.

(** [StrategyRegistry.set_default] *)
Definition set_default (name : string) (self : t) : result () * t :=
  if negb (PyDict.contains name (_strategies self)) then
    let '(names, self) := list_all self in
    (Raise (ValueError (StrategyNotFound name names)), self)
  else
    (Ok (), {| _strategies := _strategies self;
               _default_name := Some name |}).

(** [StrategyRegistry.get_default_name] *)
Definition get_default_name (self : t) : option string * t :=
  (_default_name self, self).

(** The calls a client can make on a registry, and the registry a call
    leaves behind. *)
Inductive call : Type :=
  | CallRegister (name : string) (strategy : S)
  | CallSetDefault (name : string)
  | CallGet (name : option string)
  | CallListAll.

Definition after (c : call) (self : t) : t :=
  match c with
  | CallRegister name strategy => (register name strategy self).2
  | CallSetDefault name => (set_default name self).2
  | CallGet name => (get name self).2
  | CallListAll => (list_all self).2
  end.

Definition run (cs : list call) : t := foldl (λ r c, after c r) init cs.

(** The invariant of the data model: a default, once set, is registered. *)
Definition default_registered (self : t) : Prop :=
  ∀ n, _default_name self = Some n → n ∈ PyDict.keys (_strategies self).
End StrategyRegistry.
Arguments t S : clear implicits.

(** [StrategyRegistry.load_all]: the loop over [self._strategies.values()];
    [done] are the entries already visited.  A [load] that raises stops the
    loop and leaves the later strategies untouched. *)
Fixpoint load_each {World S} `{BaseStrategy World S} (w : World)
    (done todo : list (string * S)) : result () * list (string * S) :=
  match todo with
  | [] => (Ok (), done)
  | (n, strategy) :: todo' =>
      if negb (is_loaded strategy) then
        match load w strategy with
        | (Ok _, strategy') => load_each w (done ++ [(n, strategy')]) todo'
        | (Raise e, strategy') => (Raise e, done ++ (n, strategy') :: todo')
        end
      else load_each w (done ++ [(n, strategy)]) todo'
  end.

Definition load_all {World S} `{BaseStrategy World S}
    (w : World) (self : t S) : result () * t S :=
  let '(r, strategies) := load_each w [] (_strategies self) in
  (r, {| _strategies := strategies; _default_name := _default_name self |}).
End Registry.

(** ** Python values met as raw features, table keys and cells *)

#[global] Instance R_eq_dec : EqDecision R := Req_dec_T.

(** A raw scalar: an [int] or a [float]. *)
Inductive pyval : Type :=
  | VInt (z : Z)
  | VFloat (x : R).

(** A key of an encoding table.  Python compares and hashes numeric keys by
    value ([1 == 1.0]), so every numeric key is the real number it denotes; a
    [str] key never equals a numeric one. *)
Inductive pykey : Type :=
  | KStr (s : string)
  | KNum (x : R).

#[global] Instance pyval_eq_dec : EqDecision pyval.
Proof. solve_decision. Defined.
#[global] Instance pykey_eq_dec : EqDecision pykey.
Proof. solve_decision. Defined.

(** [float(v)] *)
Definition to_float (v : pyval) : R :=
  match v with
  | VInt z => IZR z
  | VFloat x => x
  end.

(** [v] used as a dictionary key as it is. *)
Definition native_key (v : pyval) : pykey := KNum (to_float v).

(** The standard library's calendar, as far as the services use it.
    [strptime s fmt] is [None] where Python raises [ValueError];
    [seconds_since a b] is [(a - b).total_seconds()]; [float_str] is [str] on
    a [float]. *)
Class PyRuntime : Type := {
  datetime : Type;
  strptime : string → string → option datetime;
  plus_days : datetime → Z → datetime;
  seconds_since : datetime → datetime → R;
  dt_year : datetime → Z;
  dt_month : datetime → Z;
  dt_day : datetime → Z;
  dt_weekday : datetime → Z;
  dt_isoweek : datetime → Z;
  float_str : R → string
}.

(** pandas, as far as the services use it.  A [Timestamp] is a whole number
    of ticks of the clock since the epoch; [to_datetime s] is [None] where
    [pd.to_datetime] raises; [ts_date_str t] is [str(t.date())]. *)
Class PandasRuntime : Type := {
  to_datetime : string → option Z;
  ts_year : Z → Z;
  ts_month : Z → Z;
  ts_isoweek : Z → Z;
  ts_date_str : Z → string
}.

(** A [float64] that may be [NaN]: [None] is [NaN]. *)
Abbreviation float64 := (option R).

(** Reductions of a pandas [Series] of numbers without missing values. *)
Module Series.
Local Open Scope R_scope.

#[global] Instance Rle_decision : RelDecision Rle := Rle_dec.

Definition sum (xs : list R) : R := foldr Rplus 0 xs.

(** [Series.max()] and [Series.min()]: [NaN] on an empty series. *)
Definition max (xs : list R) : float64 :=
  match xs with
  | [] => None
  | x :: xs' => Some (foldl Rmax x xs')
  end.

Definition min (xs : list R) : float64 :=
  match xs with
  | [] => None
  | x :: xs' => Some (foldl Rmin x xs')
  end.

(** [Series.mean()] *)
Definition mean (xs : list R) : float64 :=
  match xs with
  | [] => None
  | _ => Some (sum xs / INR (length xs))
  end.

(** The middle of a sorted list: the middle element, or the mean of the
    two middle elements. *)
Definition middle (s : list R) : float64 :=
  let n := length s in
  if Nat.even n then
    a ← s !! (n / 2 - 1)%nat; b ← s !! (n / 2)%nat; Some ((a + b) / 2)
  else s !! (n / 2)%nat.

(** [Series.median()] *)
Definition median (xs : list R) : float64 := middle (merge_sort Rle xs).

(** The sum of the squared deviations from [m]. *)
Definition sum_sq_dev (m : R) (xs : list R) : R :=
  sum ((λ x, (x - m) * (x - m)) <$> xs).

(** [Series.std()]: pandas normalises by [N - 1] (its default [ddof=1]),
    so the result is [NaN] for fewer than two values. *)
Definition std (xs : list R) : float64 :=
  if bool_decide (length xs < 2)%nat then None
  else m ← mean xs; Some (sqrt (sum_sq_dev m xs / (INR (length xs) - 1))).

(** The population standard deviation of the design document: the same
    sum normalised by [N]. *)
Definition population_std (xs : list R) : float64 :=
  m ← mean xs; Some (sqrt (sum_sq_dev m xs / INR (length xs))).
End Series.

(** A runtime to compute with: dates of the proleptic Gregorian calendar as
    day numbers (day 0 is 1970-01-01, a Thursday), every [datetime] at
    midnight.  [strptime] reads the two formats the services use, with all
    fields at full width.  [str] on a [float] is left out: it answers the
    empty string, which is no key of any table below. *)
Module StdCalendar.
Local Open Scope Z_scope.

Definition days_from_civil (y m d : Z) : Z :=
  let y := if m <=? 2 then y - 1 else y in
  let era := y / 400 in
  let yoe := y - era * 400 in
  let mp := (m + 9) mod 12 in
  let doy := (153 * mp + 2) / 5 + d - 1 in
  let doe := yoe * 365 + yoe / 4 - yoe / 100 + doy in
  era * 146097 + doe - 719468.

Definition civil_from_days (z : Z) : Z * Z * Z :=
  let z := z + 719468 in
  let era := z / 146097 in
  let doe := z - era * 146097 in
  let yoe := (doe - doe / 1460 + doe / 36524 - doe / 146096) / 365 in
  let doy := doe - (365 * yoe + yoe / 4 - yoe / 100) in
  let mp := (5 * doy + 2) / 153 in
  let d := doy - (153 * mp + 2) / 5 + 1 in
  let m := if mp <? 10 then mp + 3 else mp - 9 in
  let y := yoe + era * 400 in
  (if m <=? 2 then y + 1 else y, m, d).

Definition year (z : Z) : Z := (civil_from_days z).1.1.
Definition month (z : Z) : Z := (civil_from_days z).1.2.
Definition day (z : Z) : Z := (civil_from_days z).2.

(** Monday is 0. *)
Definition weekday (z : Z) : Z := (z + 3) mod 7.

Definition is_leap (y : Z) : bool :=
  (y mod 4 =? 0) && (negb (y mod 100 =? 0) || (y mod 400 =? 0)).

(** A year has 53 ISO weeks when it starts on a Thursday, or on a
    Wednesday and is a leap year. *)
Definition iso_weeks_in_year (y : Z) : Z :=
  let jan1 := weekday (days_from_civil y 1 1) in
  if (jan1 =? 3) || ((jan1 =? 2) && is_leap y) then 53 else 52.

Definition isoweek (z : Z) : Z :=
  let y := year z in
  let doy := z - days_from_civil y 1 1 + 1 in
  let w := (doy - (weekday z + 1) + 10) / 7 in
  if w <? 1 then iso_weeks_in_year (y - 1)
  else if iso_weeks_in_year y <? w then 1
  else w.

Definition digit (c : ascii) : option Z :=
  let n := Z.of_nat (nat_of_ascii c) in
  if (48 <=? n) && (n <=? 57) then Some (n - 48) else None.

Fixpoint number (acc : Z) (cs : list ascii) : option Z :=
  match cs with
  | [] => Some acc
  | c :: cs' => d ← digit c; number (10 * acc + d) cs'
  end.

(** The day number of [y]-[m]-[d], when that is a date of the calendar. *)
Definition valid_date (y m d : Z) : option Z :=
  if bool_decide (civil_from_days (days_from_civil y m d) = (y, m, d))
  then Some (days_from_civil y m d) else None.

(** ["%d/%m/%y"]: years 69..99 are 19xx, years 00..68 are 20xx. *)
Definition parse_dmy (s : string) : option Z :=
  match list_ascii_of_string s with
  | [d1; d2; s1; m1; m2; s2; y1; y2] =>
      if bool_decide (s1 = "/"%char ∧ s2 = "/"%char) then
        d ← number 0 [d1; d2];
        m ← number 0 [m1; m2];
        y ← number 0 [y1; y2];
        valid_date (if y <? 69 then 2000 + y else 1900 + y) m d
      else None
  | _ => None
  end.

(** ["%Y-%m-%d"] *)
Definition parse_ymd (s : string) : option Z :=
  match list_ascii_of_string s with
  | [y1; y2; y3; y4; s1; m1; m2; s2; d1; d2] =>
      if bool_decide (s1 = "-"%char ∧ s2 = "-"%char) then
        y ← number 0 [y1; y2; y3; y4];
        m ← number 0 [m1; m2];
        d ← number 0 [d1; d2];
        valid_date y m d
      else None
  | _ => None
  end.

Definition runtime : PyRuntime := {|
  datetime := Z;
  strptime s fmt :=
    if bool_decide (fmt = "%d/%m/%y"%string) then parse_dmy s
    else if bool_decide (fmt = "%Y-%m-%d"%string) then parse_ymd s
    else None;
  plus_days z n := z + n;
  seconds_since a b := IZR (86400 * (a - b));
  dt_year := year;
  dt_month := month;
  dt_day := day;
  dt_weekday := weekday;
  dt_isoweek := isoweek;
  float_str _ := ""%string
|}.

Definition pad (width : nat) (z : Z) : string :=
  let s := pretty z in
  string_of_list_ascii (replicate (width - String.length s) "0"%char) +:+ s.

Definition date_str (z : Z) : string :=
  pad 4 (year z) +:+ "-" +:+ pad 2 (month z) +:+ "-" +:+ pad 2 (day z).

(** One tick a day; [to_datetime] reads ISO dates only. *)
Definition pandas : PandasRuntime := {|
  to_datetime := parse_ymd;
  ts_year := year;
  ts_month := month;
  ts_isoweek := isoweek;
  ts_date_str := date_str
|}.
End StdCalendar.

(** ** [api/services/preprocessing_service.py]: the demand encoder *)
Module Encoder.
Section WithRuntime.
Context `{PyRuntime}.
Local Open Scope R_scope.

(** [str(v)] *)
Definition py_str (v : pyval) : string :=
  match v with
  | VInt z => pretty z
  | VFloat x => float_str x
  end.

(** [config.json] of the demand model, as far as the encoder reads it
    ([time_features] is [[]] when the key is absent). *)
Record demand_config : Type := {
  base_date : string;
  time_features : list string
}.

(** [self._demand_encoders], as built from [encoding_dicts.pkl]. *)
Record demand_encoders : Type := {
  store_encoding_dict : list (pykey * R);
  sku_encoding_dict : list (pykey * R);
  time_encoding_dicts : list (string * list (pykey * R));
  global_mean : R;
  m_store : R;
  m_sku : R;
  m_time : R
}.

Variable _demand_config : demand_config.
Variable _demand_encoders : demand_encoders.

(** [PreprocessingService._extract_datetime_features] *)
Definition _extract_datetime_features (week_date : datetime)
    : result (list (string * pyval)) :=
  match strptime (base_date _demand_config) "%Y-%m-%d" with
  | None => Raise (ValueError (BadDateString (base_date _demand_config)))
  | Some base_date =>
      let weekend_date := plus_days week_date 6 in
      let week_serial := seconds_since week_date base_date / (86400 * 7) in
      let end_week_serial :=
        seconds_since weekend_date base_date / (86400 * 7) in
      Ok [ ("year", VInt (dt_year week_date));
           ("date", VInt (dt_day week_date));
           ("month", VInt (dt_month week_date));
           ("weekday", VInt (dt_weekday week_date));
           ("weeknum", VInt (dt_isoweek week_date));
           ("week_serial", VFloat week_serial);
           ("end_year", VInt (dt_year weekend_date));
           ("end_date", VInt (dt_day weekend_date));
           ("end_month", VInt (dt_month weekend_date));
           ("end_weekday", VInt (dt_weekday weekend_date));
           ("end_weeknum", VInt (dt_isoweek weekend_date));
           ("end_week_serial", VFloat end_week_serial) ]
  end.

(** [PreprocessingService._encode_store] *)
Definition _encode_store (store_id : Z) : result R :=
  let store_dict := store_encoding_dict _demand_encoders in
  let store_id_key :=
    if PyDict.contains (KStr (py_str (VInt store_id))) store_dict
    then KStr (py_str (VInt store_id))
    else native_key (VInt store_id) in
  if PyDict.contains store_id_key store_dict then
    v ← PyDict.subscript store_dict store_id_key; Ok v
  else Ok (global_mean _demand_encoders).

(** [PreprocessingService._encode_sku] *)
Definition _encode_sku (sku_id : Z) : result R :=
  let sku_dict := sku_encoding_dict _demand_encoders in
  let sku_id_key :=
    if PyDict.contains (KStr (py_str (VInt sku_id))) sku_dict
    then KStr (py_str (VInt sku_id))
    else native_key (VInt sku_id) in
  if PyDict.contains sku_id_key sku_dict then
    v ← PyDict.subscript sku_dict sku_id_key; Ok v
  else Ok (global_mean _demand_encoders).

(** One turn of the loop of [_encode_time_features]: [encoded] after the
    turn for [feat_name]. *)
Definition encode_time_feature (features : list (string * pyval))
    (encoded : list (string * R)) (feat_name : string)
    : result (list (string * R)) :=
  let time_dicts := time_encoding_dicts _demand_encoders in
  if PyDict.contains feat_name features then
    value ← PyDict.subscript features feat_name;
    if PyDict.contains feat_name time_dicts then
      feat_dict ← PyDict.subscript time_dicts feat_name;
      let value_key :=
        if PyDict.contains (KStr (py_str value)) feat_dict
        then KStr (py_str value)
        else native_key value in
      if PyDict.contains value_key feat_dict then
        v ← PyDict.subscript feat_dict value_key;
        Ok (PyDict.set feat_name v encoded)
      else Ok (PyDict.set feat_name (global_mean _demand_encoders) encoded)
    else Ok (PyDict.set feat_name (to_float value) encoded)
  else Ok encoded.

(** The [for feat_name in time_feature_names] loop. *)
Fixpoint encode_time_loop (features : list (string * pyval))
    (encoded : list (string * R)) (names : list string)
    : result (list (string * R)) :=
  match names with
  | [] => Ok encoded
  | feat_name :: names' =>
      encoded' ← encode_time_feature features encoded feat_name;
      encode_time_loop features encoded' names'
  end.

(** [PreprocessingService._encode_time_features] *)
Definition _encode_time_features (features : list (string * pyval))
    : result (list (string * R)) :=
  encode_time_loop features [] (time_features _demand_config).

(** [{..., **time_encoded}]: the entries of [time_encoded] written over the
    literal part of the dictionary, in order. *)
Definition dict_update (d : list (string * pyval))
    (time_encoded : list (string * R)) : list (string * pyval) :=
  foldl (λ d kv, PyDict.set kv.1 (VFloat kv.2) d) d time_encoded.

(** [PreprocessingService.preprocess_demand_features] *)
Definition preprocess_demand_features (week : string) (store_id sku_id : Z)
    (base_price : R) (total_price : option R)
    (is_featured_sku is_display_sku : Z) : result (list (string * pyval)) :=
  let total_price := match total_price with
                     | None => base_price
                     | Some p => p
                     end in
  let diff := base_price - total_price in
  let relative_diff_base :=
    if decide (base_price ≠ 0) then diff / base_price else 0 in
  let relative_diff_total :=
    if decide (total_price ≠ 0) then diff / total_price else 0 in
  match strptime week "%d/%m/%y" with
  | None => Raise (ValueError (BadDateString week))
  | Some week_date =>
      features ← _extract_datetime_features week_date;
      store_encoded ← _encode_store store_id;
      sku_encoded ← _encode_sku sku_id;
      time_encoded ← _encode_time_features features;
      Ok (dict_update
            [ ("base_price", VFloat base_price);
              ("total_price", VFloat total_price);
              ("diff", VFloat diff);
              ("relative_diff_base", VFloat relative_diff_base);
              ("relative_diff_total", VFloat relative_diff_total);
              ("is_featured_sku", VInt is_featured_sku);
              ("is_display_sku", VInt is_display_sku);
              ("store_encoded", VFloat store_encoded);
              ("sku_encoded", VFloat sku_encoded);
              ("store_id", VInt store_id);
              ("sku_id", VInt sku_id) ]
            time_encoded)
  end.

(** The keys of the literal part of the dictionary
    [preprocess_demand_features] returns, and the keys of the dictionary
    [_extract_datetime_features] returns. *)
Definition base_keys : list string :=
  [ "base_price"; "total_price"; "diff"; "relative_diff_base";
    "relative_diff_total"; "is_featured_sku"; "is_display_sku";
    "store_encoded"; "sku_encoded"; "store_id"; "sku_id" ].

Definition datetime_keys : list string :=
  [ "year"; "date"; "month"; "weekday"; "weeknum"; "week_serial";
    "end_year"; "end_date"; "end_month"; "end_weekday"; "end_weeknum";
    "end_week_serial" ].

(** The lookup policy in the words of the design document: the string
    form of the key first, then the native form, else the global mean. *)
Definition lookup_or_global_mean (table : list (pykey * R)) (v : pyval) : R :=
  match PyDict.get (KStr (py_str v)) table with
  | Some x => x
  | None =>
      match PyDict.get (native_key v) table with
      | Some x => x
      | None => global_mean _demand_encoders
      end
  end.

(** What one turn of the time-feature loop writes for [name], in the
    same words: the raw value where the feature has no table. *)
Definition time_value (name : string) (v : pyval) : R :=
  match PyDict.get name (time_encoding_dicts _demand_encoders) with
  | Some table => lookup_or_global_mean table v
  | None => to_float v
  end.

(** A key is unseen by a table when neither form of it is a key. *)
Definition unseen (table : list (pykey * R)) (v : pyval) : Prop :=
  PyDict.get (KStr (py_str v)) table = None
  ∧ PyDict.get (native_key v) table = None.

(** [x] is what the design document asks of the encoding of [v]: the
    global mean for an unseen key, a value the table stores for [v]
    otherwise. *)
Definition target_encoding (table : list (pykey * R)) (v : pyval) (x : R)
    : Prop :=
  (unseen table v → x = global_mean _demand_encoders)
  ∧ (¬ unseen table v →
       PyDict.get (KStr (py_str v)) table = Some x
       ∨ PyDict.get (native_key v) table = Some x).
End WithRuntime.
End Encoder.

(** ** [api/services/preprocessing_service.py]: the lazy load of the
       configuration and of the encoders *)
Module PreprocessingService.
Section WithRuntime.
Context `{PyRuntime}.

(** What [_load_demand_config_and_encoders] reads, at the time of the
    call: the outcome of opening and parsing [config.json], and the outcome
    of [joblib.load] on [encoding_dicts.pkl] with the construction of the
    dictionary of encoders from it. *)
Record world : Type := {
  config_json : result Encoder.demand_config;
  encoding_dicts_pkl : result Encoder.demand_encoders
}.

Record t : Type := {
  _demand_config : option Encoder.demand_config;
  _demand_encoders : option Encoder.demand_encoders
}.

(** The class attributes of [PreprocessingService]. *)
Definition init : t :=
  {| _demand_config := None; _demand_encoders := None |}.

(** [PreprocessingService._load_demand_config_and_encoders] *)
Definition _load_demand_config_and_encoders (w : world) (self : t)
    : result () * t :=
  match _demand_config self, _demand_encoders self with
  | Some _, Some _ => (Ok (), self)
  | _, _ =>
      match config_json w with
      | Raise e => (Raise e, self)
      | Ok cfg =>
          let self := {| _demand_config := Some cfg;
                         _demand_encoders := _demand_encoders self |} in
          match encoding_dicts_pkl w with
          | Raise e => (Raise e, self)
          | Ok enc =>
              (Ok (), {| _demand_config := _demand_config self;
                         _demand_encoders := Some enc |})
          end
      end
  end.

(** [PreprocessingService.preprocess_demand_features], from its first
    line: the lazy load, and then the body on what is loaded. *)
Definition preprocess_demand_features (w : world) (self : t)
    (week : string) (store_id sku_id : Z) (base_price : R)
    (total_price : option R) (is_featured_sku is_display_sku : Z)
    : result (list (string * pyval)) * t :=
  match _load_demand_config_and_encoders w self with
  | (Raise e, self) => (Raise e, self)
  | (Ok _, self) =>
      match _demand_config self, _demand_encoders self with
      | Some cfg, Some enc =>
          (Encoder.preprocess_demand_features cfg enc week store_id sku_id
             base_price total_price is_featured_sku is_display_sku, self)
      | _, _ => (Raise TypeError, self)
      end
  end.
End WithRuntime.
End PreprocessingService.

(** ** [api/services/data_service.py] *)
Module DataService.
Section WithPandas.
Context `{PandasRuntime}.
Local Open Scope R_scope.

(** A row of [stores.csv]. *)
Record store_row : Type := {
  s_Store : Z;
  s_Type : string;
  s_Size : Z
}.

(** A row of [features.csv]; an empty cell is [None]. *)
Record feature_row : Type := {
  f_Store : Z;
  f_Date : Z;
  f_Temperature : float64;
  f_Fuel_Price : float64;
  f_MarkDown1 : float64;
  f_MarkDown2 : float64;
  f_MarkDown3 : float64;
  f_MarkDown4 : float64;
  f_MarkDown5 : float64;
  f_CPI : float64;
  f_Unemployment : float64;
  f_IsHoliday : option bool
}.

(** A row of [train.csv]. *)
Record train_row : Type := {
  t_Store : Z;
  t_Dept : Z;
  t_Date : Z;
  t_Weekly_Sales : R;
  t_IsHoliday : bool
}.

(** The service once its three tables are loaded. *)
Record t : Type := {
  _train_df : list train_row;
  _stores_df : list store_row;
  _features_df : list feature_row
}.

(** The dictionary [get_store_info] returns. *)
Record store_info : Type := {
  info_Store : Z;
  info_Type : string;
  info_Size : Z
}.

(** The dictionary [_extract_features] returns.  [Temperature] and
    [Fuel_Price] are [None] for an empty cell; [CPI] and [Unemployment]
    are numbers, [NaN] only when the column has no value at all. *)
Record features : Type := {
  Temperature : option R;
  Fuel_Price : option R;
  CPI : float64;
  Unemployment : float64;
  MarkDown1 : R;
  MarkDown2 : R;
  MarkDown3 : R;
  MarkDown4 : R;
  MarkDown5 : R;
  IsHoliday : bool;
  Date : string
}.

(** The dictionary [get_store_dept_stats] returns. *)
Record stats : Type := {
  stat_max : float64;
  stat_min : float64;
  stat_mean : float64;
  stat_median : float64;
  stat_std : float64
}.

Variable self : t.

(** [DataService.get_store_info] *)
Definition get_store_info (store_id : Z) : result store_info :=
  let store_info := filter (λ r, s_Store r = store_id) (_stores_df self) in
  match store_info with
  | [] => Raise (ValueError (StoreNotFound store_id))
  | row :: _ =>
      Ok {| info_Store := store_id;
            info_Type := s_Type row;
            info_Size := s_Size row |}
  end.

(** [DataService._extract_features] *)
Definition _extract_features (row : feature_row) : features :=
  let column_median (col : feature_row → float64) : float64 :=
    Series.median (omap col (_features_df self)) in
  {| Temperature := f_Temperature row;
     Fuel_Price := f_Fuel_Price row;
     CPI := match f_CPI row with
            | Some x => Some x
            | None => column_median f_CPI
            end;
     Unemployment := match f_Unemployment row with
                     | Some x => Some x
                     | None => column_median f_Unemployment
                     end;
     MarkDown1 := default 0 (f_MarkDown1 row);
     MarkDown2 := default 0 (f_MarkDown2 row);
     MarkDown3 := default 0 (f_MarkDown3 row);
     MarkDown4 := default 0 (f_MarkDown4 row);
     MarkDown5 := default 0 (f_MarkDown5 row);
     IsHoliday := default false (f_IsHoliday row);
     Date := ts_date_str (f_Date row) |}.

(** [|row['Date'] - target_date|] *)
Definition date_diff (target_date : Z) (row : feature_row) : Z :=
  Z.abs (f_Date row - target_date).

(** [store_features.loc[store_features['date_diff'].idxmin()]]: the first
    row at which the minimum is reached; [best] is the candidate so far. *)
Fixpoint idxmin (target_date : Z) (best : feature_row)
    (rows : list feature_row) : feature_row :=
  match rows with
  | [] => best
  | row :: rows' =>
      if bool_decide (date_diff target_date row < date_diff target_date best)%Z
      then idxmin target_date row rows'
      else idxmin target_date best rows'
  end.

(** [DataService.get_nearest_date_features] *)
Definition get_nearest_date_features (store_id : Z) (date : string)
    : result features :=
  match to_datetime date with
  | None => Raise (ValueError (BadDateString date))
  | Some target_date =>
      let store_features :=
        filter (λ r, f_Store r = store_id) (_features_df self) in
      match store_features with
      | [] => Raise (ValueError (NoFeaturesForStore store_id))
      | first :: rest =>
          let exact_match :=
            filter (λ r, f_Date r = target_date) store_features in
          match exact_match with
          | row :: _ => Ok (_extract_features row)
          | [] => Ok (_extract_features (idxmin target_date first rest))
          end
      end
  end.

(** [DataService.get_store_dept_stats] *)
Definition get_store_dept_stats (store_id dept_id : Z) : stats :=
  let filtered :=
    filter (λ r, t_Store r = store_id ∧ t_Dept r = dept_id) (_train_df self) in
  match filtered with
  | [] =>
      {| stat_max := Some 0; stat_min := Some 0; stat_mean := Some 0;
         stat_median := Some 0; stat_std := Some 0 |}
  | _ =>
      let sales := t_Weekly_Sales <$> filtered in
      {| stat_max := Series.max sales;
         stat_min := Series.min sales;
         stat_mean := Series.mean sales;
         stat_median := Series.median sales;
         stat_std := if bool_decide (1 < length sales)%nat
                     then Series.std sales else Some 0 |}
  end.

(** The weekly sales on record for a store and a department. *)
Definition history (store_id dept_id : Z) : list R :=
  t_Weekly_Sales <$>
    filter (λ r, t_Store r = store_id ∧ t_Dept r = dept_id) (_train_df self).




(** The statistics of a series [sales] that is not empty, with the
    standard deviation normalised by [N - 1]. *)
Definition sample_statistics (sales : list R) (st : stats) : Prop :=
  ∃ hi lo mu med sigma,
    st = {| stat_max := Some hi; stat_min := Some lo; stat_mean := Some mu;
            stat_median := Some med; stat_std := Some sigma |}
    ∧ (hi ∈ sales ∧ ∀ x, x ∈ sales → x <= hi)
    ∧ (lo ∈ sales ∧ ∀ x, x ∈ sales → lo <= x)
    ∧ mu * INR (length sales) = Series.sum sales
    ∧ (∃ sorted, Sorted Rle sorted ∧ sorted ≡ₚ sales
                 ∧ Series.middle sorted = Some med)
    ∧ 0 <= sigma
    ∧ sigma * sigma * (INR (length sales) - 1) = Series.sum_sq_dev mu sales
    ∧ ((length sales < 2)%nat → sigma = 0).

Definition zero_statistics : stats :=
  {| stat_max := Some 0; stat_min := Some 0; stat_mean := Some 0;
     stat_median := Some 0; stat_std := Some 0 |}.

(** What [_extract_features] does with an empty cell of a column that it
    fills with the median of the whole table. *)
Definition backfilled (col : feature_row → float64)
    (cell out : float64) : Prop :=
  (∀ x, cell = Some x → out = Some x)
  ∧ (cell = None → out = Series.median (omap col (_features_df self)))
  ∧ (out = None ↔
       cell = None ∧ ∀ r, r ∈ _features_df self → col r = None)
  ∧ (∀ v, cell = None → out = Some v →
       ∃ a b, (∃ r, r ∈ _features_df self ∧ col r = Some a)
              ∧ (∃ r, r ∈ _features_df self ∧ col r = Some b)
              ∧ a <= v <= b).
End WithPandas.
End DataService.

(** ** [api/services/preprocessing_service.py]: the price feature assembler *)
Module Assembler.
Import DataService.
Section WithPandas.
Context `{PandasRuntime}.
Local Open Scope R_scope.

(** A cell of the one-row [DataFrame]. *)
Inductive cell : Type :=
  | CInt (z : Z)
  | CFloat (x : float64)
  | CStr (s : string).

(** [cell == n] for an [int] [n], and [cell == s] for a [str] [s]. *)
Definition cell_eq_int (c : cell) (n : Z) : bool :=
  match c with
  | CInt z => bool_decide (z = n)
  | CFloat (Some x) => bool_decide (x = IZR n)
  | _ => false
  end.

Definition cell_eq_str (c : cell) (s : string) : bool :=
  match c with
  | CStr s' => bool_decide (s' = s)
  | _ => false
  end.

(** [float(cell)], also the conversion [np.array(..., dtype=np.float32)]
    applies to a cell. *)
Definition cell_to_float (c : cell) : result float64 :=
  match c with
  | CInt z => Ok (Some (IZR z))
  | CFloat x => Ok x
  | CStr s => Raise (ValueError (NotANumber s))
  end.

(** The loop [for x in xs: df[name(x)] = (df[col] == x).astype(int)]. *)
Fixpoint indicator_columns {A} (name : A → string) (eqb : cell → A → bool)
    (col : string) (df : list (string * cell)) (xs : list A)
    : result (list (string * cell)) :=
  match xs with
  | [] => Ok df
  | x :: xs' =>
      c ← PyDict.subscript df col;
      indicator_columns name eqb col
        (PyDict.set (name x) (CInt (if eqb c x then 1 else 0)) df) xs'
  end.

Definition store_column (n : Z) : string := "Store_" +:+ pretty n.
Definition dept_column (n : Z) : string := "Dept_" +:+ pretty n.
Definition type_column (s : string) : string := "Type_" +:+ s.

(** [range(1, 46)] *)
Definition store_domain : list Z := seqZ 1 45.

(** [sorted(train_df['Dept'].unique())] *)
Definition dept_values (ds : DataService.t) : list Z :=
  merge_sort Z.le (remove_dups (t_Dept <$> _train_df ds)).

Definition type_domain : list string := ["A"; "B"; "C"].

(** [PreprocessingService._one_hot_encode_price_features] *)
Definition _one_hot_encode_price_features (ds : DataService.t)
    (df : list (string * cell)) : result (list (string * cell)) :=
  df ← indicator_columns store_column cell_eq_int "Store" df store_domain;
  df ← indicator_columns dept_column cell_eq_int "Dept" df (dept_values ds);
  indicator_columns type_column cell_eq_str "Type" df type_domain.

(** [PreprocessingService.preprocess_price_features] *)
Definition preprocess_price_features (ds : DataService.t)
    (store_id dept_id : Z) (date : string) (is_holiday : option bool)
    (features_dict : option features) : result (list (string * cell)) :=
  store_info ← get_store_info ds store_id;
  features_dict ← match features_dict with
                  | None => get_nearest_date_features ds store_id date
                  | Some f => Ok f
                  end;
  let is_holiday := match is_holiday with
                    | None => IsHoliday features_dict
                    | Some b => b
                    end in
  let stats := get_store_dept_stats ds store_id dept_id in
  match to_datetime date with
  | None => Raise (ValueError (BadDateString date))
  | Some date_obj =>
      let total_markdown :=
        MarkDown1 features_dict + MarkDown2 features_dict
        + MarkDown3 features_dict + MarkDown4 features_dict
        + MarkDown5 features_dict in
      _one_hot_encode_price_features ds
        [ ("Store", CInt store_id);
          ("Dept", CInt dept_id);
          ("Date", CStr date);
          ("IsHoliday", CInt (if is_holiday then 1 else 0));
          ("Year", CInt (ts_year date_obj));
          ("Month", CInt (ts_month date_obj));
          ("Week", CInt (ts_isoweek date_obj));
          ("Type", CStr (info_Type store_info));
          ("Size", CInt (info_Size store_info));
          ("Temperature", CFloat (Temperature features_dict));
          ("Fuel_Price", CFloat (Fuel_Price features_dict));
          ("CPI", CFloat (CPI features_dict));
          ("Unemployment", CFloat (Unemployment features_dict));
          ("Total_MarkDown", CFloat (Some total_markdown));
          ("max", CFloat (stat_max stats));
          ("min", CFloat (stat_min stats));
          ("mean", CFloat (stat_mean stats));
          ("median", CFloat (stat_median stats));
          ("std", CFloat (stat_std stats)) ]
  end.

(** The columns of the frame before the indicator columns are added. *)
Definition base_columns : list string :=
  [ "Store"; "Dept"; "Date"; "IsHoliday"; "Year"; "Month"; "Week"; "Type";
    "Size"; "Temperature"; "Fuel_Price"; "CPI"; "Unemployment";
    "Total_MarkDown"; "max"; "min"; "mean"; "median"; "std" ].

(** The cells of the columns [name x], for [x] through [xs]. *)
Definition block {A} (name : A → string) (xs : list A)
    (df : list (string * cell)) : list (option cell) :=
  (λ x, PyDict.get (name x) df) <$> xs.

(** Exactly one cell of the block is 1 and every other cell is 0. *)
Definition one_hot (b : list (option cell)) : Prop :=
  ∃ i, b !! i = Some (Some (CInt 1))
       ∧ ∀ j c, j ≠ i → b !! j = Some c → c = Some (CInt 0).
End WithPandas.
End Assembler.

(** ** [api/services/data_service.py]: reading and caching the tables *)
Module DataServiceLoading.
Section Frames.
(** A pandas [DataFrame]; [convert_dates df] is [df] with its [Date] column
    replaced by [pd.to_datetime(df['Date'])], or the exception the
    conversion raises. *)
Context {Frame : Type}.
Variable convert_dates : Frame → result Frame.

(** What [pd.read_csv] gives for the three configured paths at the time
    of the call. *)
Record disk : Type := {
  train_csv : result Frame;
  stores_csv : result Frame;
  features_csv : result Frame
}.

(** The cached tables of the singleton. *)
Record t : Type := {
  _train_df : option Frame;
  _stores_df : option Frame;
  _features_df : option Frame
}.

(** [DataService.__init__] *)
Definition init : t :=
  {| _train_df := None; _stores_df := None; _features_df := None |}.

(** [DataService.load_price_forecast_datasets] *)
Definition load_price_forecast_datasets (d : disk) (self : t)
    : result () * t :=
  match _train_df self with
  | Some _ => (Ok (), self)
  | None =>
      match train_csv d with
      | Raise e => (Raise e, self)
      | Ok train =>
          let self := {| _train_df := Some train;
                         _stores_df := _stores_df self;
                         _features_df := _features_df self |} in
          match stores_csv d with
          | Raise e => (Raise e, self)
          | Ok stores =>
              let self := {| _train_df := _train_df self;
                             _stores_df := Some stores;
                             _features_df := _features_df self |} in
              match features_csv d with
              | Raise e => (Raise e, self)
              | Ok features =>
                  let self := {| _train_df := _train_df self;
                                 _stores_df := _stores_df self;
                                 _features_df := Some features |} in
                  match convert_dates train with
                  | Raise e => (Raise e, self)
                  | Ok train =>
                      let self := {| _train_df := Some train;
                                     _stores_df := _stores_df self;
                                     _features_df := _features_df self |} in
                      match convert_dates features with
                      | Raise e => (Raise e, self)
                      | Ok features =>
                          (Ok (), {| _train_df := _train_df self;
                                     _stores_df := _stores_df self;
                                     _features_df := Some features |})
                      end
                  end
              end
          end
      end
  end.

(** The head of a getter: [if self.<table> is None: self.load...()], and
    then the table the getter reads; subscripting [None] raises
    [TypeError]. *)
Definition guarded (table : t → option Frame) (d : disk) (self : t)
    : result Frame * t :=
  let '(r, self) := match table self with
                    | None => load_price_forecast_datasets d self
                    | Some _ => (Ok (), self)
                    end in
  match r with
  | Raise e => (Raise e, self)
  | Ok _ =>
      match table self with
      | None => (Raise TypeError, self)
      | Some df => (Ok df, self)
      end
  end.

(** The table [get_store_info] queries, the one
    [get_nearest_date_features] queries once the date has parsed, and the
    one [get_store_dept_stats] queries. *)
Definition stores_table : disk → t → result Frame * t := guarded _stores_df.
Definition features_table : disk → t → result Frame * t :=
  guarded _features_df.
Definition train_table : disk → t → result Frame * t := guarded _train_df.
End Frames.
End DataServiceLoading.

(** ** [api/strategies/demand/lightgbm_strategy.py] *)
Module LightGBM.
Import Base.
Local Open Scope R_scope.

(** A booster, as [predict] uses it: the score, in log1p space, of one
    row of features ([model.predict(X, num_iteration=...)[0]]). *)
Definition booster : Type := list R → R.

(** [config.json], as far as the strategy reads it. *)
Record config : Type := {
  feature_columns : list string;
  categorical_columns : list string
}.

(** What is at [model_fold_{i}.txt]: nothing, a file [lgb.Booster] rejects,
    or a booster. *)
Inductive fold_file : Type :=
  | NoFile
  | BadFile
  | ModelFile (b : booster).

Record world : Type := {
  config_json : option config;
  model_fold : nat → fold_file
}.

Record t : Type := {
  _loaded : bool;
  models : list booster;
  config_dict : option config
}.

(** [LightGBMStrategy.__init__] *)
Definition init : t :=
  {| _loaded := false; models := []; config_dict := None |}.

(** [get_config()["demand"]["n_folds"]] *)
Definition n_folds : nat := 10.

(** The loop [for i in range(n_folds)] of [load], on [self.models]. *)
Fixpoint load_models (w : world) (models : list booster) (folds : list nat)
    : result () * list booster :=
  match folds with
  | [] => (Ok (), models)
  | i :: folds' =>
      match model_fold w i with
      | NoFile => load_models w models folds'
      | BadFile => (Raise (LibraryError "lightgbm"), models)
      | ModelFile model => load_models w (models ++ [model]) folds'
      end
  end.

(** [LightGBMStrategy.load] *)
Definition load (w : world) (self : t) : result () * t :=
  if _loaded self then (Ok (), self)
  else
    match config_json w with
    | None => (Raise (FileNotFoundError "config.json"), self)
    | Some cfg =>
        let '(r, models) := load_models w (models self) (seq 0 n_folds) in
        let self := {| _loaded := _loaded self; models := models;
                       config_dict := Some cfg |} in
        match r with
        | Raise e => (Raise e, self)
        | Ok _ =>
            match models with
            | [] => (Raise (ValueError NoModelsLoaded), self)
            | _ => (Ok (), {| _loaded := true; models := models;
                              config_dict := Some cfg |})
            end
        end
    end.

#[global] Instance strategy : BaseStrategy world t := {|
  is_loaded := _loaded;
  Base.load := load;
  get_name _ := "lightgbm"
|}.

(** The loop that builds [feature_array]. *)
Fixpoint feature_array (features : list (string * pyval))
    (columns : list string) : result (list R) :=
  match columns with
  | [] => Ok []
  | col :: columns' =>
      if negb (PyDict.contains col features)
      then Raise (ValueError (MissingFeature col))
      else
        v ← PyDict.subscript features col;
        rest ← feature_array features columns';
        Ok (to_float v :: rest)
  end.

(** The loop over [self.models]: each score is taken back from log1p
    space on its own. *)
Definition predictions (models : list booster) (X : list R) : list R :=
  (λ model : booster, exp (model X) - 1) <$> models.

(** [LightGBMStrategy.predict] after [self.ensure_loaded()]; [np.mean] of
    no prediction is [NaN].  ([cat_indices] is computed and not used.) *)
Definition score (self : t) (features : list (string * pyval))
    : result float64 * t :=
  match config_dict self with
  | None => (Raise TypeError, self)
  | Some cfg =>
      match feature_array features (feature_columns cfg) with
      | Raise e => (Raise e, self)
      | Ok X => (Ok (Series.mean (predictions (models self) X)), self)
      end
  end.

(** [LightGBMStrategy.predict] *)
Definition predict (w : world) (self : t) (features : list (string * pyval))
    : result float64 * t :=
  match ensure_loaded w self with
  | (Raise e, self) => (Raise e, self)
  | (Ok _, self) => score self features
  end.



(** The booster [load] appends for a fold, if it appends one. *)
Definition fold_model (f : fold_file) : option booster :=
  match f with
  | ModelFile model => Some model
  | _ => None
  end.

(** The state of a strategy that [__init__], [load] and [predict] have
    made: when [_loaded] is set there is a model and a configuration. *)
Definition well_formed (self : t) : Prop :=
  _loaded self = true → models self ≠ [] ∧ is_Some (config_dict self).
End LightGBM.

(** ** [api/strategies/price/dnn_strategy.py] *)
Module DNN.
Import Base DataService Assembler.
Local Open Scope R_scope.

(** A compiled network, as [predict] uses it:
    [model.predict(X, verbose=0)[0][0]]. *)
Definition network : Type := list float64 → float64.

(** [model_from_json] of a Keras module, with [load_weights] and
    [compile] folded in: from the text of the architecture file and the
    weights file to a network, or the exception Keras raises. *)
Definition model_from_json_t : Type := string → string → result network.

(** What [load] reads: [import_module name] is the outcome of
    [importlib.import_module(name).model_from_json]; the two artifacts
    are [None] when the file does not exist; [datasets] is the outcome of
    [data_service.load_price_forecast_datasets()]. *)
Record world : Type := {
  import_module : string → result model_from_json_t;
  dnn_json : option string;
  dnn_weights : option string;
  datasets : result DataService.t
}.

Record t : Type := {
  _loaded : bool;
  model : option network;
  feature_columns : option (list string);
  _model_from_json : option model_from_json_t;
  _keras_import_error : option py_exn
}.

(** [DNNStrategy.__init__] *)
Definition init : t :=
  {| _loaded := false; model := None; feature_columns := None;
     _model_from_json := None; _keras_import_error := None |}.

Definition module_candidates : list string :=
  ["keras.models"; "tensorflow.keras.models"].

(** The loop [for module_name in module_candidates]: the first module
    that imports, or the last exception. *)
Fixpoint import_first (w : world) (candidates : list string)
    (last_exc : option py_exn) : model_from_json_t + option py_exn :=
  match candidates with
  | [] => inr last_exc
  | module_name :: candidates' =>
      match import_module w module_name with
      | Ok f => inl f
      | Raise exc => import_first w candidates' (Some exc)
      end
  end.

(** [DNNStrategy._ensure_keras_available] *)
Definition _ensure_keras_available (w : world) (self : t) : result () * t :=
  match _model_from_json self with
  | Some _ => (Ok (), self)
  | None =>
      match _keras_import_error self with
      | Some _ => (Raise (RuntimeError KerasPreviouslyFailed), self)
      | None =>
          match import_first w module_candidates None with
          | inl f =>
              (Ok (), {| _loaded := _loaded self; model := model self;
                         feature_columns := feature_columns self;
                         _model_from_json := Some f;
                         _keras_import_error := None |})
          | inr last_exc =>
              (Raise (RuntimeError KerasImportFailed),
               {| _loaded := _loaded self; model := model self;
                  feature_columns := feature_columns self;
                  _model_from_json := None;
                  _keras_import_error := last_exc |})
          end
      end
  end.

(** The loop of [_determine_feature_columns] that adds department
    columns up to [width] columns. *)
Fixpoint add_dept_columns (width : nat) (columns : list string)
    (depts : list Z) : list string :=
  match depts with
  | [] => columns
  | dept_val :: depts' =>
      let feat_name := dept_column dept_val in
      if bool_decide (feat_name ∈ columns)
      then add_dept_columns width columns depts'
      else
        let columns := columns ++ [feat_name] in
        if bool_decide (width ≤ length columns)%nat then columns
        else add_dept_columns width columns depts'
  end.

(** [DNNStrategy._determine_feature_columns] *)
Definition _determine_feature_columns (ds : DataService.t) : list string :=
  let columns :=
    [ "mean"; "median"; "Week"; "Temperature"; "max"; "CPI"; "Fuel_Price";
      "min"; "Unemployment"; "std"; "Month"; "Total_MarkDown"; "IsHoliday";
      "Size"; "Year"; "Dept_1"; "Dept_3"; "Dept_5"; "Dept_9"; "Dept_11";
      "Dept_16"; "Dept_18"; "Dept_56" ] in
  let columns :=
    if bool_decide (length columns < 23)%nat
    then add_dept_columns 23 columns (take 10 (dept_values ds))
    else columns in
  take 23 columns.

(** [DNNStrategy.load] *)
Definition load (w : world) (self : t) : result () * t :=
  if _loaded self then (Ok (), self)
  else
    match _ensure_keras_available w self with
    | (Raise e, self) => (Raise e, self)
    | (Ok _, self) =>
        match dnn_json w, dnn_weights w, _model_from_json self with
        | None, _, _ => (Raise (FileNotFoundError "dnn_regressor.json"), self)
        | _, None, _ =>
            (Raise (FileNotFoundError "dnn_regressor.weights.h5"), self)
        | _, _, None => (Raise TypeError, self)
        | Some json, Some weights, Some model_from_json =>
            match model_from_json json weights with
            | Raise e => (Raise e, self)
            | Ok net =>
                let self := {| _loaded := _loaded self; model := Some net;
                               feature_columns := feature_columns self;
                               _model_from_json := _model_from_json self;
                               _keras_import_error :=
                                 _keras_import_error self |} in
                match datasets w with
                | Raise e => (Raise e, self)
                | Ok ds =>
                    (Ok (), {| _loaded := true; model := Some net;
                               feature_columns :=
                                 Some (_determine_feature_columns ds);
                               _model_from_json := _model_from_json self;
                               _keras_import_error :=
                                 _keras_import_error self |})
                end
            end
        end
    end.

#[global] Instance strategy : BaseStrategy world t := {|
  is_loaded := _loaded;
  Base.load := load;
  get_name _ := "dnn"
|}.

(** The loop that builds [feature_array]: a column the frame lacks is 0. *)
Fixpoint feature_array (features_df : list (string * cell))
    (columns : list string) : result (list float64) :=
  match columns with
  | [] => Ok []
  | col :: columns' =>
      x ← (if PyDict.contains col features_df
           then c ← PyDict.subscript features_df col; cell_to_float c
           else Ok (Some 0));
      rest ← feature_array features_df columns';
      Ok (x :: rest)
  end.

(** [DNNStrategy.predict] after [self.ensure_loaded()] *)
Definition score (self : t) (features_df : list (string * cell))
    : result float64 * t :=
  match feature_columns self, model self with
  | Some columns, Some net =>
      match feature_array features_df columns with
      | Raise e => (Raise e, self)
      | Ok X => (Ok (net X), self)
      end
  | _, _ => (Raise TypeError, self)
  end.

(** [DNNStrategy.predict] *)
Definition predict (w : world) (self : t) (features_df : list (string * cell))
    : result float64 * t :=
  match ensure_loaded w self with
  | (Raise e, self) => (Raise e, self)
  | (Ok _, self) => score self features_df
  end.
End DNN.

(** ** [api/strategies/price/linear_strategy.py] *)
Module Linear.
Import Base DataService Assembler.
Local Open Scope R_scope.

(** The unpickled regressor: [coef_] when it has the attribute, and
    [model.predict(X)[0]], which raises on a row of the wrong width. *)
Record regressor : Type := {
  coef_ : option (list R);
  regressor_predict : list float64 → result float64
}.

(** What [load] reads: the model file ([None] when it does not exist, the
    outcome of [pickle.load] otherwise) and the outcome of
    [data_service.load_price_forecast_datasets()]. *)
Record world : Type := {
  linear_model : option (result regressor);
  datasets : result DataService.t
}.

Record t : Type := {
  _loaded : bool;
  model : option regressor;
  feature_columns : option (list string)
}.

(** [LinearStrategy.__init__] ([self.scaler] is never used) *)
Definition init : t :=
  {| _loaded := false; model := None; feature_columns := None |}.

Definition default_features : list string :=
  [ "mean"; "median"; "Week"; "Temperature"; "max"; "CPI"; "Fuel_Price";
    "min"; "Unemployment"; "std"; "Month"; "Total_MarkDown"; "IsHoliday";
    "Size"; "Year" ]
  ++ [ "Dept_1"; "Dept_3"; "Dept_5"; "Dept_9"; "Dept_11"; "Dept_16";
       "Dept_18"; "Dept_56" ].

(** The loop that adds the department columns still missing, up to
    [n_features] columns. *)
Fixpoint add_dept_columns (n_features : nat) (columns : list string)
    (depts : list Z) : list string :=
  match depts with
  | [] => columns
  | dept_val :: depts' =>
      let feat_name := dept_column dept_val in
      if bool_decide (feat_name ∈ columns)
      then add_dept_columns n_features columns depts'
      else
        let columns := columns ++ [feat_name] in
        if bool_decide (n_features ≤ length columns)%nat then columns
        else add_dept_columns n_features columns depts'
  end.

(** [LinearStrategy._determine_feature_columns] *)
Definition _determine_feature_columns (model : regressor)
    (ds : DataService.t) : list string :=
  match coef_ model with
  | Some coef =>
      let n_features := length coef in
      let columns :=
        default_features ++ (store_column <$> seqZ 1 45)
        ++ (type_column <$> ["A"; "B"; "C"]) in
      if bool_decide (n_features < length columns)%nat
      then take n_features columns
      else if bool_decide (length columns < n_features)%nat
      then add_dept_columns n_features columns (dept_values ds)
      else columns
  | None => default_features
  end.

(** [LinearStrategy.load] *)
Definition load (w : world) (self : t) : result () * t :=
  if _loaded self then (Ok (), self)
  else
    match linear_model w with
    | None => (Raise (FileNotFoundError "linear_regressor.pkl"), self)
    | Some (Raise e) => (Raise e, self)
    | Some (Ok m) =>
        let self := {| _loaded := _loaded self; model := Some m;
                       feature_columns := feature_columns self |} in
        match datasets w with
        | Raise e => (Raise e, self)
        | Ok ds =>
            (Ok (), {| _loaded := true; model := Some m;
                       feature_columns :=
                         Some (_determine_feature_columns m ds) |})
        end
    end.

#[global] Instance strategy : BaseStrategy world t := {|
  is_loaded := _loaded;
  Base.load := load;
  get_name _ := "linear"
|}.

(** The loop that builds [feature_array]: the cell as it is, 0 for a column
    the frame lacks. *)
Definition feature_array (features_df : list (string * cell))
    (columns : list string) : list cell :=
  (λ col, default (CFloat (Some 0)) (PyDict.get col features_df)) <$> columns.

(** [LinearStrategy.predict] after [self.ensure_loaded()] *)
Definition score (self : t) (features_df : list (string * cell))
    : result float64 * t :=
  match feature_columns self, model self with
  | Some columns, Some m =>
      match mapM cell_to_float (feature_array features_df columns) with
      | Raise e => (Raise e, self)
      | Ok X =>
          match regressor_predict m X with
          | Raise e => (Raise e, self)
          | Ok prediction => (Ok prediction, self)
          end
      end
  | _, _ => (Raise TypeError, self)
  end.

(** [LinearStrategy.predict] *)
Definition predict (w : world) (self : t) (features_df : list (string * cell))
    : result float64 * t :=
  match ensure_loaded w self with
  | (Raise e, self) => (Raise e, self)
  | (Ok _, self) => score self features_df
  end.
End Linear.

(** ** [api/strategies/demand/registry.py] and
       [api/strategies/price/registry.py] *)
Module Registries.
Import Registry.

Definition demand_registry : Registry.t LightGBM.t :=
  run [ CallRegister "lightgbm" LightGBM.init; CallSetDefault "lightgbm" ].

Definition price_registry : Registry.t Linear.t :=
  run [ CallRegister "linear" Linear.init; CallSetDefault "linear" ].
End Registries.

(** ** Data to compute with *)
(** ** [api/services/prediction_service.py] and
       [api/handlers/demand_handler.py] *)
Module PredictionService.
Import Base Registry.
Section WithRuntime.
Context `{PyRuntime}.

(** The module-level objects a demand request works on, and what it reads
    from outside the process. *)
Record state : Type := {
  demand_registry : Registry.t LightGBM.t;
  preprocessing_service : PreprocessingService.t
}.

Record world : Type := {
  model_dir : LightGBM.world;
  encoder_dir : PreprocessingService.world
}.

(** The dictionary [predict_demand] returns, and the body of the
    response. *)
Record demand_result : Type := {
  predicted_units_sold : float64;
  record_id : option Z;
  strategy_used : string;
  status : string
}.

(** [PredictionService.predict_demand].  The strategy [get] returns is the
    object the registry holds: what [predict] does to it shows in the
    registry, also when [predict] raises.  (Strategies registered under
    different names are different objects, as in
    [api/strategies/demand/registry.py].) *)
Definition predict_demand (w : world) (self : state)
    (week : string) (store_id sku_id : Z)
    (base_price : R) (total_price : option R)
    (is_featured_sku is_display_sku : Z) (strategy_name : string)
    : result demand_result * state :=
  match Registry.get (Some strategy_name) (demand_registry self) with
  | (Raise e, registry) =>
      (Raise e, {| demand_registry := registry;
                   preprocessing_service := preprocessing_service self |})
  | (Ok strategy, registry) =>
      match PreprocessingService.preprocess_demand_features (encoder_dir w)
              (preprocessing_service self) week store_id sku_id base_price
              total_price is_featured_sku is_display_sku with
      | (Raise e, preprocessing) =>
          (Raise e, {| demand_registry := registry;
                       preprocessing_service := preprocessing |})
      | (Ok features, preprocessing) =>
          let '(r, strategy) :=
            LightGBM.predict (model_dir w) strategy features in
          let registry :=
            {| _strategies :=
                 PyDict.set strategy_name strategy (_strategies registry);
               _default_name := _default_name registry |} in
          let self := {| demand_registry := registry;
                         preprocessing_service := preprocessing |} in
          match r with
          | Raise e => (Raise e, self)
          | Ok predicted =>
              (Ok {| predicted_units_sold := predicted;
                     record_id := None;
                     strategy_used := strategy_name;
                     status := "success" |}, self)
          end
      end
  end.

(** [DemandForecastRequest], once pydantic has accepted the body. *)
Record demand_request : Type := {
  week : string;
  store_id : Z;
  sku_id : Z;
  base_price : R;
  total_price : option R;
  is_featured_sku : Z;
  is_display_sku : Z;
  strategy : string
}.

(** The [detail] of an [HTTPException] of the handler. *)
Inductive detail : Type :=
  | StrategyNotAvailable (strategy_name : string) (available : list string)
      (* f"Strategy '{strategy_name}' not found. Available: {...}" *)
  | ErrorText (e : py_exn)
      (* str(e) *)
  | InternalServerError (e : py_exn).
      (* f"Internal server error: {str(e)}" *)

(** What the endpoint answers: the response body, or an [HTTPException]. *)
Inductive response : Type :=
  | DemandForecastResponse (body : demand_result)
  | HTTPException (status_code : Z) (d : detail).

Definition is_success (r : response) : bool :=
  match r with
  | DemandForecastResponse _ => true
  | HTTPException _ _ => false
  end.

(** [request.strategy or "lightgbm"] *)
Definition strategy_or_default (request : demand_request) : string :=
  if decide (strategy request = EmptyString) then "lightgbm"
  else strategy request.

(** [demand_handler.predict_demand].  The error the library raises for a
    model file it rejects is [lightgbm.basic.LightGBMError], which is not a
    [ValueError]. *)
Definition handler (w : world) (self : state) (request : demand_request)
    : response * state :=
  let strategy_name := strategy_or_default request in
  let '(names, registry) := list_all (demand_registry self) in
  let self := {| demand_registry := registry;
                 preprocessing_service := preprocessing_service self |} in
  if negb (bool_decide (strategy_name ∈ names)) then
    let '(names, registry) := list_all (demand_registry self) in
    (HTTPException 400 (StrategyNotAvailable strategy_name names),
     {| demand_registry := registry;
        preprocessing_service := preprocessing_service self |})
  else
    match predict_demand w self (week request) (store_id request)
            (sku_id request) (base_price request) (total_price request)
            (is_featured_sku request) (is_display_sku request)
            strategy_name with
    | (Ok result, self) =>
        (DemandForecastResponse
           {| predicted_units_sold := predicted_units_sold result;
              record_id := record_id result;
              strategy_used := strategy_used result;
              status := "success" |}, self)
    | (Raise (ValueError m), self) =>
        (HTTPException 400 (ErrorText (ValueError m)), self)
    | (Raise e, self) =>
        (HTTPException 500 (InternalServerError e), self)
    end.

(** Every strategy of the registry is as [__init__], [load] and [predict]
    leave a strategy. *)
Definition well_formed (registry : Registry.t LightGBM.t) : Prop :=
  ∀ name strategy,
    PyDict.get name (_strategies registry) = Some strategy →
    LightGBM.well_formed strategy.
End WithRuntime.
End PredictionService.

Module Sample.
Import DataService.
Local Open Scope R_scope.

(** A configuration and tables of the demand encoder: store 8091 is keyed
    both as a string and as a number, with different values; SKU 216418
    only as a number; month 1 only as a string; no table for the weekday. *)
Definition cfg : Encoder.demand_config := {|
  Encoder.base_date := "2011-01-03";
  Encoder.time_features := ["month"; "weekday"]
|}.

Definition enc : Encoder.demand_encoders := {|
  Encoder.store_encoding_dict := [(KStr "8091", 40); (KNum 8091, 41)];
  Encoder.sku_encoding_dict := [(KStr "300021", 7); (KNum 216418, 60)];
  Encoder.time_encoding_dicts := [("month", [(KStr "1", 55)])];
  Encoder.global_mean := 50;
  Encoder.m_store := 10; Encoder.m_sku := 10; Encoder.m_time := 5
|}.

Definition feature (store : Z) (date : Z) (temperature : R)
    (cpi : float64) (holiday : bool) : feature_row :=
  {| f_Store := store; f_Date := date;
     f_Temperature := Some temperature; f_Fuel_Price := Some 3.5;
     f_MarkDown1 := None; f_MarkDown2 := None; f_MarkDown3 := None;
     f_MarkDown4 := None; f_MarkDown5 := None;
     f_CPI := cpi; f_Unemployment := Some 6.5;
     f_IsHoliday := Some holiday |}.

Definition sale (store dept : Z) (date : Z) (sales : R) : train_row :=
  {| t_Store := store; t_Dept := dept; t_Date := date;
     t_Weekly_Sales := sales; t_IsHoliday := false |}.

(** Store 1 has feature rows for 2012-10-26 (day 15639), 2012-10-28 (day
    15641) and 2012-11-02 (day 15646), and two weeks of sales of
    department 1; store 2 has sales of department 3 only. *)
Definition service : DataService.t := {|
  _train_df := [ sale 1 1 15639 0; sale 2 3 15639 10; sale 1 1 15646 2 ];
  _stores_df := [ {| s_Store := 1; s_Type := "A"; s_Size := 151315 |};
                  {| s_Store := 2; s_Type := "B"; s_Size := 202307 |} ];
  _features_df := [ feature 1 15639 60 (Some 220) false;
                    feature 2 15639 50 (Some 210) false;
                    feature 1 15641 61 None false;
                    feature 1 15646 62 (Some 222) true ]
|}.



Definition request : list (string * pyval) :=
  [ ("store_id", VInt 8091); ("base_price", VFloat 111.8625) ].

(** Three states of the model directory: no file at all, the configuration
    without any fold file, and the configuration with the file of fold 0. *)
Definition empty_disk : LightGBM.world := {|
  LightGBM.config_json := None;
  LightGBM.model_fold _ := LightGBM.NoFile
|}.

Definition config_only : LightGBM.world := {|
  LightGBM.config_json :=
    Some {| LightGBM.feature_columns := ["base_price"; "store_id"];
            LightGBM.categorical_columns := ["store_id"] |};
  LightGBM.model_fold _ := LightGBM.NoFile
|}.

Definition one_fold : LightGBM.world := {|
  LightGBM.config_json :=
    Some {| LightGBM.feature_columns := ["base_price"; "store_id"];
            LightGBM.categorical_columns := ["store_id"] |};
  LightGBM.model_fold i :=
    match i with
    | 0%nat => LightGBM.ModelFile (λ _, 0)
    | _ => LightGBM.NoFile
    end
|}.

(** Fold 0 loads and fold 1 is a file [lgb.Booster] rejects. *)
Definition bad_fold : LightGBM.world := {|
  LightGBM.config_json :=
    Some {| LightGBM.feature_columns := ["base_price"; "store_id"];
            LightGBM.categorical_columns := ["store_id"] |};
  LightGBM.model_fold i :=
    match i with
    | 0%nat => LightGBM.ModelFile (λ _, 0)
    | 1%nat => LightGBM.BadFile
    | _ => LightGBM.NoFile
    end
|}.

(** A dataset directory where [stores.csv] is missing, and the same
    directory with the file back; a frame is the name of its file here. *)
Definition stores_missing : DataServiceLoading.disk (Frame := string) := {|
  DataServiceLoading.train_csv := Ok "train.csv";
  DataServiceLoading.stores_csv := Raise (FileNotFoundError "stores.csv");
  DataServiceLoading.features_csv := Ok "features.csv"
|}.

Definition all_datasets : DataServiceLoading.disk (Frame := string) := {|
  DataServiceLoading.train_csv := Ok "train.csv";
  DataServiceLoading.stores_csv := Ok "stores.csv";
  DataServiceLoading.features_csv := Ok "features.csv"
|}.

(** Encoding tables as [json.load] gives them, with string keys only. *)
Definition enc_json : Encoder.demand_encoders := {|
  Encoder.store_encoding_dict := [(KStr "8091", 40)];
  Encoder.sku_encoding_dict := [(KStr "216418", 60)];
  Encoder.time_encoding_dicts := [("month", [(KStr "1", 55)])];
  Encoder.global_mean := 50;
  Encoder.m_store := 10; Encoder.m_sku := 10; Encoder.m_time := 5
|}.

(** The services before the first request and once the configuration and
    the encoders are loaded; the two files, and a disk without them. *)
Definition fresh_services : PredictionService.state := {|
  PredictionService.demand_registry := Registries.demand_registry;
  PredictionService.preprocessing_service := PreprocessingService.init
|}.

Definition encoder_files : PreprocessingService.world := {|
  PreprocessingService.config_json := Ok cfg;
  PreprocessingService.encoding_dicts_pkl := Ok enc_json
|}.

Definition no_encoder_files : PreprocessingService.world := {|
  PreprocessingService.config_json :=
    Raise (FileNotFoundError "config.json");
  PreprocessingService.encoding_dicts_pkl :=
    Raise (FileNotFoundError "encoding_dicts.pkl")
|}.

(** The request of the end-to-end scenario, without a strategy name. *)
Definition demand_request : PredictionService.demand_request := {|
  PredictionService.week := "17/01/11";
  PredictionService.store_id := 8091;
  PredictionService.sku_id := 216418;
  PredictionService.base_price := 111.8625;
  PredictionService.total_price := Some 99.0375;
  PredictionService.is_featured_sku := 0;
  PredictionService.is_display_sku := 0;
  PredictionService.strategy := EmptyString
|}.

(** A regressor with [n] coefficients, which rejects a row of another
    width as scikit-learn does, and the model file that holds it. *)
Definition regressor_of_width (n : nat) : Linear.regressor := {|
  Linear.coef_ := Some (replicate n 1);
  Linear.regressor_predict X :=
    if bool_decide (length X = n) then Ok (Some 0)
    else Raise (LibraryError "sklearn")
|}.

Definition linear_disk (n : nat) : Linear.world := {|
  Linear.linear_model := Some (Ok (regressor_of_width n));
  Linear.datasets := Ok service
|}.

(** A machine without Keras, and one where [keras.models] imports. *)
Definition no_keras : DNN.world := {|
  DNN.import_module name := Raise (LibraryError name);
  DNN.dnn_json := Some "{}";
  DNN.dnn_weights := Some "";
  DNN.datasets := Ok service
|}.

Definition with_keras : DNN.world := {|
  DNN.import_module _ := Ok (λ _ _, Ok (λ _, Some 0));
  DNN.dnn_json := Some "{}";
  DNN.dnn_weights := Some "";
  DNN.datasets := Ok service
|}.
End Sample.

(* ===================================================================== *)
(** * Part II: theorems                                                   *)
(* ===================================================================== *)

Module PyDictFacts.
Section Ordered.
Context {K V : Type} `{EqDecision K}.
Implicit Types (d : list (K * V)) (k : K) (v : V).

Lemma keys_set_elem d k v k' :
  k' ∈ PyDict.keys (PyDict.set k v d) ↔ k' = k ∨ k' ∈ PyDict.keys d.
Proof.
  unfold PyDict.keys. induction d as [|[k0 v0] d IH]; simpl.
  - rewrite list_elem_of_singleton, elem_of_nil. tauto.
  - case_decide; subst; simpl; rewrite !elem_of_cons; [|rewrite IH]; tauto.
Qed.

Lemma get_Some_elem d k v : PyDict.get k d = Some v → k ∈ PyDict.keys d.
Proof.
  unfold PyDict.keys. induction d as [|[k0 v0] d IH]; simpl; [done|].
  rewrite elem_of_cons. case_decide; subst; auto.
Qed.

Lemma get_None_elem d k : PyDict.get k d = None ↔ k ∉ PyDict.keys d.
Proof.
  unfold PyDict.keys. induction d as [|[k0 v0] d IH]; simpl.
  - rewrite elem_of_nil. tauto.
  - rewrite elem_of_cons. case_decide; subst; [|rewrite IH]; intuition congruence.
Qed.

Lemma contains_true d k : PyDict.contains k d = true ↔ k ∈ PyDict.keys d.
Proof. unfold PyDict.contains. apply bool_decide_eq_true. Qed.

Lemma contains_false d k : PyDict.contains k d = false ↔ k ∉ PyDict.keys d.
Proof. unfold PyDict.contains. apply bool_decide_eq_false. Qed.

Lemma get_set_eq d k v : PyDict.get k (PyDict.set k v d) = Some v.
Proof.
  induction d as [|[k0 v0] d IH]; simpl.
  - by rewrite decide_True.
  - case_decide; subst; simpl.
    + by rewrite decide_True.
    + by rewrite decide_False.
Qed.

Lemma get_set_ne d k k' v :
  k ≠ k' → PyDict.get k' (PyDict.set k v d) = PyDict.get k' d.
Proof.
  intros Hne. induction d as [|[k0 v0] d IH]; simpl.
  - case_decide; congruence.
  - repeat (case_decide; simpl); congruence.
Qed.
End Ordered.
End PyDictFacts.

Module RegistryFacts.
Import Base Registry.
Section StrategyRegistry.
Context {S : Type}.
Implicit Types (self r : Registry.t S) (name : string).

Lemma init_default_registered : default_registered (@init S).
Proof. intros n Hn. discriminate Hn. Qed.

Lemma register_keeps_keys r name (s : S) k :
  k ∈ PyDict.keys (_strategies r) →
  k ∈ PyDict.keys (_strategies (register name s r).2).
Proof. simpl. rewrite PyDictFacts.keys_set_elem. auto. Qed.

Lemma register_default_registered r name (s : S) :
  default_registered r → default_registered (register name s r).2.
Proof.
  intros Hinv n Hn. simpl in *.
  apply PyDictFacts.keys_set_elem. right. by apply Hinv.
Qed.

Lemma set_default_default_registered r name :
  default_registered r → default_registered (set_default name r).2.
Proof.
  intros Hinv. unfold set_default.
  destruct (PyDict.contains name (_strategies r)) eqn:Hc; simpl; [|done].
  intros n [= <-]. simpl. by apply PyDictFacts.contains_true.
Qed.

Lemma get_same_registry (o : option string) r : (get o r).2 = r.
Proof.
  unfold get. destruct o as [n|]; [|destruct (_default_name r) as [n|]]; simpl;
    try done;
    destruct (PyDict.contains n (_strategies r)); simpl; try done;
    by destruct (PyDict.get n (_strategies r)).
Qed.

Lemma after_default_registered (c : call) r :
  default_registered r → default_registered (after c r).
Proof.
  intros Hinv. destruct c as [name s|name|o|]; simpl.
  - by apply register_default_registered.
  - by apply set_default_default_registered.
  - by rewrite get_same_registry.
  - done.
Qed.

Lemma after_keeps_keys (c : call) r k :
  k ∈ PyDict.keys (_strategies r) →
  k ∈ PyDict.keys (_strategies (after c r)).
Proof.
  intros Hk. destruct c as [name s|name|o|]; simpl.
  - rewrite PyDictFacts.keys_set_elem. auto.
  - unfold set_default. by destruct (PyDict.contains _ _).
  - by rewrite get_same_registry.
  - done.
Qed.

Lemma run_snoc (cs : list (@call S)) c : run (cs ++ [c]) = after c (run cs).
Proof. unfold run. by rewrite foldl_app. Qed.

Lemma run_default_registered (cs : list (@call S)) :
  default_registered (run cs).
Proof.
  induction cs as [|c cs IH] using rev_ind.
  - apply init_default_registered.
  - rewrite run_snoc. by apply after_default_registered.
Qed.
End StrategyRegistry.

Lemma load_each_keys {World S} `{BaseStrategy World S} (w : World)
    (todo : list (string * S)) : ∀ done,
  PyDict.keys (load_each w done todo).2
  = PyDict.keys done ++ PyDict.keys todo.
Proof.
  unfold PyDict.keys.
  induction todo as [|[n strategy] todo IH]; intros done; simpl.
  - by rewrite app_nil_r.
  - destruct (negb (is_loaded strategy)).
    + destruct (load w strategy) as [[[]|e] strategy']; simpl.
      * rewrite IH, fmap_app. simpl. by rewrite <- app_assoc.
      * by rewrite fmap_app.
    + rewrite IH, fmap_app. simpl. by rewrite <- app_assoc.
Qed.

(** [load_all] changes no key and no default. *)
Lemma load_all_default_registered {World S} `{BaseStrategy World S}
    (w : World) (r : Registry.t S) :
  default_registered r → default_registered (load_all w r).2.
Proof.
  intros Hinv n Hn. unfold load_all in *.
  pose proof (load_each_keys w (_strategies r) []) as Hkeys.
  destruct (load_each w [] (_strategies r)) as [res strategies].
  simpl in *. rewrite Hkeys. by apply Hinv.
Qed.
End RegistryFacts.

Module RegistryTheorems.
Import Base Registry RegistryFacts.
Section StrategyRegistry.
Context {S : Type}.
Implicit Types (self r : Registry.t S) (name : string).


(** C9.  The empty registry satisfies the invariant (a default that is set
    is a registered name); [register], [set_default], [get] and [list_all]
    each preserve it; [set_default] of an unregistered name raises the
    NotFound error and changes nothing; [register] never removes a key. *)
Theorem default_registered_invariant :
  default_registered (@init S)
  ∧ (∀ (c : call) r, default_registered r → default_registered (after c r))
  ∧ (∀ cs : list call, default_registered (@run S cs))
  ∧ (∀ name r, name ∉ PyDict.keys (_strategies r) →
       set_default name r
         = (Raise (ValueError (StrategyNotFound name (list_all r).1)), r)
       ∧ kind_of (ValueError (StrategyNotFound name (list_all r).1))
         = NotFound)
  ∧ (∀ name (strategy : S) r k, k ∈ PyDict.keys (_strategies r) →
       k ∈ PyDict.keys (_strategies (register name strategy r).2)).
Proof.
  split; [apply init_default_registered|].
  split; [intros c r; apply after_default_registered|].
  split; [apply run_default_registered|].
  split.
  - intros name r Hn. apply PyDictFacts.contains_false in Hn.
    unfold set_default. by rewrite Hn.
  - intros name s r k. apply register_keeps_keys.
Qed.
End StrategyRegistry.
End RegistryTheorems.

Module RegistryExamples.
Import Registry Registries.

Example demand_default :
  list_all demand_registry = (["lightgbm"], demand_registry)
  ∧ get None demand_registry = (Ok LightGBM.init, demand_registry)
  ∧ get (Some "lightgbm") demand_registry = (Ok LightGBM.init, demand_registry).
Proof. repeat split; reflexivity. Qed.

Example unknown_strategy :
  get (Some "dnn") price_registry
  = (Raise (ValueError (StrategyNotFound "dnn" ["linear"])), price_registry)
  ∧ set_default "dnn" price_registry
    = (Raise (ValueError (StrategyNotFound "dnn" ["linear"])), price_registry).
Proof. split; reflexivity. Qed.

Example no_default :
  get None (@init Linear.t) = (Raise (ValueError NoDefaultStrategy), init).
Proof. reflexivity. Qed.

(** Registering a name again overwrites in place and keeps the order. *)
Example last_write_wins :
  let r := run [ CallRegister "a" 1%nat; CallRegister "b" 2%nat;
                 CallRegister "a" 3%nat ] in
  list_all r = (["a"; "b"], r) ∧ (get (Some "a") r).1 = Ok 3%nat.
Proof. split; reflexivity. Qed.
End RegistryExamples.

Module EncoderFacts.
Import Encoder.
Section WithRuntime.
Context `{PyRuntime}.
Variable cfg : demand_config.
Variable enc : demand_encoders.

Lemma subscript_get {K V} `{EqDecision K} (d : list (K * V)) k :
  PyDict.subscript d k = match PyDict.get k d with
                  | Some v => Ok v
                  | None => Raise KeyError
                  end.
Proof. done. Qed.

Lemma contains_get {K V} `{EqDecision K} (d : list (K * V)) k :
  PyDict.contains k d = match PyDict.get k d with
                        | Some _ => true
                        | None => false
                        end.
Proof.
  destruct (PyDict.get k d) as [v|] eqn:Hg.
  - apply PyDictFacts.contains_true. by eapply PyDictFacts.get_Some_elem.
  - apply PyDictFacts.contains_false. by apply PyDictFacts.get_None_elem.
Qed.

(** The guarded lookup the three encoders share never reaches a missing
    key. *)
Lemma guarded_lookup (table : list (pykey * R)) (v : pyval) :
  (let key := if PyDict.contains (KStr (py_str v)) table
              then KStr (py_str v) else native_key v in
   if PyDict.contains key table
   then x ← PyDict.subscript table key; Ok x
   else Ok (global_mean enc))
  = Ok (lookup_or_global_mean enc table v).
Proof.
  unfold lookup_or_global_mean. cbv zeta.
  rewrite (contains_get table (KStr _)).
  destruct (PyDict.get (KStr (py_str v)) table) as [x|] eqn:Hs.
  - rewrite contains_get, subscript_get, Hs. done.
  - rewrite contains_get, subscript_get.
    by destruct (PyDict.get (native_key v) table).
Qed.

Lemma _encode_store_eq store_id :
  _encode_store enc store_id
  = Ok (lookup_or_global_mean enc (store_encoding_dict enc) (VInt store_id)).
Proof. apply (guarded_lookup _ (VInt store_id)). Qed.

Lemma _encode_sku_eq sku_id :
  _encode_sku enc sku_id
  = Ok (lookup_or_global_mean enc (sku_encoding_dict enc) (VInt sku_id)).
Proof. apply (guarded_lookup _ (VInt sku_id)). Qed.

Lemma lookup_or_global_mean_target table v :
  target_encoding enc table v (lookup_or_global_mean enc table v).
Proof.
  unfold target_encoding, unseen, lookup_or_global_mean. split.
  - by intros [-> ->].
  - intros Hseen. destruct (PyDict.get (KStr _) table) as [x|]; [by left|].
    destruct (PyDict.get (native_key v) table) as [x|]; [by right|].
    by destruct Hseen.
Qed.

Lemma encode_time_feature_eq features encoded name :
  encode_time_feature enc features encoded name
  = Ok (match PyDict.get name features with
        | Some v => PyDict.set name (time_value enc name v) encoded
        | None => encoded
        end).
Proof.
  unfold encode_time_feature, time_value, PyDict.subscript.
  rewrite contains_get.
  destruct (PyDict.get name features) as [v|]; simpl; [|done].
  rewrite contains_get.
  destruct (PyDict.get name (time_encoding_dicts enc)) as [table|]; simpl; [|done].
  unfold lookup_or_global_mean.
  rewrite (contains_get table (KStr _)).
  destruct (PyDict.get (KStr (py_str v)) table) as [x|] eqn:Hs.
  - rewrite contains_get, Hs. done.
  - rewrite contains_get.
    by destruct (PyDict.get (native_key v) table).
Qed.

Lemma encode_time_loop_ok features names : ∀ encoded,
  ∃ encoded', encode_time_loop enc features encoded names = Ok encoded'
    ∧ (∀ name, name ∉ names ∨ PyDict.get name features = None →
         PyDict.get name encoded' = PyDict.get name encoded)
    ∧ (∀ name v, name ∈ names → PyDict.get name features = Some v →
         PyDict.get name encoded' = Some (time_value enc name v)).
Proof.
  induction names as [|n names IH]; intros encoded; simpl.
  - exists encoded. split; [done|]. split; [done|].
    intros name v Hin. by apply elem_of_nil in Hin.
  - rewrite encode_time_feature_eq. simpl.
    destruct (IH (match PyDict.get n features with
                  | Some v => PyDict.set n (time_value enc n v) encoded
                  | None => encoded
                  end)) as (encoded' & -> & Hother & Hin).
    exists encoded'. split; [done|]. split.
    + intros name Hname. rewrite Hother.
      * destruct (PyDict.get n features) as [v|] eqn:Hn; [|done].
        apply PyDictFacts.get_set_ne. intros ->.
        destruct Hname as [Hname|Hname]; [|congruence].
        apply Hname. by left.
      * destruct Hname as [Hname|Hname]; [left|by right].
        intros Hin'. apply Hname. by right.
    + intros name v Hname Hv.
      destruct (decide (name ∈ names)) as [Hin'|Hnin]; [by apply Hin|].
      apply elem_of_cons in Hname as [->|Hname]; [|done].
      rewrite Hother by (by left). rewrite Hv.
      apply PyDictFacts.get_set_eq.
Qed.

Lemma dict_update_other (d : list (string * pyval)) time_encoded k :
  PyDict.get k time_encoded = None →
  PyDict.get k (dict_update d time_encoded) = PyDict.get k d.
Proof.
  unfold dict_update. revert d.
  induction time_encoded as [|[k0 x0] te IH]; intros d Hk; simpl in *; [done|].
  case_decide as Hne; [done|]. rewrite IH by done.
  apply PyDictFacts.get_set_ne. congruence.
Qed.
End WithRuntime.
End EncoderFacts.

Module EncoderTheorems.
Import Encoder EncoderFacts.
Section WithRuntime.
Context `{PyRuntime}.
Variable cfg : demand_config.
Variable enc : demand_encoders.
Local Open Scope R_scope.

(** C5.  The store, SKU and time-feature encoders always return a number
    (no exception, no missing entry).  The number is the global mean when
    the key is in its table neither as a string nor as a number, and a
    value the table stores for the key otherwise. *)
Theorem encoders_fall_back_to_global_mean :
  (∀ store_id, ∃ x, _encode_store enc store_id = Ok x
     ∧ target_encoding enc (store_encoding_dict enc) (VInt store_id) x)
  ∧ (∀ sku_id, ∃ x, _encode_sku enc sku_id = Ok x
     ∧ target_encoding enc (sku_encoding_dict enc) (VInt sku_id) x)
  ∧ (∀ features, ∃ encoded, _encode_time_features cfg enc features = Ok encoded
     ∧ ∀ name value table,
         name ∈ time_features cfg →
         PyDict.get name features = Some value →
         PyDict.get name (time_encoding_dicts enc) = Some table →
         ∃ x, PyDict.get name encoded = Some x
              ∧ target_encoding enc table value x).
Proof.
  split; [|split].
  - intros store_id. eexists. split; [apply _encode_store_eq|].
    apply lookup_or_global_mean_target.
  - intros sku_id. eexists. split; [apply _encode_sku_eq|].
    apply lookup_or_global_mean_target.
  - intros features. unfold _encode_time_features.
    destruct (encode_time_loop_ok enc features (time_features cfg) [])
      as (encoded & Hok & _ & Hin).
    exists encoded. split; [done|].
    intros name value table Hname Hvalue Htable.
    exists (lookup_or_global_mean enc table value). split.
    + rewrite (Hin name value) by done.
      unfold time_value. by rewrite Htable.
    + apply lookup_or_global_mean_target.
Qed.

(** C10.  When the string form of a key is in the table, the encoders use
    the value stored under it, whatever is stored under the native form;
    the native form decides only when the string form is absent. *)
Theorem string_form_wins (table : list (pykey * R)) (v : pyval) (x : R) :
  PyDict.get (KStr (py_str v)) table = Some x →
  (∀ k, v = VInt k → store_encoding_dict enc = table →
        _encode_store enc k = Ok x)
  ∧ (∀ k, v = VInt k → sku_encoding_dict enc = table →
          _encode_sku enc k = Ok x)
  ∧ (∀ name features encoded,
       name ∈ time_features cfg →
       PyDict.get name features = Some v →
       PyDict.get name (time_encoding_dicts enc) = Some table →
       _encode_time_features cfg enc features = Ok encoded →
       PyDict.get name encoded = Some x).
Proof.
  intros Hstr. split; [|split].
  - intros k -> <-. rewrite _encode_store_eq.
    unfold lookup_or_global_mean. by rewrite Hstr.
  - intros k -> <-. rewrite _encode_sku_eq.
    unfold lookup_or_global_mean. by rewrite Hstr.
  - intros name features encoded Hname Hvalue Htable Hok.
    unfold _encode_time_features in Hok.
    destruct (encode_time_loop_ok enc features (time_features cfg) [])
      as (encoded' & Hok' & _ & Hin).
    rewrite Hok' in Hok. injection Hok as ->.
    rewrite (Hin name v) by done.
    unfold time_value, lookup_or_global_mean. rewrite Htable.
    by rewrite Hstr.
Qed.

Lemma preprocess_default_total_price week store_id sku_id base_price f d :
  preprocess_demand_features cfg enc week store_id sku_id base_price None f d
  = preprocess_demand_features cfg enc week store_id sku_id base_price
      (Some base_price) f d.
Proof. done. Qed.

(** C8.  For a request whose week label parses (and a configuration whose
    base date parses), encoding with [total_price] absent and encoding with
    [total_price = base_price] return the same feature dictionary, and in
    it [diff], [relative_diff_base] and [relative_diff_total] are all 0,
    also when [base_price] is 0. *)
Theorem absent_total_price_as_base_price
    week store_id sku_id base_price f d week_date base :
  strptime week "%d/%m/%y" = Some week_date →
  strptime (base_date cfg) "%Y-%m-%d" = Some base →
  ∃ fd,
    preprocess_demand_features cfg enc week store_id sku_id base_price
      None f d = Ok fd
    ∧ preprocess_demand_features cfg enc week store_id sku_id base_price
        (Some base_price) f d = Ok fd
    ∧ PyDict.get "diff" fd = Some (VFloat 0)
    ∧ PyDict.get "relative_diff_base" fd = Some (VFloat 0)
    ∧ PyDict.get "relative_diff_total" fd = Some (VFloat 0).
Proof.
  intros Hweek Hbase.
  rewrite <- preprocess_default_total_price.
  unfold preprocess_demand_features, _extract_datetime_features.
  rewrite Hweek, Hbase, _encode_store_eq, _encode_sku_eq.
  cbn [mbind result_bind]. unfold _encode_time_features.
  match goal with
  | |- context [encode_time_loop enc ?fs [] ?ns] =>
      destruct (encode_time_loop_ok enc fs ns []) as (te & -> & Hother & _)
  end.
  eexists. split; [reflexivity|]. split; [reflexivity|].
  assert (base_price - base_price = 0) as -> by lra.
  assert ((if decide (base_price ≠ 0) then 0 / base_price else 0) = 0) as ->.
  { case_decide; [|done]. by field. }
  repeat split; (rewrite dict_update_other;
    [ reflexivity | rewrite Hother; [reflexivity | right; reflexivity] ]).
Qed.
End WithRuntime.
End EncoderTheorems.

Module EncoderExamples.
Import Encoder Sample.
Local Open Scope R_scope.

(** The witness of C10: the table of stores holds 40 under ["8091"] and 41
    under [8091], and the encoder answers 40. *)
Lemma string_form_wins_witness :
  PyDict.get (KStr (py_str (H := StdCalendar.runtime) (VInt 8091)))
    (store_encoding_dict enc) = Some 40
  ∧ PyDict.get (native_key (VInt 8091)) (store_encoding_dict enc) = Some 41
  ∧ _encode_store (H := StdCalendar.runtime) enc 8091 = Ok 40.
Proof.
  split; [reflexivity|]. split.
  - unfold native_key, to_float. simpl. by rewrite decide_True.
  - apply (proj1 (EncoderTheorems.string_form_wins (H := StdCalendar.runtime)
                    cfg enc (store_encoding_dict enc) (VInt 8091) 40
                    eq_refl) 8091%Z eq_refl eq_refl).
Defined.

(** The witness of C8: the request of the end-to-end scenario, without its
    total price. *)
Lemma absent_total_price_witness :
  ∃ fd,
    preprocess_demand_features (H := StdCalendar.runtime) cfg enc
      "17/01/11" 8091 216418 111.8625 None 0 0 = Ok fd
    ∧ preprocess_demand_features (H := StdCalendar.runtime) cfg enc
        "17/01/11" 8091 216418 111.8625 (Some 111.8625) 0 0 = Ok fd
    ∧ PyDict.get "diff" fd = Some (VFloat 0)
    ∧ PyDict.get "relative_diff_base" fd = Some (VFloat 0)
    ∧ PyDict.get "relative_diff_total" fd = Some (VFloat 0).
Proof.
  apply (EncoderTheorems.absent_total_price_as_base_price
           (H := StdCalendar.runtime) cfg enc "17/01/11" 8091 216418
           111.8625 0 0 14991%Z 14977%Z);
    vm_compute; reflexivity.
Defined.
Example store_keyed_twice :
  _encode_store (H := StdCalendar.runtime) enc 8091 = Ok 40.
Proof. reflexivity. Qed.

Example sku_keyed_as_number :
  _encode_sku (H := StdCalendar.runtime) enc 216418 = Ok 60.
Proof.
  rewrite EncoderFacts._encode_sku_eq. unfold lookup_or_global_mean.
  change (PyDict.get (KStr _) _) with (@None R). cbv beta iota.
  unfold native_key, to_float. simpl. by rewrite decide_True.
Qed.

Example sku_unseen :
  _encode_sku (H := StdCalendar.runtime) enc 5 = Ok 50.
Proof.
  rewrite EncoderFacts._encode_sku_eq. unfold lookup_or_global_mean.
  change (PyDict.get (KStr _) _) with (@None R). cbv beta iota.
  unfold native_key, to_float. simpl.
  rewrite decide_False; [done|]. intros [= Heq]. by apply eq_IZR in Heq.
Qed.

(** A month with a table is encoded, a weekday without one passes through,
    and a configured feature the request lacks is left out. *)
Example time_features_of_a_monday :
  _encode_time_features (H := StdCalendar.runtime) cfg enc
    [("year", VInt 2011); ("month", VInt 1); ("weekday", VInt 0)]
  = Ok [("month", 55); ("weekday", 0)]
  ∧ _encode_time_features (H := StdCalendar.runtime) cfg enc
      [("year", VInt 2011); ("month", VInt 2)]
    = Ok [("month", 50)].
Proof. split; reflexivity. Qed.

Example week_label_must_parse :
  preprocess_demand_features (H := StdCalendar.runtime) cfg enc
    "2011-01-17" 8091 216418 111.8625 None 0 0
  = Raise (ValueError (BadDateString "2011-01-17")).
Proof. reflexivity. Qed.
End EncoderExamples.

Module StdCalendarExamples.
Import StdCalendar.
Local Open Scope Z_scope.

Example monday_17_jan_2011 :
  parse_dmy "17/01/11" = Some 14991
  ∧ (year 14991, month 14991, day 14991) = (2011, 1, 17)
  ∧ weekday 14991 = 0 ∧ isoweek 14991 = 3
  ∧ weekday (14991 + 6) = 6 ∧ isoweek (14991 + 6) = 3.
Proof. vm_compute. done. Qed.

Example year_ends :
  parse_dmy "01/01/10" = Some 14610 ∧ isoweek 14610 = 53
  ∧ parse_dmy "31/12/12" = Some 15705 ∧ isoweek 15705 = 1
  ∧ parse_ymd "2016-01-01" = Some 16801 ∧ isoweek 16801 = 53
  ∧ parse_ymd "2024-12-30" = Some 20087 ∧ isoweek 20087 = 1
  ∧ parse_dmy "01/01/69" = Some (-365) ∧ parse_dmy "31/12/68" = Some 36159.
Proof. vm_compute. done. Qed.

Example not_dates :
  parse_dmy "30/02/11" = None ∧ parse_dmy "17-01-11" = None
  ∧ parse_ymd "2011-13-01" = None ∧ parse_dmy "1x/01/11" = None.
Proof. vm_compute. done. Qed.
End StdCalendarExamples.

Module SeriesFacts.
Local Open Scope R_scope.

Lemma foldl_Rmax_spec xs : ∀ x,
  foldl Rmax x xs ∈ x :: xs ∧ ∀ y, y ∈ x :: xs → y <= foldl Rmax x xs.
Proof.
  induction xs as [|a xs IH]; intros x; simpl.
  - split; [by left|]. intros y Hy.
    apply list_elem_of_singleton in Hy as ->. lra.
  - destruct (IH (Rmax x a)) as [Hin Hub]. split.
    + apply elem_of_cons in Hin as [Heq|Hin]; [|by do 2 right].
      rewrite Heq. apply Rmax_case_strong; intros _; [by left|right; by left].
    + intros y Hy.
      assert (y <= Rmax x a ∨ y ∈ xs) as [Hle|Hy'].
      { apply elem_of_cons in Hy as [->|Hy]; [left; apply Rmax_l|].
        apply elem_of_cons in Hy as [->|Hy]; [left; apply Rmax_r|by right]. }
      * etrans; [exact Hle|]. apply Hub. by left.
      * apply Hub. by right.
Qed.

Lemma foldl_Rmin_spec xs : ∀ x,
  foldl Rmin x xs ∈ x :: xs ∧ ∀ y, y ∈ x :: xs → foldl Rmin x xs <= y.
Proof.
  induction xs as [|a xs IH]; intros x; simpl.
  - split; [by left|]. intros y Hy.
    apply list_elem_of_singleton in Hy as ->. lra.
  - destruct (IH (Rmin x a)) as [Hin Hlb]. split.
    + apply elem_of_cons in Hin as [Heq|Hin]; [|by do 2 right].
      rewrite Heq. apply Rmin_case_strong; intros _; [by left|right; by left].
    + intros y Hy.
      assert (Rmin x a <= y ∨ y ∈ xs) as [Hle|Hy'].
      { apply elem_of_cons in Hy as [->|Hy]; [left; apply Rmin_l|].
        apply elem_of_cons in Hy as [->|Hy]; [left; apply Rmin_r|by right]. }
      * etrans; [|exact Hle]. apply Hlb. by left.
      * apply Hlb. by right.
Qed.

Lemma sum_sq_dev_nonneg m xs : 0 <= Series.sum_sq_dev m xs.
Proof.
  unfold Series.sum_sq_dev, Series.sum.
  induction xs as [|x xs IH]; simpl; [lra|].
  apply Rplus_le_le_0_compat; [apply (Rle_0_sqr (x - m))|exact IH].
Qed.

Lemma INR_length_pos {A} (x : A) xs : 0 < INR (length (x :: xs)).
Proof. apply lt_0_INR. simpl. lia. Qed.

#[global] Instance Rle_total : Total Rle.
Proof. intros x y. destruct (Rle_or_lt x y); [by left|right; lra]. Qed.

Lemma middle_is_Some s : s ≠ [] → is_Some (Series.middle s).
Proof.
  intros Hs. unfold Series.middle.
  assert (0 < length s)%nat as Hn by (destruct s; simpl; [done|lia]).
  pose proof (Nat.div_lt (length s) 2 Hn Nat.lt_1_2) as Hhalf.
  destruct (lookup_lt_is_Some_2 s (length s / 2)) as [b Hb]; [done|].
  destruct (Nat.even (length s)); [|by eexists].
  destruct (lookup_lt_is_Some_2 s (length s / 2 - 1)) as [a Ha]; [lia|].
  rewrite Ha, Hb. by eexists.
Qed.

Lemma median_sorted xs :
  xs ≠ [] →
  ∃ med, Series.median xs = Some med
    ∧ ∃ sorted, Sorted Rle sorted ∧ sorted ≡ₚ xs
                ∧ Series.middle sorted = Some med.
Proof.
  intros Hxs. unfold Series.median.
  destruct (middle_is_Some (merge_sort Rle xs)) as [med Hmed].
  { intros Hnil. apply Hxs, Permutation_nil_r.
    rewrite <- Hnil. symmetry. apply merge_sort_Permutation. }
  exists med. split; [done|]. exists (merge_sort Rle xs).
  split; [apply (Sorted_merge_sort Rle)|].
  split; [apply merge_sort_Permutation|done].
Qed.
End SeriesFacts.

Module DataServiceFacts.
Import DataService.
Section WithPandas.
Context `{PandasRuntime}.
Local Open Scope Z_scope.

(** The head of a filtered list is the first element that passes. *)
Lemma filter_head {A} (P : A → Prop) `{∀ x, Decision (P x)} l x l' :
  filter P l = x :: l' →
  ∃ before after, l = before ++ x :: after ∧ P x ∧ ∀ y, y ∈ before → ¬ P y.
Proof.
  induction l as [|a l IH]; [done|]. rewrite filter_cons.
  destruct (decide (P a)) as [Ha|Ha].
  - intros [= -> _]. exists [], l. split; [done|]. split; [done|].
    intros y Hy. by apply elem_of_nil in Hy.
  - intros Hf. destruct (IH Hf) as (before & after & -> & Hx & Hbefore).
    exists (a :: before), after. split; [done|]. split; [done|].
    intros y Hy. apply elem_of_cons in Hy as [->|Hy]; auto.
Qed.


End WithPandas.
End DataServiceFacts.

Module DataServiceTheorems.
Import DataService DataServiceFacts SeriesFacts.
Section WithPandas.
Context `{PandasRuntime}.

End WithPandas.

Local Open Scope R_scope.

Lemma stats_of_history self store_id dept_id :
  get_store_dept_stats self store_id dept_id
  = match history self store_id dept_id with
    | [] => zero_statistics
    | sales =>
        {| stat_max := Series.max sales;
           stat_min := Series.min sales;
           stat_mean := Series.mean sales;
           stat_median := Series.median sales;
           stat_std := if bool_decide (1 < length sales)%nat
                       then Series.std sales else Some 0 |}
    end.
Proof.
  unfold get_store_dept_stats, history.
  by destruct (filter _ (_train_df self)).
Qed.

(** C6, as the code has it.  A pair without history has all five
    statistics 0.  Otherwise they are the maximum, the minimum, the mean
    and the median of the pair's weekly sales, and their standard
    deviation normalised by [N - 1] (the sample standard deviation), which
    is 0 for a single record. *)
Theorem store_dept_statistics self store_id dept_id :
  match history self store_id dept_id with
  | [] => get_store_dept_stats self store_id dept_id = zero_statistics
  | sales => sample_statistics sales
               (get_store_dept_stats self store_id dept_id)
  end.
Proof.
  rewrite stats_of_history.
  destruct (history self store_id dept_id) as [|x xs] eqn:Hh; [done|].
  set (sales := x :: xs).
  set (mu := Series.sum sales / INR (length sales)).
  assert (0 < INR (length sales)) as Hn by apply INR_length_pos.
  destruct (median_sorted sales) as (med & Hmed & Hsorted); [done|].
  destruct (foldl_Rmax_spec xs x) as [Hmax_in Hmax].
  destruct (foldl_Rmin_spec xs x) as [Hmin_in Hmin].
  assert (mu * INR (length sales) = Series.sum sales) as Hmu.
  { unfold mu. field. lra. }
  unfold sample_statistics.
  case_bool_decide as Hlen.
  - exists (foldl Rmax x xs), (foldl Rmin x xs), mu, med,
      (sqrt (Series.sum_sq_dev mu sales / (INR (length sales) - 1))).
    assert (2 <= INR (length sales)) as Hn2.
    { change 2 with (INR 2). apply le_INR. lia. }
    pose proof (sum_sq_dev_nonneg mu sales) as Hss.
    split.
    { unfold Series.std. rewrite bool_decide_eq_false_2 by lia.
      by rewrite Hmed. }
    split; [done|]. split; [done|]. split; [done|]. split; [done|].
    split; [apply sqrt_pos|]. split; [|lia].
    rewrite sqrt_sqrt.
    + field. lra.
    + apply Rmult_le_pos; [done|]. left. apply Rinv_0_lt_compat. lra.
  - exists (foldl Rmax x xs), (foldl Rmin x xs), mu, med, 0.
    split; [by rewrite Hmed|].
    split; [done|]. split; [done|]. split; [done|]. split; [done|].
    split; [lra|]. split; [|done].
    destruct xs as [|x' xs]; [|simpl in Hlen; lia].
    unfold mu, sales, Series.sum_sq_dev, Series.sum. simpl. field.
Qed.
End DataServiceTheorems.

Module DataServiceExamples.
Import DataService Sample.
Local Open Scope R_scope.

Example iso_dates :
  StdCalendar.parse_ymd "2012-10-26" = Some 15639%Z
  ∧ StdCalendar.parse_ymd "2012-10-27" = Some 15640%Z
  ∧ StdCalendar.date_str 15646%Z = "2012-11-02"%string.
Proof. vm_compute. done. Qed.


(** On a tie the earlier row wins; an exact date wins over a nearer row
    position; a store without rows is not found. *)
Example tie_goes_to_first_row :
  get_nearest_date_features (H := StdCalendar.pandas) service 1 "2012-10-27"
  = Ok (_extract_features (H := StdCalendar.pandas) service
          (feature 1 15639 60 (Some 220) false)).
Proof. reflexivity. Qed.

Example exact_date_is_used :
  get_nearest_date_features (H := StdCalendar.pandas) service 1 "2012-11-02"
  = Ok (_extract_features (H := StdCalendar.pandas) service
          (feature 1 15646 62 (Some 222) true)).
Proof. reflexivity. Qed.

Example store_without_features :
  get_nearest_date_features (H := StdCalendar.pandas) service 7 "2012-11-02"
  = Raise (ValueError (NoFeaturesForStore 7)).
Proof. reflexivity. Qed.

Example history_of_store_1 : history service 1 1 = [0; 2].
Proof. reflexivity. Qed.

Example no_history_all_zero :
  history service 1 3 = [] ∧ get_store_dept_stats service 1 3 = zero_statistics.
Proof. split; reflexivity. Qed.

Lemma sqrt_2_not_1 : sqrt 2 ≠ 1.
Proof.
  intros Hs. pose proof (sqrt_sqrt 2 ltac:(lra)) as Hsq.
  rewrite Hs in Hsq. lra.
Qed.

(** The counterexample of C6: for the sales 0 and 2 the population
    standard deviation is 1, and the service answers the square root of
    2. *)
Lemma std_is_not_population_std :
  stat_std (get_store_dept_stats service 1 1) = Some (sqrt 2)
  ∧ Series.population_std (history service 1 1) = Some 1
  ∧ stat_std (get_store_dept_stats service 1 1)
    ≠ Series.population_std (history service 1 1).
Proof.
  assert (stat_std (get_store_dept_stats service 1 1) = Some (sqrt 2)) as Hstd.
  { rewrite DataServiceTheorems.stats_of_history.
    change (history service 1 1) with [0; 2].
    unfold stat_std, Series.std, Series.mean, Series.sum_sq_dev, Series.sum.
    simpl. apply (f_equal Some), (f_equal sqrt). field. }
  assert (Series.population_std (history service 1 1) = Some 1) as Hpop.
  { change (history service 1 1) with [0; 2].
    unfold Series.population_std, Series.mean, Series.sum_sq_dev, Series.sum.
    simpl. apply (f_equal Some).
    etrans; [|apply sqrt_1]. apply (f_equal sqrt). field. }
  split; [done|]. split; [done|].
  rewrite Hstd, Hpop. intros [= Hs]. by apply sqrt_2_not_1.
Qed.
End DataServiceExamples.

Module AssemblerFacts.
Import DataService Assembler.

Lemma indicator_columns_ok {A} `{EqDecision A} (name : A → string)
    `{!Inj (=) (=) name} (eqb : cell → A → bool) col c xs : ∀ df,
  PyDict.get col df = Some c →
  (∀ x, x ∈ xs → name x ≠ col) →
  ∃ df', indicator_columns name eqb col df xs = Ok df'
    ∧ (∀ k, k ∉ name <$> xs → PyDict.get k df' = PyDict.get k df)
    ∧ (∀ x, x ∈ xs →
         PyDict.get (name x) df' = Some (CInt (if eqb c x then 1 else 0))).
Proof.
  induction xs as [|x xs IH]; intros df Hcol Hne; simpl.
  - exists df. split; [done|]. split; [done|].
    intros x Hx. by apply elem_of_nil in Hx.
  - unfold PyDict.subscript. rewrite Hcol. simpl.
    destruct (IH (PyDict.set (name x) (CInt (if eqb c x then 1 else 0)) df))
      as (df' & Hok & Hother & Hin).
    { rewrite PyDictFacts.get_set_ne; [done|]. apply Hne. by left. }
    { intros y Hy. apply Hne. by right. }
    exists df'. split; [done|]. split.
    + intros k Hk. rewrite ?fmap_cons, not_elem_of_cons in Hk.
      destruct Hk as [Hk1 Hk2]. rewrite Hother by done.
      by apply PyDictFacts.get_set_ne.
    + intros y Hy. destruct (decide (y ∈ xs)) as [Hy'|Hy']; [by apply Hin|].
      apply elem_of_cons in Hy as [->|Hy]; [|done].
      rewrite Hother.
      * apply PyDictFacts.get_set_eq.
      * intros Hn. apply list_elem_of_fmap in Hn as (z & Hz & Hzin).
        apply (inj name) in Hz as ->. done.
Qed.

Lemma one_hot_indicator {A} (eqb : A → bool) (xs : list A) x0 :
  NoDup xs → x0 ∈ xs → (∀ x, eqb x = true ↔ x = x0) →
  one_hot ((λ x, Some (CInt (if eqb x then 1 else 0))) <$> xs).
Proof.
  intros Hnd Hin Heqb.
  apply list_elem_of_lookup_1 in Hin as [i Hi]. exists i. split.
  - rewrite list_lookup_fmap, Hi. simpl.
    by rewrite (proj2 (Heqb x0) eq_refl).
  - intros j c Hji. rewrite list_lookup_fmap.
    destruct (xs !! j) as [y|] eqn:Hj; [|done]. simpl. intros [= <-].
    destruct (eqb y) eqn:Hy; [|done].
    apply Heqb in Hy as ->.
    destruct Hji. by eapply NoDup_lookup.
Qed.

Lemma block_ext {A} (name : A → string) xs (df : list (string * cell))
    (f : A → option cell) :
  (∀ x, x ∈ xs → PyDict.get (name x) df = f x) → block name xs df = f <$> xs.
Proof.
  intros Hf. unfold block. apply list_fmap_ext.
  intros i x Hx. apply Hf. by eapply list_elem_of_lookup_2.
Qed.

#[global] Instance store_column_inj : Inj (=) (=) store_column.
Proof. intros n m [= Heq]. by apply (inj pretty). Qed.

#[global] Instance dept_column_inj : Inj (=) (=) dept_column.
Proof. intros n m [= Heq]. by apply (inj pretty). Qed.

#[global] Instance type_column_inj : Inj (=) (=) type_column.
Proof. by intros s1 s2 [= Heq]. Qed.

Lemma NoDup_dept_values ds : NoDup (dept_values ds).
Proof.
  unfold dept_values. rewrite merge_sort_Permutation. apply NoDup_remove_dups.
Qed.

Lemma elem_of_dept_values ds d :
  d ∈ dept_values ds ↔ d ∈ t_Dept <$> _train_df ds.
Proof.
  unfold dept_values. by rewrite merge_sort_Permutation, elem_of_remove_dups.
Qed.

(** The three loops on a frame that has the three categorical columns. *)
Lemma _one_hot_encode_ok ds (df : list (string * cell)) store_id dept_id type :
  PyDict.get "Store" df = Some (CInt store_id) →
  PyDict.get "Dept" df = Some (CInt dept_id) →
  PyDict.get "Type" df = Some (CStr type) →
  ∃ df', _one_hot_encode_price_features ds df = Ok df'
    ∧ block store_column store_domain df'
      = (λ n, Some (CInt (if bool_decide (store_id = n) then 1 else 0)))
          <$> store_domain
    ∧ block dept_column (dept_values ds) df'
      = (λ n, Some (CInt (if bool_decide (dept_id = n) then 1 else 0)))
          <$> dept_values ds
    ∧ block type_column type_domain df'
      = (λ s, Some (CInt (if bool_decide (type = s) then 1 else 0)))
          <$> type_domain.
Proof.
  intros Hstore Hdept Htype. unfold _one_hot_encode_price_features.
  destruct (indicator_columns_ok store_column cell_eq_int "Store"
              (CInt store_id) store_domain df) as (df1 & -> & Ho1 & Hi1);
    [done|by intros x _ [=]|].
  destruct (indicator_columns_ok dept_column cell_eq_int "Dept"
              (CInt dept_id) (dept_values ds) df1) as (df2 & Hok2 & Ho2 & Hi2).
  { rewrite Ho1; [done|]. intros Hn.
    by apply list_elem_of_fmap in Hn as (z & [=] & _). }
  { by intros x _ [=]. }
  destruct (indicator_columns_ok type_column cell_eq_str "Type"
              (CStr type) type_domain df2) as (df3 & Hok3 & Ho3 & Hi3).
  { rewrite Ho2, Ho1; [done|..]; intros Hn;
      by apply list_elem_of_fmap in Hn as (z & [=] & _). }
  { by intros x _ [=]. }
  cbn [mbind result_bind]. rewrite Hok2. cbn [mbind result_bind].
  exists df3. split; [done|]. split; [|split].
  - apply block_ext. intros n Hn. rewrite Ho3, Ho2.
    + by apply Hi1.
    + intros Hk. by apply list_elem_of_fmap in Hk as (z & [=] & _).
    + intros Hk. by apply list_elem_of_fmap in Hk as (z & [=] & _).
  - apply block_ext. intros n Hn. rewrite Ho3.
    + by apply Hi2.
    + intros Hk. by apply list_elem_of_fmap in Hk as (z & [=] & _).
  - apply block_ext. intros t Ht. by apply Hi3.
Qed.
End AssemblerFacts.

Module AssemblerTheorems.
Import DataService Assembler AssemblerFacts.
Section WithPandas.
Context `{PandasRuntime}.

(** C7.  In the frame the assembler returns for a store in 1..45, a
    department that occurs in the training history and a store of type A,
    B or C, each of the three blocks of indicator columns (stores,
    departments, types) has exactly one cell equal to 1 and every other
    cell equal to 0. *)
Theorem one_hot_blocks ds store_id dept_id date is_holiday features_dict
    info df :
  preprocess_price_features ds store_id dept_id date is_holiday features_dict
    = Ok df →
  get_store_info ds store_id = Ok info →
  (1 ≤ store_id ≤ 45)%Z →
  dept_id ∈ t_Dept <$> _train_df ds →
  info_Type info ∈ type_domain →
  one_hot (block store_column store_domain df)
  ∧ one_hot (block dept_column (dept_values ds) df)
  ∧ one_hot (block type_column type_domain df).
Proof.
  intros Hdf Hinfo Hstore Hdept Htype.
  unfold preprocess_price_features in Hdf. rewrite Hinfo in Hdf.
  cbn [mbind result_bind] in Hdf.
  destruct (match features_dict with
            | Some f => Ok f
            | None => get_nearest_date_features ds store_id date
            end) as [f|e]; [|done].
  cbn [mbind result_bind] in Hdf.
  destruct (to_datetime date) as [date_obj|]; [|done].
  match type of Hdf with
  | _one_hot_encode_price_features ds ?data = _ =>
      destruct (_one_hot_encode_ok ds data store_id dept_id (info_Type info))
        as (df' & Hok & Hs & Hd & Ht); [done..|]
  end.
  rewrite Hok in Hdf. injection Hdf as <-.
  rewrite Hs, Hd, Ht. split; [|split].
  - apply (one_hot_indicator (λ n, bool_decide (store_id = n)) _ store_id).
    + apply NoDup_seqZ.
    + apply elem_of_seqZ. lia.
    + intros n. rewrite bool_decide_eq_true. split; congruence.
  - apply (one_hot_indicator (λ n, bool_decide (dept_id = n)) _ dept_id).
    + apply NoDup_dept_values.
    + by apply elem_of_dept_values.
    + intros n. rewrite bool_decide_eq_true. split; congruence.
  - apply (one_hot_indicator (λ s, bool_decide (info_Type info = s)) _
             (info_Type info)).
    + apply (bool_decide_unpack _). reflexivity.
    + done.
    + intros s. rewrite bool_decide_eq_true. split; congruence.
Qed.
End WithPandas.
End AssemblerTheorems.

Module AssemblerExamples.
Import DataService Assembler Sample.

(** The witness of C7: store 1 (type A), department 1, 2012-11-02. *)
Lemma one_hot_blocks_witness :
  ∃ df,
    preprocess_price_features (H := StdCalendar.pandas) service 1 1
      "2012-11-02" None None = Ok df
    ∧ one_hot (block store_column store_domain df)
    ∧ one_hot (block dept_column (dept_values service) df)
    ∧ one_hot (block type_column type_domain df).
Proof.
  eexists. split; [vm_compute; reflexivity|].
  apply (AssemblerTheorems.one_hot_blocks (H := StdCalendar.pandas)
           service 1 1 "2012-11-02" None None
           {| info_Store := 1; info_Type := "A"; info_Size := 151315 |}).
  - vm_compute. reflexivity.
  - reflexivity.
  - lia.
  - apply (bool_decide_unpack _). reflexivity.
  - apply (bool_decide_unpack _). reflexivity.
Defined.

Example departments_of_the_sample : dept_values service = [1; 3]%Z.
Proof. reflexivity. Qed.

Example cells_of_the_sample (df : list (string * cell)) :
  preprocess_price_features (H := StdCalendar.pandas) service 1 1
    "2012-11-02" None None = Ok df →
  PyDict.get "Store_1" df = Some (CInt 1)
  ∧ PyDict.get "Store_2" df = Some (CInt 0)
  ∧ PyDict.get "Dept_1" df = Some (CInt 1)
  ∧ PyDict.get "Dept_3" df = Some (CInt 0)
  ∧ PyDict.get "Type_A" df = Some (CInt 1)
  ∧ PyDict.get "Type_C" df = Some (CInt 0)
  ∧ PyDict.get "IsHoliday" df = Some (CInt 1)
  ∧ PyDict.get "Date" df = Some (CStr "2012-11-02").
Proof.
  intros Hdf. vm_compute in Hdf. injection Hdf as <-.
  repeat split; reflexivity.
Qed.
End AssemblerExamples.

Module LightGBMFacts.
Import Base LightGBM SeriesFacts.
Local Open Scope R_scope.








End LightGBMFacts.

Module LightGBMTheorems.
Import Base LightGBM LightGBMFacts SeriesFacts.
Local Open Scope R_scope.

End LightGBMTheorems.

Module LightGBMExamples.
Import Base LightGBM Sample.
Local Open Scope R_scope.

Example request_row :
  feature_array request ["base_price"; "store_id"] = Ok [111.8625; 8091].
Proof. reflexivity. Qed.

Example missing_feature :
  feature_array request ["base_price"; "sku_id"]
  = Raise (ValueError (MissingFeature "sku_id"))
  ∧ kind_of (ValueError (MissingFeature "sku_id")) = ValidationError.
Proof. split; reflexivity. Qed.



End LightGBMExamples.

Module LifecycleFacts.
Import Base.


Lemma lightgbm_load_ok_loaded w self :
  LightGBM._loaded self = false →
  (LightGBM.load w self).1 = Ok () →
  LightGBM._loaded (LightGBM.load w self).2 = true.
Proof.
  intros Hl. unfold LightGBM.load. rewrite Hl.
  destruct (LightGBM.config_json w) as [cfg|]; [|done].
  destruct (LightGBM.load_models _ _ _) as [[[]|e'] ms]; simpl; [|done].
  by destruct ms.
Qed.







End LifecycleFacts.

Module LifecycleTheorems.
Import Base LifecycleFacts.

End LifecycleTheorems.

Module LifecycleExamples.
Import Base Sample.
Local Open Scope R_scope.


(** In an unchanged world the retry shows in the state: every failed
    [predict] appends the fold that loads once more. *)
Example retry_appends_models :
  let first := LightGBM.predict bad_fold LightGBM.init request in
  let second := LightGBM.predict bad_fold first.2 request in
  first.1 = Raise (LibraryError "lightgbm")
  ∧ second.1 = Raise (LibraryError "lightgbm")
  ∧ length (LightGBM.models first.2) = 1%nat
  ∧ length (LightGBM.models second.2) = 2%nat.
Proof. cbv zeta. repeat split; reflexivity. Qed.


(** A failed import is remembered: Keras becoming importable later does
    not help. *)
Example failed_import_is_remembered :
  let failed := (DNN.load no_keras DNN.init).2 in
  (DNN.load no_keras DNN.init).1 = Raise (RuntimeError KerasImportFailed)
  ∧ DNN.load with_keras failed
    = (Raise (RuntimeError KerasPreviouslyFailed), failed)
  ∧ (DNN.load with_keras DNN.init).1 = Ok ().
Proof. cbv zeta. repeat split; reflexivity. Qed.
Example nothing_on_disk :
  LightGBM.load empty_disk LightGBM.init
  = (Raise (FileNotFoundError "config.json"), LightGBM.init)
  ∧ kind_of (FileNotFoundError "config.json") = ConfigurationError.
Proof. split; reflexivity. Qed.
End LifecycleExamples.

(* ===================================================================== *)
(** * Part III: further properties of the code                            *)
(* ===================================================================== *)

Module RegistryMore.
Import Base Registry RegistryFacts.

Lemma keys_set {K V} `{EqDecision K} (d : list (K * V)) k v :
  PyDict.keys (PyDict.set k v d)
  = if bool_decide (k ∈ PyDict.keys d) then PyDict.keys d
    else PyDict.keys d ++ [k].
Proof.
  unfold PyDict.keys. induction d as [|[k0 v0] d IH]; [done|].
  cbn [PyDict.set]. destruct (decide (k = k0)) as [->|Hk];
    rewrite !fmap_cons; cbn [fst].
  - rewrite bool_decide_eq_true_2; [done|by left].
  - rewrite IH. destruct (decide (k ∈ d.*1)) as [Hin|Hin].
    + rewrite !bool_decide_eq_true_2; [done|by right|done].
    + rewrite !bool_decide_eq_false_2; [done| |done].
      rewrite elem_of_cons. intros [?|?]; congruence.
Qed.

Lemma NoDup_keys_set {K V} `{EqDecision K} (d : list (K * V)) k v :
  NoDup (PyDict.keys d) → NoDup (PyDict.keys (PyDict.set k v d)).
Proof.
  intros Hnd. rewrite keys_set. case_bool_decide as Hk; [done|].
  apply NoDup_app. split; [done|]. split.
  - intros x Hx Hx'. apply list_elem_of_singleton in Hx' as ->. done.
  - apply NoDup_singleton.
Qed.

Section StrategyRegistry.
Context {S : Type}.
Implicit Types (r : Registry.t S) (name : string).

(** X1.  After [register(name, strategy)], [get(name)] returns that
    strategy; every other name resolves as before; the default is kept; and
    the list of names is unchanged when [name] was registered already (the
    new strategy takes the old place) and grows by [name] at its end
    otherwise. *)
Theorem register_then_get r name (strategy : S) :
  let r' := (register name strategy r).2 in
  get (Some name) r' = (Ok strategy, r')
  ∧ (∀ other, other ≠ name →
       PyDict.get other (_strategies r') = PyDict.get other (_strategies r))
  ∧ _default_name r' = _default_name r
  ∧ (list_all r').1
    = if bool_decide (name ∈ (list_all r).1) then (list_all r).1
      else (list_all r).1 ++ [name].
Proof.
  cbv zeta. split; [|split; [|split]].
  - unfold get. simpl.
    assert (PyDict.contains name (PyDict.set name strategy (_strategies r))
            = true) as ->.
    { apply PyDictFacts.contains_true, PyDictFacts.keys_set_elem. by left. }
    simpl. by rewrite PyDictFacts.get_set_eq.
  - intros other Hne. simpl. by apply PyDictFacts.get_set_ne.
  - done.
  - simpl. apply keys_set.
Qed.

(** X2.  Whatever sequence of calls built a registry, [list_all] never
    lists a name twice. *)
Theorem list_all_has_no_duplicates (cs : list (@call S)) :
  NoDup (list_all (run cs)).1.
Proof.
  induction cs as [|c cs IH] using rev_ind; [apply NoDup_nil_2|].
  rewrite run_snoc. simpl in *.
  destruct c as [name s|name|o|]; simpl.
  - by apply NoDup_keys_set.
  - unfold set_default. by destruct (PyDict.contains _ _).
  - by rewrite get_same_registry.
  - done.
Qed.

(** X3.  [set_default(name)] either raises, exactly when [name] is not
    registered, and then leaves the registry as it was; or returns, and then
    [get()] without a name returns the strategy registered under [name]. *)
Theorem set_default_then_get r name :
  match set_default name r with
  | (Raise e, r') =>
      (name ∉ (list_all r).1) ∧ r' = r
      ∧ e = ValueError (StrategyNotFound name (list_all r).1)
  | (Ok _, r') =>
      (name ∈ (list_all r).1)
      ∧ (get_default_name r').1 = Some name
      ∧ (list_all r').1 = (list_all r).1
      ∧ (∃ strategy, PyDict.get name (_strategies r) = Some strategy
                     ∧ get None r' = (Ok strategy, r'))
  end.
Proof.
  unfold set_default.
  destruct (PyDict.contains name (_strategies r)) eqn:Hc; simpl.
  - apply PyDictFacts.contains_true in Hc as Hin.
    split; [done|]. split; [done|]. split; [done|].
    destruct (PyDict.get name (_strategies r)) as [s|] eqn:Hg.
    + exists s. split; [done|]. unfold get. simpl. by rewrite Hc, Hg.
    + by apply PyDictFacts.get_None_elem in Hg.
  - apply PyDictFacts.contains_false in Hc. done.
Qed.
End StrategyRegistry.

Lemma load_each_spec {World S} `{BaseStrategy World S} (w : World)
    (Hload : ∀ s, is_loaded s = false → (load w s).1 = Ok () →
                  is_loaded (load w s).2 = true)
    (todo : list (string * S)) : ∀ done,
  (load_each w done todo).1 = Ok () →
  (∀ n s, (n, s) ∈ done → is_loaded s = true) →
  (∀ n s, (n, s) ∈ (load_each w done todo).2 → is_loaded s = true)
  ∧ (∀ n s, (n, s) ∈ done ++ todo → is_loaded s = true →
            (n, s) ∈ (load_each w done todo).2).
Proof.
  induction todo as [|[n0 s0] todo IH]; intros done Hok Hdone; simpl in *.
  - split; [done|]. intros n s. by rewrite app_nil_r.
  - destruct (is_loaded s0) eqn:Hl0; simpl in *.
    + destruct (IH (done ++ [(n0, s0)]) Hok) as [Hall Hkept].
      { intros n s Hin. apply elem_of_app in Hin as [Hin|Hin]; [by eapply Hdone|].
        by apply list_elem_of_singleton in Hin as [= -> ->]. }
      split; [done|]. intros n s Hin Hl. apply Hkept; [|done].
      by rewrite <- app_assoc.
    + pose proof (Hload s0 Hl0) as Hs0.
      destruct (load w s0) as [[[]|e] s0']; simpl in *; [|done].
      destruct (IH (done ++ [(n0, s0')]) Hok) as [Hall Hkept].
      { intros n s Hin. apply elem_of_app in Hin as [Hin|Hin]; [by eapply Hdone|].
        apply list_elem_of_singleton in Hin as [= -> ->]. by apply Hs0. }
      split; [done|]. intros n s Hin Hl. apply Hkept; [|done].
      rewrite <- app_assoc. simpl.
      apply elem_of_app in Hin as [Hin|Hin]; [apply elem_of_app; by left|].
      apply elem_of_cons in Hin as [[= -> ->]|Hin]; [congruence|].
      apply elem_of_app. right. by right.
Qed.

(** X4.  [load_all] keeps the names, their order and the default.  When
    loading a strategy that was not loaded leaves it loaded on success and
    [load_all] returns, every registered strategy is loaded, and the
    strategies that were loaded before are still registered as they were. *)
Theorem load_all_loads_every_strategy {World S} `{BaseStrategy World S}
    (w : World) (r : Registry.t S) :
  (∀ s, is_loaded s = false → (load w s).1 = Ok () →
        is_loaded (load w s).2 = true) →
  (list_all (load_all w r).2).1 = (list_all r).1
  ∧ _default_name (load_all w r).2 = _default_name r
  ∧ ((load_all w r).1 = Ok () →
       (∀ n s, (n, s) ∈ _strategies (load_all w r).2 → is_loaded s = true)
       ∧ (∀ n s, (n, s) ∈ _strategies r → is_loaded s = true →
                 (n, s) ∈ _strategies (load_all w r).2)).
Proof.
  intros Hload. unfold load_all.
  pose proof (load_each_keys w (_strategies r) []) as Hkeys.
  pose proof (load_each_spec w Hload (_strategies r) []) as Hspec.
  destruct (load_each w [] (_strategies r)) as [res strategies]. simpl in *.
  split; [done|]. split; [done|].
  intros ->. apply Hspec; [done|]. intros n s Hin. by apply elem_of_nil in Hin.
Qed.
End RegistryMore.

Module RegistryMoreExamples.
Import Base Registry Registries Sample.

(** The witness of X4: the demand registry, loaded from a disk with one
    fold file. *)
Lemma load_all_witness :
  (list_all (load_all one_fold demand_registry).2).1
  = (list_all demand_registry).1
  ∧ _default_name (load_all one_fold demand_registry).2
    = _default_name demand_registry
  ∧ ((load_all one_fold demand_registry).1 = Ok () →
       (∀ n s, (n, s) ∈ _strategies (load_all one_fold demand_registry).2 →
               is_loaded s = true)
       ∧ (∀ n s, (n, s) ∈ _strategies demand_registry → is_loaded s = true →
                 (n, s) ∈ _strategies (load_all one_fold demand_registry).2)).
Proof.
  apply (RegistryMore.load_all_loads_every_strategy one_fold demand_registry).
  intros s Hl. apply LifecycleFacts.lightgbm_load_ok_loaded. exact Hl.
Defined.

Example load_all_on_one_fold :
  (load_all one_fold demand_registry).1 = Ok ()
  ∧ (load_all config_only demand_registry).1
    = Raise (ValueError NoModelsLoaded).
Proof. split; reflexivity. Qed.
End RegistryMoreExamples.

Module SeriesMore.
Import SeriesFacts.
Local Open Scope R_scope.

#[global] Instance Rle_antisym_eq : AntiSymm (=) Rle.
Proof. intros x y Hxy Hyx. by apply Rle_antisym. Qed.



Lemma max_Some x xs :
  Series.max (x :: xs) = Some (foldl Rmax x xs)
  ∧ Series.min (x :: xs) = Some (foldl Rmin x xs).
Proof. done. Qed.






Lemma middle_between s v :
  Series.middle s = Some v → ∃ a b, a ∈ s ∧ b ∈ s ∧ a <= v <= b.
Proof.
  unfold Series.middle. destruct (Nat.even (length s)).
  - destruct (s !! (length s / 2 - 1)%nat) as [a|] eqn:Ha; [|done].
    destruct (s !! (length s / 2)%nat) as [b|] eqn:Hb; [|done].
    simpl. intros [= <-].
    apply list_elem_of_lookup_2 in Ha, Hb.
    destruct (Rle_or_lt a b).
    + exists a, b. repeat split; [done..|lra|lra].
    + exists b, a. repeat split; [done..|lra|lra].
  - intros Hv. apply list_elem_of_lookup_2 in Hv.
    exists v, v. repeat split; [done..|lra|lra].
Qed.

Lemma median_between xs v :
  Series.median xs = Some v → ∃ a b, a ∈ xs ∧ b ∈ xs ∧ a <= v <= b.
Proof.
  unfold Series.median. intros Hm.
  destruct (middle_between _ _ Hm) as (a & b & Ha & Hb & Hab).
  exists a, b. by rewrite merge_sort_Permutation in Ha, Hb.
Qed.

Lemma median_None xs : Series.median xs = None ↔ xs = [].
Proof.
  split; [|by intros ->].
  intros Hm. destruct xs as [|x xs]; [done|].
  destruct (median_sorted (x :: xs)) as (med & Hmed & _); [done|congruence].
Qed.
End SeriesMore.

Module DataServiceMore.
Import DataService DataServiceFacts SeriesFacts SeriesMore.
Local Open Scope R_scope.

(** X5.  On loaded tables, [get_store_info] raises "Store not found"
    exactly when no row of the stores table has the id; otherwise it answers with the id asked for
    and the type and size of the first row that has it. *)
Theorem get_store_info_first_row self store_id :
  match get_store_info self store_id with
  | Raise e =>
      e = ValueError (StoreNotFound store_id)
      ∧ kind_of e = NotFound
      ∧ (∀ r, r ∈ _stores_df self → s_Store r ≠ store_id)
  | Ok info =>
      info_Store info = store_id
      ∧ (∃ before row after,
           _stores_df self = before ++ row :: after
           ∧ s_Store row = store_id
           ∧ (∀ r, r ∈ before → s_Store r ≠ store_id)
           ∧ info_Type info = s_Type row
           ∧ info_Size info = s_Size row)
  end.
Proof.
  unfold get_store_info.
  destruct (filter (λ r, s_Store r = store_id) (_stores_df self))
    as [|row rest] eqn:Hf.
  - split; [done|]. split; [done|].
    intros r Hr Hs. by apply (filter_nil_not_elem_of _ _ r Hf).
  - split; [done|].
    destruct (filter_head _ _ _ _ Hf) as (before & after & Heq & Hrow & Hb).
    by exists before, row, after.
Qed.

Section WithPandas.
Context `{PandasRuntime}.

Lemma omap_nil_iff {A B} (f : A → option B) (l : list A) :
  omap f l = [] ↔ ∀ x, x ∈ l → f x = None.
Proof.
  induction l as [|a l IH]; simpl.
  - split; [|done]. intros _ x Hx. by apply elem_of_nil in Hx.
  - destruct (f a) as [b|] eqn:Hfa.
    + split; [done|]. intros Hall.
      specialize (Hall a ltac:(by left)). congruence.
    + rewrite IH. split.
      * intros Hall x Hx. apply elem_of_cons in Hx as [->|Hx]; auto.
      * intros Hall x Hx. apply Hall. by right.
Qed.

Lemma backfilled_intro self col cell :
  backfilled self col cell
    (match cell with
     | Some x => Some x
     | None => Series.median (omap col (_features_df self))
     end).
Proof.
  unfold backfilled. destruct cell as [x|].
  - split; [done|]. split; [done|]. split; [|done]. split; [done|].
    by intros [? _].
  - split; [done|]. split; [done|]. split.
    + rewrite median_None, omap_nil_iff. split; [by split|by intros [_ ?]].
    + intros v _ Hv.
      destruct (median_between _ _ Hv) as (a & b & Ha & Hb & Hab).
      apply list_elem_of_omap in Ha as (ra & Hra & Hfa).
      apply list_elem_of_omap in Hb as (rb & Hrb & Hfb).
      exists a, b. split; [by exists ra|]. split; [by exists rb|done].
Qed.

(** X6.  In the features [_extract_features] returns, a CPI or
    unemployment cell that is not empty is kept; an empty one is replaced by
    the median of that column over the whole features table (all stores),
    which lies between two values of the column; the result is missing only
    when the column has no value at all.  Empty markdown cells become 0 and
    an empty holiday cell becomes false. *)
Theorem empty_cells_are_backfilled self row :
  let f := _extract_features self row in
  backfilled self f_CPI (f_CPI row) (CPI f)
  ∧ backfilled self f_Unemployment (f_Unemployment row) (Unemployment f)
  ∧ (f_MarkDown1 row = None → MarkDown1 f = 0)
  ∧ (f_MarkDown2 row = None → MarkDown2 f = 0)
  ∧ (f_MarkDown3 row = None → MarkDown3 f = 0)
  ∧ (f_MarkDown4 row = None → MarkDown4 f = 0)
  ∧ (f_MarkDown5 row = None → MarkDown5 f = 0)
  ∧ (f_IsHoliday row = None → IsHoliday f = false).
Proof.
  cbv zeta. unfold _extract_features. simpl.
  split; [apply backfilled_intro|]. split; [apply backfilled_intro|].
  repeat split; by intros ->.
Qed.
End WithPandas.

Lemma INR_length_pos' {A} (xs : list A) : xs ≠ [] → 0 < INR (length xs).
Proof. destruct xs as [|x xs]; [done|]. intros _. apply INR_length_pos. Qed.


End DataServiceMore.

Module DataServiceMoreExamples.
Import DataService Sample.
Local Open Scope R_scope.



Example unknown_store :
  get_store_info service 9 = Raise (ValueError (StoreNotFound 9))
  ∧ get_store_info service 2
    = Ok {| info_Store := 2; info_Type := "B"; info_Size := 202307 |}.
Proof. split; reflexivity. Qed.

(** The third feature row of the sample has no CPI: it gets a value between
    the least and the greatest CPI of the table. *)
Example cpi_of_the_third_row :
  ∃ v, CPI (_extract_features (H := StdCalendar.pandas) service
              (feature 1 15641 61 None false)) = Some v
       ∧ 210 <= v <= 222.
Proof.
  destruct (DataServiceMore.backfilled_intro service f_CPI None)
    as (_ & _ & Hnone & Hbetween).
  destruct (Series.median (omap f_CPI (_features_df service)))
    as [v|] eqn:Hv.
  - exists v. split; [exact Hv|].
    destruct (Hbetween v eq_refl eq_refl)
      as (a & b & (ra & Hra & Ha) & (rb & Hrb & Hb) & Hab).
    assert (∀ r x, r ∈ _features_df service → f_CPI r = Some x →
                   210 <= x <= 222) as Hcol.
    { intros r x Hr Hx. simpl in Hr.
      repeat (apply elem_of_cons in Hr as [->|Hr];
              [simpl in Hx; simplify_eq; lra|]).
      by apply elem_of_nil in Hr. }
    pose proof (Hcol ra a Hra Ha). pose proof (Hcol rb b Hrb Hb). lra.
  - destruct (proj1 Hnone eq_refl) as [_ Hall].
    specialize (Hall (feature 1 15639 60 (Some 220) false)).
    discriminate Hall. by left.
Qed.
End DataServiceMoreExamples.

Module EncoderMore.
Import Encoder EncoderFacts RegistryMore.
Section WithRuntime.
Context `{PyRuntime}.
Variable cfg : demand_config.
Variable enc : demand_encoders.
Local Open Scope R_scope.

Lemma encode_time_loop_keys features names : ∀ encoded encoded',
  encode_time_loop enc features encoded names = Ok encoded' →
  (NoDup (PyDict.keys encoded) → NoDup (PyDict.keys encoded'))
  ∧ (∀ k, k ∈ PyDict.keys encoded' ↔
          k ∈ PyDict.keys encoded
          ∨ (k ∈ names ∧ k ∈ PyDict.keys features)).
Proof.
  induction names as [|n names IH]; intros encoded encoded'; simpl.
  - intros [= <-]. split; [done|]. intros k. split; [by left|].
    intros [?|[Hk _]]; [done|]. by apply elem_of_nil in Hk.
  - rewrite encode_time_feature_eq. simpl. intros Hloop.
    destruct (IH _ _ Hloop) as [Hnd Hmem]. split.
    + intros Hnd0. apply Hnd.
      destruct (PyDict.get n features); [by apply NoDup_keys_set|done].
    + intros k. rewrite Hmem, elem_of_cons.
      destruct (PyDict.get n features) as [v|] eqn:Hn.
      * apply PyDictFacts.get_Some_elem in Hn as Hin.
        rewrite PyDictFacts.keys_set_elem. split.
        -- intros [[->|?]|[? ?]]; auto.
        -- intros [?|[[->|?] ?]]; auto.
      * apply PyDictFacts.get_None_elem in Hn. split.
        -- intros [?|[? ?]]; auto.
        -- intros [?|[[->|?] ?]]; auto. done.
Qed.

Lemma dict_update_keys (te : list (string * R)) : ∀ d : list (string * pyval),
  (NoDup (PyDict.keys d) → NoDup (PyDict.keys (dict_update d te)))
  ∧ (∀ k, k ∈ PyDict.keys (dict_update d te) ↔
          k ∈ PyDict.keys d ∨ k ∈ PyDict.keys te).
Proof.
  unfold dict_update.
  induction te as [|[k0 v0] te IH]; intros d; simpl.
  - split; [done|]. intros k. split; [by left|].
    intros [?|Hk]; [done|]. by apply elem_of_nil in Hk.
  - destruct (IH (PyDict.set k0 (VFloat v0) d)) as [Hnd Hmem]. split.
    + intros Hd. by apply Hnd, NoDup_keys_set.
    + intros k. rewrite Hmem, PyDictFacts.keys_set_elem.
      unfold PyDict.keys. simpl. rewrite elem_of_cons. tauto.
Qed.

Lemma dict_update_get (te : list (string * R)) k v :
  NoDup (PyDict.keys te) → PyDict.get k te = Some v →
  ∀ d : list (string * pyval),
    PyDict.get k (dict_update d te) = Some (VFloat v).
Proof.
  unfold dict_update, PyDict.keys.
  induction te as [|[k0 v0] te IH]; intros Hnd Hget d; simpl in *; [done|].
  apply NoDup_cons in Hnd as [Hk0 Hnd].
  destruct (decide (k = k0)) as [->|Hne].
  - injection Hget as ->.
    pose proof (dict_update_other (PyDict.set k0 (VFloat v) d) te k0) as Ho.
    unfold dict_update in Ho. rewrite Ho.
    + apply PyDictFacts.get_set_eq.
    + by apply PyDictFacts.get_None_elem.
  - by apply IH.
Qed.

(** The three ways [preprocess_demand_features] can end. *)
Lemma preprocess_demand_cases
    week store_id sku_id base_price total_price f d :
  let r := preprocess_demand_features cfg enc week store_id sku_id base_price
             total_price f d in
  (∃ fd, r = Ok fd
         ∧ is_Some (strptime week "%d/%m/%y")
         ∧ is_Some (strptime (base_date cfg) "%Y-%m-%d"))
  ∨ (strptime week "%d/%m/%y" = None
     ∧ r = Raise (ValueError (BadDateString week)))
  ∨ (is_Some (strptime week "%d/%m/%y")
     ∧ strptime (base_date cfg) "%Y-%m-%d" = None
     ∧ r = Raise (ValueError (BadDateString (base_date cfg)))).
Proof.
  cbv zeta. unfold preprocess_demand_features, _extract_datetime_features.
  destruct (strptime week "%d/%m/%y") as [week_date|]; [|right; by left].
  destruct (strptime (base_date cfg) "%Y-%m-%d") as [base|];
    [|right; right; by split].
  rewrite _encode_store_eq, _encode_sku_eq. cbn [mbind result_bind].
  unfold _encode_time_features.
  match goal with
  | |- context [encode_time_loop enc ?fs [] ?ns] =>
      destruct (encode_time_loop_ok enc fs ns []) as (te & -> & _)
  end.
  left. eexists. by split.
Qed.

(** X9.  With the configuration and the encoders in memory,
    [preprocess_demand_features] raises only for a date it cannot read: the
    week label first, then the base date of the configuration.  Nothing
    else in it can fail: no store, SKU or price makes it raise. *)
Theorem demand_preprocessing_fails_only_on_dates
    week store_id sku_id base_price total_price f d :
  match preprocess_demand_features cfg enc week store_id sku_id base_price
          total_price f d with
  | Raise e =>
      kind_of e = ValidationError
      ∧ ((strptime week "%d/%m/%y" = None
          ∧ e = ValueError (BadDateString week))
         ∨ (is_Some (strptime week "%d/%m/%y")
            ∧ strptime (base_date cfg) "%Y-%m-%d" = None
            ∧ e = ValueError (BadDateString (base_date cfg))))
  | Ok _ =>
      is_Some (strptime week "%d/%m/%y")
      ∧ is_Some (strptime (base_date cfg) "%Y-%m-%d")
  end.
Proof.
  destruct (preprocess_demand_cases week store_id sku_id base_price
              total_price f d) as [(fd & -> & Hw & Hb)|[[Hw ->]|(Hw & Hb & ->)]].
  - by split.
  - split; [done|]. by left.
  - split; [done|]. right. by split.
Qed.

(** X10.  The dictionary [preprocess_demand_features] returns, with the
    configuration and the encoders in memory, has no key twice; its keys are the eleven fixed names and those configured time
    features that are among the twelve calendar features (any other
    configured name is left out without an error).  The fixed entries hold
    the request's ids, flags and prices and the two encodings, and are never
    overwritten by a time feature; each time entry holds the encoded (or,
    without a table, the raw) calendar value. *)
Theorem demand_feature_dictionary
    week store_id sku_id base_price total_price f d week_date features :
  strptime week "%d/%m/%y" = Some week_date →
  _extract_datetime_features cfg week_date = Ok features →
  ∃ fd,
    preprocess_demand_features cfg enc week store_id sku_id base_price
      total_price f d = Ok fd
    ∧ NoDup (PyDict.keys fd)
    ∧ (∀ k, k ∈ PyDict.keys fd ↔
            k ∈ base_keys ∨ (k ∈ time_features cfg ∧ k ∈ datetime_keys))
    ∧ PyDict.get "store_id" fd = Some (VInt store_id)
    ∧ PyDict.get "sku_id" fd = Some (VInt sku_id)
    ∧ PyDict.get "is_featured_sku" fd = Some (VInt f)
    ∧ PyDict.get "is_display_sku" fd = Some (VInt d)
    ∧ PyDict.get "base_price" fd = Some (VFloat base_price)
    ∧ PyDict.get "total_price" fd
      = Some (VFloat (default base_price total_price))
    ∧ PyDict.get "diff" fd
      = Some (VFloat (base_price - default base_price total_price))
    ∧ PyDict.get "store_encoded" fd
      = Some (VFloat (lookup_or_global_mean enc (store_encoding_dict enc)
                        (VInt store_id)))
    ∧ PyDict.get "sku_encoded" fd
      = Some (VFloat (lookup_or_global_mean enc (sku_encoding_dict enc)
                        (VInt sku_id)))
    ∧ (∀ name v, name ∈ time_features cfg →
         PyDict.get name features = Some v →
         PyDict.get name fd = Some (VFloat (time_value enc name v))).
Proof.
  intros Hweek Hfeatures.
  assert (PyDict.keys features = datetime_keys) as Hkeys.
  { unfold _extract_datetime_features in Hfeatures.
    destruct (strptime (base_date cfg) "%Y-%m-%d"); [|done].
    by injection Hfeatures as <-. }
  unfold preprocess_demand_features.
  rewrite Hweek, Hfeatures, _encode_store_eq, _encode_sku_eq.
  cbn [mbind result_bind]. unfold _encode_time_features.
  destruct (encode_time_loop_ok enc features (time_features cfg) [])
    as (te & Hte & Hother & Hin).
  destruct (encode_time_loop_keys features (time_features cfg) [] te Hte)
    as [Hnd Hmem].
  rewrite Hte. cbn [mbind result_bind].
  eexists. split; [reflexivity|].
  match goal with
  | |- context [dict_update ?base te] =>
      destruct (dict_update_keys te base) as [Hnd' Hmem'];
      assert (∀ k, k ∈ base_keys → PyDict.get k (dict_update base te)
                                   = PyDict.get k base) as Hbase
  end.
  { intros k Hk. apply dict_update_other. rewrite Hother; [done|].
    right. apply PyDictFacts.get_None_elem. rewrite Hkeys.
    unfold base_keys in Hk.
    repeat (apply elem_of_cons in Hk as [->|Hk];
            [by apply (bool_decide_unpack _)|]).
    by apply elem_of_nil in Hk. }
  split.
  { apply Hnd'. by apply (bool_decide_unpack _). }
  split.
  { intros k. rewrite Hmem', Hmem, Hkeys.
    change (PyDict.keys [("base_price", _); _; _; _; _; _; _; _; _; _; _])
      with base_keys.
    split; [intros [?|[Hk|?]]|intros [?|?]]; auto.
    by apply elem_of_nil in Hk. }
  assert (default base_price total_price
          = match total_price with Some p => p | None => base_price end)
    as -> by (by destruct total_price).
  repeat (split; [rewrite Hbase; [reflexivity|by apply (bool_decide_unpack _)]|]).
  intros name v Hname Hv. apply dict_update_get.
  - by apply Hnd, NoDup_nil_2.
  - by apply Hin.
Qed.
End WithRuntime.
End EncoderMore.

Module EncoderMoreExamples.
Import Encoder Sample.
Local Open Scope R_scope.

Example the_week_of_17_jan_2011 :
  _extract_datetime_features (H := StdCalendar.runtime) cfg 14991%Z
  = Ok [ ("year", VInt 2011); ("date", VInt 17); ("month", VInt 1);
         ("weekday", VInt 0); ("weeknum", VInt 3);
         ("week_serial",
          VFloat (IZR (86400 * (14991 - 14977)) / (86400 * 7)));
         ("end_year", VInt 2011); ("end_date", VInt 23);
         ("end_month", VInt 1); ("end_weekday", VInt 6);
         ("end_weeknum", VInt 3);
         ("end_week_serial",
          VFloat (IZR (86400 * (14991 + 6 - 14977)) / (86400 * 7))) ].
Proof. reflexivity. Qed.

(** The witness of X10: the request of the end-to-end scenario. *)
Lemma demand_feature_dictionary_witness :
  ∃ fd,
    preprocess_demand_features (H := StdCalendar.runtime) cfg enc "17/01/11"
      8091 216418 111.8625 (Some 99.0375) 0 0 = Ok fd
    ∧ NoDup (PyDict.keys fd)
    ∧ PyDict.get "store_id" fd = Some (VInt 8091)
    ∧ PyDict.get "diff" fd = Some (VFloat (111.8625 - 99.0375))
    ∧ PyDict.get "month" fd
      = Some (VFloat (time_value (H := StdCalendar.runtime) enc "month"
                        (VInt 1))).
Proof.
  edestruct (EncoderMore.demand_feature_dictionary (H := StdCalendar.runtime)
               cfg enc "17/01/11" 8091 216418 111.8625 (Some 99.0375) 0 0
               14991%Z)
    as (fd & Hfd & Hnd & _ & Hstore & _ & _ & _ & _ & _ & Hdiff & _ & _ & Ht);
    [reflexivity|vm_compute; reflexivity|].
  exists fd. split; [exact Hfd|]. split; [exact Hnd|].
  split; [exact Hstore|]. split; [exact Hdiff|].
  apply Ht; [|reflexivity]. apply (bool_decide_unpack _). reflexivity.
Defined.
End EncoderMoreExamples.

Module LightGBMMore.
Import Base LightGBM LightGBMFacts.
Local Open Scope R_scope.

Lemma length_omap {A B} (f : A → option B) (l : list A) :
  (length (omap f l) ≤ length l)%nat.
Proof.
  induction l as [|x l IH]; simpl; [done|].
  destruct (f x); simpl; [apply le_n_S|apply le_S]; exact IH.
Qed.

(** The loop of [load]: either no file is rejected and every booster is
    appended, or a file is rejected and the loop raises. *)
Lemma load_models_spec w folds : ∀ ms,
  ((∀ i, i ∈ folds → model_fold w i ≠ BadFile)
   ∧ load_models w ms folds
     = (Ok (), ms ++ omap (λ i, fold_model (model_fold w i)) folds))
  ∨ ((∃ i, i ∈ folds ∧ model_fold w i = BadFile)
     ∧ (load_models w ms folds).1 = Raise (LibraryError "lightgbm")).
Proof.
  induction folds as [|i folds IH]; intros ms; simpl.
  - left. split; [|by rewrite app_nil_r].
    intros i Hi. by apply elem_of_nil in Hi.
  - destruct (model_fold w i) as [| |b] eqn:Hi; simpl.
    + destruct (IH ms) as [[Hgood ->]|[(j & Hj & Hbad) Hr]].
      * left. split; [|done].
        intros j [->|Hj]%elem_of_cons; [congruence|by apply Hgood].
      * right. split; [|done]. exists j. split; [by right|done].
    + right. split; [|done]. exists i. split; [by left|done].
    + destruct (IH (ms ++ [b])) as [[Hgood ->]|[(j & Hj & Hbad) Hr]].
      * left. split; [|by rewrite <- app_assoc].
        intros j [->|Hj]%elem_of_cons; [congruence|by apply Hgood].
      * right. split; [|done]. exists j. split; [by right|done].
Qed.




(** X11.  What [load] does on a strategy that is not loaded, once
    [config.json] is read: it goes through the fold files 0..9 in order,
    skips the missing ones and appends the boosters of the others to the
    models the strategy already holds.  It succeeds exactly when no fold
    file is rejected and the list of models is not empty at the end; a
    rejected file raises the library's error, no model at all raises
    [ValueError]; in both cases the strategy stays unloaded and keeps the
    configuration it has read. *)
Theorem load_gathers_the_fold_models w self cfg :
  _loaded self = false → config_json w = Some cfg →
  let found := omap (λ i, fold_model (model_fold w i)) (seq 0 n_folds) in
  (length found ≤ n_folds)%nat
  ∧ match load w self with
    | (Ok _, self') =>
        (∀ i, (i < n_folds)%nat → model_fold w i ≠ BadFile)
        ∧ models self ++ found ≠ []
        ∧ self' = {| _loaded := true; models := models self ++ found;
                     config_dict := Some cfg |}
    | (Raise e, self') =>
        _loaded self' = false ∧ config_dict self' = Some cfg
        ∧ ((e = LibraryError "lightgbm"
            ∧ ∃ i, (i < n_folds)%nat ∧ model_fold w i = BadFile)
           ∨ (e = ValueError NoModelsLoaded
              ∧ (∀ i, (i < n_folds)%nat → model_fold w i ≠ BadFile)
              ∧ models self ++ found = [] ∧ models self' = []))
    end.
Proof.
  intros Hl Hcfg found. split.
  { unfold found. etrans; [apply length_omap|]. by rewrite length_seq. }
  unfold load. rewrite Hl, Hcfg.
  destruct (load_models_spec w (seq 0 n_folds) (models self))
    as [[Hgood ->]|[(i & Hi & Hbad) Hraise]].
  - fold found.
    assert (∀ i, (i < n_folds)%nat → model_fold w i ≠ BadFile) as Hgood'.
    { intros i Hi. apply Hgood, elem_of_seq. lia. }
    destruct (models self ++ found) as [|m ms] eqn:Hms.
    + split; [done|]. split; [done|]. by right.
    + done.
  - destruct (load_models w (models self) (seq 0 n_folds)) as [r ms].
    simpl in Hraise. subst r. split; [done|]. split; [done|]. left.
    split; [done|]. exists i. split; [|done].
    apply elem_of_seq in Hi. lia.
Qed.






(** X14.  Once a [load] has succeeded the strategy is loaded, and from then
    on neither [load] nor [predict] reads the model directory or changes
    the strategy: in every later state of the directory [load] returns at
    once, and [predict] gives what the loaded models give. *)
Theorem loaded_strategy_is_stable w self :
  (load w self).1 = Ok () →
  let loaded := (load w self).2 in
  _loaded loaded = true
  ∧ ∀ w' features,
      load w' loaded = (Ok (), loaded)
      ∧ predict w' loaded features = score loaded features
      ∧ (predict w' loaded features).2 = loaded.
Proof.
  intros Hok loaded.
  assert (_loaded loaded = true) as Hl.
  { unfold loaded. destruct (_loaded self) eqn:Hs.
    - unfold load. by rewrite Hs.
    - by apply LifecycleFacts.lightgbm_load_ok_loaded. }
  split; [done|]. intros w' features.
  assert (predict w' loaded features = score loaded features) as Hp.
  { unfold predict, ensure_loaded. simpl. by rewrite Hl. }
  split; [unfold load; by rewrite Hl|]. split; [done|].
  rewrite Hp. unfold score.
  destruct (config_dict loaded); [|done].
  by destruct (feature_array features _).
Qed.
End LightGBMMore.

Module LightGBMMoreExamples.
Import LightGBM Sample.
Local Open Scope R_scope.

(** The witness of X11: a fresh strategy and a directory with the
    configuration and the file of fold 0. *)
Lemma load_gathers_witness :
  match load one_fold init with
  | (Ok _, self') => length (models self') = 1%nat
  | (Raise _, _) => False
  end.
Proof.
  pose proof (LightGBMMore.load_gathers_the_fold_models one_fold init _
                eq_refl eq_refl) as [_ Hload].
  destruct (load one_fold init) as [[[]|e] self'].
  - by destruct Hload as (_ & _ & ->).
  - destruct Hload as (_ & _ & [[_ (i & _ & Hbad)]|(_ & _ & Hnil & _)]).
    + by destruct i as [|i].
    + done.
Defined.


(** The witness of X14: after a load from the directory with one fold, a
    prediction in the empty directory still answers. *)
Lemma loaded_strategy_is_stable_witness :
  predict empty_disk (load one_fold init).2 request
  = score (load one_fold init).2 request.
Proof.
  destruct (LightGBMMore.loaded_strategy_is_stable one_fold init eq_refl)
    as [_ Hstable].
  apply (Hstable empty_disk request).
Defined.

(** A request without the first configured column. *)
Example missing_base_price :
  feature_array [("store_id", VInt 8091)] ["base_price"; "store_id"]
  = Raise (ValueError (MissingFeature "base_price")).
Proof. reflexivity. Qed.
End LightGBMMoreExamples.

Module AssemblerMore.
Import DataService Assembler AssemblerFacts RegistryMore.
Section WithPandas.
Context `{PandasRuntime}.
Local Open Scope R_scope.

Lemma indicator_columns_keys {A} (name : A → string)
    `{!Inj (=) (=) name} (eqb : cell → A → bool) col xs : ∀ df df',
  indicator_columns name eqb col df xs = Ok df' →
  NoDup xs → (∀ x, x ∈ xs → name x ∉ PyDict.keys df) →
  PyDict.keys df' = PyDict.keys df ++ (name <$> xs).
Proof.
  induction xs as [|x xs IH]; intros df df'; simpl.
  - intros [= <-] _ _. by rewrite app_nil_r.
  - unfold PyDict.subscript. destruct (PyDict.get col df) as [c|]; [|done].
    simpl. intros Hrec [Hx Hnd]%NoDup_cons Hfresh.
    rewrite (IH _ _ Hrec Hnd).
    + rewrite keys_set, bool_decide_eq_false_2
        by (apply Hfresh; by left).
      by rewrite <- app_assoc.
    + intros y Hy. rewrite PyDictFacts.keys_set_elem.
      intros [Heq|Hin].
      * apply (inj name) in Heq as ->. done.
      * revert Hin. apply Hfresh. by right.
Qed.

Lemma store_column_fresh n : store_column n ∉ base_columns.
Proof.
  unfold base_columns, store_column. intros Hin.
  repeat (apply elem_of_cons in Hin as [[=]|Hin]).
  by apply elem_of_nil in Hin.
Qed.

Lemma dept_column_fresh n : dept_column n ∉ base_columns.
Proof.
  unfold base_columns, dept_column. intros Hin.
  repeat (apply elem_of_cons in Hin as [[=]|Hin]).
  by apply elem_of_nil in Hin.
Qed.

Lemma type_column_fresh s : type_column s ∉ base_columns.
Proof.
  unfold base_columns, type_column. intros Hin.
  repeat (apply elem_of_cons in Hin as [[=]|Hin]).
  by apply elem_of_nil in Hin.
Qed.

Lemma get_Some_pair {V} (d : list (string * V)) k v :
  PyDict.get k d = Some v → (k, v) ∈ d.
Proof.
  induction d as [|[k0 v0] d IH]; simpl; [done|].
  case_decide as Hk; [intros [= ->]; subst; by left|].
  intros Hget. right. by apply IH.
Qed.

(** A cell an indicator loop has written is 0 or 1. *)
Local Ltac indicator_cell Hc :=
  injection Hc as <-;
  match goal with
  | |- context [if ?b then _ else _] => destruct b
  end; [by right|by left].

(** The three loops on a frame with the base columns: the columns they
    add, in order, and the cells they leave and write. *)
Lemma _one_hot_encode_spec ds (df : list (string * cell))
    store_id dept_id type :
  PyDict.keys df = base_columns →
  PyDict.get "Store" df = Some (CInt store_id) →
  PyDict.get "Dept" df = Some (CInt dept_id) →
  PyDict.get "Type" df = Some (CStr type) →
  ∃ df', _one_hot_encode_price_features ds df = Ok df'
    ∧ PyDict.keys df'
      = base_columns ++ (store_column <$> store_domain)
        ++ (dept_column <$> dept_values ds) ++ (type_column <$> type_domain)
    ∧ (∀ k, k ∈ base_columns → PyDict.get k df' = PyDict.get k df)
    ∧ (∀ k c, k ∉ base_columns → PyDict.get k df' = Some c →
         c = CInt 0 ∨ c = CInt 1).
Proof.
  intros Hkeys Hstore Hdept Htype. unfold _one_hot_encode_price_features.
  destruct (indicator_columns_ok store_column cell_eq_int "Store"
              (CInt store_id) store_domain df) as (df1 & Hok1 & Ho1 & Hi1);
    [done|by intros x _ [=]|].
  destruct (indicator_columns_ok dept_column cell_eq_int "Dept"
              (CInt dept_id) (dept_values ds) df1) as (df2 & Hok2 & Ho2 & Hi2).
  { rewrite Ho1; [done|]. intros Hn.
    by apply list_elem_of_fmap in Hn as (z & [=] & _). }
  { by intros x _ [=]. }
  destruct (indicator_columns_ok type_column cell_eq_str "Type"
              (CStr type) type_domain df2) as (df3 & Hok3 & Ho3 & Hi3).
  { rewrite Ho2, Ho1; [done|..]; intros Hn;
      by apply list_elem_of_fmap in Hn as (z & [=] & _). }
  { by intros x _ [=]. }
  assert (PyDict.keys df1 = base_columns ++ (store_column <$> store_domain))
    as Hk1.
  { rewrite <- Hkeys.
    apply (indicator_columns_keys store_column cell_eq_int "Store" _ _ _ Hok1).
    - apply NoDup_seqZ.
    - intros x _. rewrite Hkeys. apply store_column_fresh. }
  assert (PyDict.keys df2
          = (base_columns ++ (store_column <$> store_domain))
            ++ (dept_column <$> dept_values ds)) as Hk2.
  { rewrite <- Hk1.
    apply (indicator_columns_keys dept_column cell_eq_int "Dept" _ _ _ Hok2).
    - apply NoDup_dept_values.
    - intros x _. rewrite Hk1, elem_of_app. intros [Hin|Hin].
      + by apply dept_column_fresh in Hin.
      + by apply list_elem_of_fmap in Hin as (z & [=] & _). }
  assert (PyDict.keys df3
          = ((base_columns ++ (store_column <$> store_domain))
             ++ (dept_column <$> dept_values ds))
            ++ (type_column <$> type_domain)) as Hk3.
  { rewrite <- Hk2.
    apply (indicator_columns_keys type_column cell_eq_str "Type" _ _ _ Hok3).
    - apply (bool_decide_unpack _). reflexivity.
    - intros x _. rewrite Hk2, !elem_of_app. intros [[Hin|Hin]|Hin].
      + by apply type_column_fresh in Hin.
      + by apply list_elem_of_fmap in Hin as (z & [=] & _).
      + by apply list_elem_of_fmap in Hin as (z & [=] & _). }
  rewrite Hok1. cbn [mbind result_bind]. rewrite Hok2.
  cbn [mbind result_bind]. exists df3. split; [done|]. split.
  { rewrite Hk3. by rewrite <- !app_assoc. }
  split.
  - intros k Hk. rewrite Ho3, Ho2, Ho1; [done|..]; intros Hn;
      apply list_elem_of_fmap in Hn as (z & -> & _).
    + by apply store_column_fresh in Hk.
    + by apply dept_column_fresh in Hk.
    + by apply type_column_fresh in Hk.
  - intros k c Hk Hc.
    apply PyDictFacts.get_Some_elem in Hc as Hin.
    rewrite Hk3, !elem_of_app in Hin.
    destruct Hin as [[[Hin|Hin]|Hin]|Hin]; [done|..];
      apply list_elem_of_fmap in Hin as (z & -> & Hz).
    + rewrite Ho3, Ho2, Hi1 in Hc;
        [indicator_cell Hc
        |done|..];
        intros Hn; by apply list_elem_of_fmap in Hn as (z' & [=] & _).
    + rewrite Ho3, Hi2 in Hc;
        [indicator_cell Hc
        |done|].
      intros Hn; by apply list_elem_of_fmap in Hn as (z' & [=] & _).
    + rewrite Hi3 in Hc;
        [indicator_cell Hc
        |done].
Qed.

(** The frame [preprocess_price_features] returns, when it returns one. *)
Lemma assembled_frame ds store_id dept_id date is_holiday features_dict df :
  preprocess_price_features ds store_id dept_id date is_holiday features_dict
    = Ok df →
  ∃ info f,
    get_store_info ds store_id = Ok info
    ∧ match features_dict with
      | None => get_nearest_date_features ds store_id date
      | Some f => Ok f
      end = Ok f
    ∧ is_Some (to_datetime date)
    ∧ PyDict.keys df
      = base_columns ++ (store_column <$> store_domain)
        ++ (dept_column <$> dept_values ds) ++ (type_column <$> type_domain)
    ∧ PyDict.get "Store" df = Some (CInt store_id)
    ∧ PyDict.get "Dept" df = Some (CInt dept_id)
    ∧ PyDict.get "Date" df = Some (CStr date)
    ∧ PyDict.get "Type" df = Some (CStr (info_Type info))
    ∧ PyDict.get "Size" df = Some (CInt (info_Size info))
    ∧ PyDict.get "IsHoliday" df
      = Some (CInt (if default (IsHoliday f) is_holiday then 1 else 0))
    ∧ PyDict.get "Total_MarkDown" df
      = Some (CFloat (Some (MarkDown1 f + MarkDown2 f + MarkDown3 f
                            + MarkDown4 f + MarkDown5 f)))
    ∧ (∀ k c, PyDict.get k df = Some c → k ≠ "Date" → k ≠ "Type" →
         ∃ x, cell_to_float c = Ok x)
    ∧ (∀ k c, k ∉ base_columns → PyDict.get k df = Some c →
         c = CInt 0 ∨ c = CInt 1).
Proof.
  unfold preprocess_price_features. intros Hdf.
  destruct (get_store_info ds store_id) as [info|] eqn:Hinfo; [|done].
  cbn [mbind result_bind] in Hdf.
  destruct (match features_dict with
            | Some f => Ok f
            | None => get_nearest_date_features ds store_id date
            end) as [f|e]; [|done].
  cbn [mbind result_bind] in Hdf.
  destruct (to_datetime date) as [date_obj|]; [|done].
  match type of Hdf with
  | _one_hot_encode_price_features ds ?data = _ =>
      destruct (_one_hot_encode_spec ds data store_id dept_id
                  (info_Type info)) as (df' & Hok & Hkeys & Hbase & Hnew);
        [done..|]
  end.
  rewrite Hok in Hdf. injection Hdf as <-.
  exists info, f. split; [done|]. split; [done|]. split; [by eexists|].
  split; [done|].
  assert (default (IsHoliday f) is_holiday
          = match is_holiday with Some b => b | None => IsHoliday f end)
    as -> by (by destruct is_holiday).
  do 7 (split; [rewrite Hbase;
                [reflexivity|by apply (bool_decide_unpack _)]|]).
  split; [|exact Hnew].
  intros k c Hc Hdate Htype.
  destruct (decide (k ∈ base_columns)) as [Hk|Hk].
  - rewrite Hbase in Hc by done. apply get_Some_pair in Hc.
    match type of Hc with
    | _ ∈ ?data =>
        assert (Forall (λ kv, kv.1 = "Date" ∨ kv.1 = "Type"
                              ∨ ∃ x, cell_to_float kv.2 = Ok x) data)
          as Hcells
    end.
    { repeat (constructor;
              [first [ right; right; eexists; reflexivity
                     | left; reflexivity
                     | right; left; reflexivity ]|]).
      constructor. }
    rewrite Forall_forall in Hcells.
    destruct (Hcells _ Hc) as [Heq|[Heq|Hx]];
      [destruct (Hdate Heq)|destruct (Htype Heq)|exact Hx].
  - destruct (Hnew k c Hk Hc) as [-> | ->]; by eexists.
Qed.

(** X15.  The frame [preprocess_price_features] returns has, in this
    order, the 19 base columns, the indicator columns of the stores 1..45,
    those of the departments of the training table in increasing order, and
    those of the types A, B, C; no column occurs twice.  Its cells hold the
    request's store, department and date; the holiday cell is the caller's
    flag when one is given and the flag of the feature row otherwise; and
    every cell of a column after the base columns is 0 or 1. *)
Theorem assembled_frame_columns
    ds store_id dept_id date is_holiday features_dict df :
  preprocess_price_features ds store_id dept_id date is_holiday features_dict
    = Ok df →
  PyDict.keys df
  = base_columns ++ (store_column <$> store_domain)
    ++ (dept_column <$> dept_values ds) ++ (type_column <$> type_domain)
  ∧ NoDup (PyDict.keys df)
  ∧ PyDict.get "Store" df = Some (CInt store_id)
  ∧ PyDict.get "Dept" df = Some (CInt dept_id)
  ∧ PyDict.get "Date" df = Some (CStr date)
  ∧ (∀ b, is_holiday = Some b →
       PyDict.get "IsHoliday" df = Some (CInt (if b then 1 else 0)))
  ∧ (∀ f, is_holiday = None → features_dict = Some f →
       PyDict.get "IsHoliday" df
       = Some (CInt (if IsHoliday f then 1 else 0)))
  ∧ (∀ k c, k ∉ base_columns → PyDict.get k df = Some c →
       c = CInt 0 ∨ c = CInt 1).
Proof.
  intros Hdf.
  destruct (assembled_frame _ _ _ _ _ _ _ Hdf)
    as (info & f & _ & Hf & _ & Hkeys & Hs & Hd & Hdate & _ & _ & Hh & _ & _
        & Hnew).
  split; [done|]. split.
  { rewrite Hkeys. apply NoDup_app. split; [|split].
    - apply (bool_decide_unpack _). reflexivity.
    - intros k Hk. rewrite !elem_of_app.
      intros [Hin|[Hin|Hin]];
        apply list_elem_of_fmap in Hin as (z & -> & _).
      + by apply store_column_fresh in Hk.
      + by apply dept_column_fresh in Hk.
      + by apply type_column_fresh in Hk.
    - apply NoDup_app. split; [|split].
      + apply (NoDup_fmap_2 _), NoDup_seqZ.
      + intros k Hk. rewrite elem_of_app.
        apply list_elem_of_fmap in Hk as (n & -> & _).
        intros [Hin|Hin];
          by apply list_elem_of_fmap in Hin as (z & [=] & _).
      + apply NoDup_app. split; [|split].
        * apply (NoDup_fmap_2 _), NoDup_dept_values.
        * intros k Hk. apply list_elem_of_fmap in Hk as (n & -> & _).
          intros Hin. by apply list_elem_of_fmap in Hin as (z & [=] & _).
        * apply (bool_decide_unpack _). reflexivity. }
  do 3 (split; [done|]). split; [|split].
  - intros b ->. exact Hh.
  - intros f' -> ->. injection Hf as <-. exact Hh.
  - exact Hnew.
Qed.

End WithPandas.
End AssemblerMore.

Module AssemblerMoreExamples.
Import DataService Assembler Sample.

(** The witness of X15: store 1, department 1, 2012-11-02, with the
    caller's holiday flag [False] against the [True] of the feature row. *)
Lemma assembled_frame_columns_witness :
  ∃ df,
    preprocess_price_features (H := StdCalendar.pandas) service 1 1
      "2012-11-02" (Some false) None = Ok df
    ∧ length (PyDict.keys df) = (19 + 45 + 2 + 3)%nat
    ∧ PyDict.get "IsHoliday" df = Some (CInt 0).
Proof.
  eexists. split; [vm_compute; reflexivity|].
  match goal with
  | |- length (PyDict.keys ?df) = _ ∧ _ =>
      destruct (AssemblerMore.assembled_frame_columns
                  (H := StdCalendar.pandas) service 1 1 "2012-11-02"
                  (Some false) None df)
        as (Hkeys & _ & _ & _ & _ & Hholiday & _)
  end.
  - vm_compute. reflexivity.
  - split; [by rewrite Hkeys|]. exact (Hholiday false eq_refl).
Defined.

Example unknown_store_comes_first :
  preprocess_price_features (H := StdCalendar.pandas) service 7 1
    "not a date" None None = Raise (ValueError (StoreNotFound 7)).
Proof. reflexivity. Qed.

Example unknown_department_is_no_error :
  is_ok (preprocess_price_features (H := StdCalendar.pandas) service 1 99
           "2012-11-02" None None) = true.
Proof. vm_compute. reflexivity. Qed.
End AssemblerMoreExamples.

Module PriceStrategiesMore.
Import Base DataService Assembler AssemblerFacts.
Local Open Scope R_scope.

(** The loop that adds department columns, on a list shorter than the
    width asked for. *)
Lemma add_dept_columns_spec n depts : ∀ columns,
  NoDup columns → (length columns < n)%nat →
  let columns' := Linear.add_dept_columns n columns depts in
  columns `prefix_of` columns'
  ∧ NoDup columns'
  ∧ (length columns' ≤ n)%nat
  ∧ (∀ c, c ∈ columns' →
       c ∈ columns ∨ ∃ d, d ∈ depts ∧ c = dept_column d)
  ∧ ((length columns' < n)%nat →
       ∀ d, d ∈ depts → dept_column d ∈ columns').
Proof.
  induction depts as [|d depts IH]; intros columns Hnd Hlen; simpl.
  - split; [done|]. split; [done|]. split; [lia|]. split; [by left|].
    intros _ d Hd. by apply elem_of_nil in Hd.
  - case_bool_decide as Hin.
    + destruct (IH columns Hnd Hlen) as (Hpre & Hnd' & Hlen' & Hfrom & Hall).
      split; [done|]. split; [done|]. split; [done|]. split.
      * intros c Hc. destruct (Hfrom c Hc) as [?|(d' & Hd' & ->)]; [by left|].
        right. exists d'. split; [by right|done].
      * intros Hshort d' [->|Hd']%elem_of_cons; [|by apply Hall].
        destruct Hpre as [k ->]. apply elem_of_app. by left.
    + assert (NoDup (columns ++ [dept_column d])) as Hnd1.
      { apply NoDup_app. split; [done|]. split; [|apply NoDup_singleton].
        intros x Hx ->%list_elem_of_singleton. done. }
      case_bool_decide as Hfull.
      * rewrite length_app in *. simpl in *. split; [by eexists|].
        split; [done|]. split; [lia|]. split; [|lia].
        intros c [Hc| ->%list_elem_of_singleton]%elem_of_app; [by left|].
        right. exists d. split; [by left|done].
      * destruct (IH (columns ++ [dept_column d]) Hnd1 ltac:(lia))
          as (Hpre & Hnd' & Hlen' & Hfrom & Hall).
        split; [destruct Hpre as [k ->]; rewrite <- app_assoc; by eexists|].
        split; [done|]. split; [done|]. split.
        -- intros c Hc.
           destruct (Hfrom c Hc)
             as [[?| ->%list_elem_of_singleton]%elem_of_app|(d' & Hd' & ->)].
           ++ by left.
           ++ right. exists d. split; [by left|done].
           ++ right. exists d'. split; [by right|done].
        -- intros Hshort d' [->|Hd']%elem_of_cons; [|by apply Hall].
           destruct Hpre as [k ->]. rewrite !elem_of_app.
           left. right. by apply list_elem_of_singleton.
Qed.

Lemma NoDup_linear_columns :
  NoDup (Linear.default_features ++ (store_column <$> seqZ 1 45)
         ++ (type_column <$> ["A"; "B"; "C"])).
Proof.
  apply NoDup_app. split; [|split].
  - apply (bool_decide_unpack _). reflexivity.
  - intros c Hc [Hin|Hin]%elem_of_app;
      apply list_elem_of_fmap in Hin as (z & -> & _);
      unfold Linear.default_features, store_column, type_column in Hc;
      simpl in Hc;
      repeat (apply elem_of_cons in Hc as [[=]|Hc]);
      by apply elem_of_nil in Hc.
  - apply NoDup_app. split; [|split].
    + apply (NoDup_fmap_2 _), NoDup_seqZ.
    + intros c Hc Hin. apply list_elem_of_fmap in Hc as (n & -> & _).
      by apply list_elem_of_fmap in Hin as (z & [=] & _).
    + apply (bool_decide_unpack _). reflexivity.
Qed.

Lemma length_linear_columns :
  length (Linear.default_features ++ (store_column <$> seqZ 1 45)
          ++ (type_column <$> ["A"; "B"; "C"])) = 71%nat.
Proof. by rewrite !length_app, !length_fmap, length_seqZ. Qed.






(** X17.  The feature columns the linear strategy settles on for a model
    with [n] coefficients: never two equal columns and never more than [n];
    for [n] up to 71 exactly the first [n] of the 23 ranked features, the 45
    store columns and the 3 type columns; beyond 71 these 71 followed by
    department columns of the training table, and fewer than [n] columns
    only when every department of the table has its column already. *)
Theorem linear_columns_match_the_model m ds coef :
  Linear.coef_ m = Some coef →
  let ranked := Linear.default_features ++ (store_column <$> seqZ 1 45)
                ++ (type_column <$> ["A"; "B"; "C"]) in
  let columns := Linear._determine_feature_columns m ds in
  NoDup columns
  ∧ (length columns ≤ length coef)%nat
  ∧ ((length coef ≤ 71)%nat → columns = take (length coef) ranked)
  ∧ ((71 ≤ length coef)%nat →
       ranked `prefix_of` columns
       ∧ (∀ c, c ∈ columns →
            c ∈ ranked ∨ ∃ d, d ∈ dept_values ds ∧ c = dept_column d)
       ∧ ((length columns < length coef)%nat →
            ∀ d, d ∈ dept_values ds → dept_column d ∈ columns)).
Proof.
  intros Hcoef ranked columns. unfold columns, ranked.
  unfold Linear._determine_feature_columns. rewrite Hcoef.
  pose proof NoDup_linear_columns as Hnd.
  pose proof length_linear_columns as Hlen.
  rewrite Hlen. case_bool_decide as Hlt; [|case_bool_decide as Hgt].
  - split; [eapply sublist_NoDup; [exact Hnd|apply sublist_take]|].
    rewrite length_take, Hlen.
    split; [lia|]. split; [done|]. lia.
  - destruct (add_dept_columns_spec (length coef) (dept_values ds) _ Hnd
                ltac:(by rewrite Hlen)) as (Hpre & Hnd' & Hle & Hfrom & Hall).
    split; [done|]. split; [done|]. split; [lia|]. done.
  - assert (length coef = 71%nat) as Hn by lia.
    split; [done|]. split; [lia|]. split.
    + intros _. rewrite Hn, <- Hlen. by rewrite firstn_all.
    + intros _. split; [done|]. split; [by left|]. lia.
Qed.



(** X20.  Of the two modules the neural-network strategy can import its
    runtime from, [keras.models] is preferred and [tensorflow.keras.models]
    is tried only when it fails; once an import has succeeded the module is
    kept, and no later call imports again or fails, whatever has become of
    the installation. *)
Theorem keras_import_is_tried_once w self :
  DNN._model_from_json self = None →
  DNN._keras_import_error self = None →
  let after := (DNN._ensure_keras_available w self).2 in
  match DNN.import_module w "keras.models",
        DNN.import_module w "tensorflow.keras.models" with
  | Ok f, _ =>
      DNN._model_from_json after = Some f
      ∧ ∀ w', DNN._ensure_keras_available w' after = (Ok (), after)
  | Raise _, Ok g =>
      DNN._model_from_json after = Some g
      ∧ ∀ w', DNN._ensure_keras_available w' after = (Ok (), after)
  | Raise _, Raise exc =>
      DNN._model_from_json after = None
      ∧ DNN._keras_import_error after = Some exc
      ∧ ∀ w', DNN._ensure_keras_available w' after
              = (Raise (RuntimeError KerasPreviouslyFailed), after)
  end.
Proof.
  intros Hm He after. unfold after, DNN._ensure_keras_available.
  rewrite Hm, He. simpl.
  destruct (DNN.import_module w "keras.models") as [f|e1]; simpl; [done|].
  by destruct (DNN.import_module w "tensorflow.keras.models") as [g|e2].
Qed.
End PriceStrategiesMore.

Module PriceStrategiesMoreExamples.
Import DataService Assembler Sample.
Local Open Scope R_scope.

(** The witness of X17: a model with 72 coefficients over the sample
    tables, whose departments 1 and 3 are among the ranked features
    already: the strategy settles on 71 columns. *)
Lemma linear_columns_witness :
  length (Linear._determine_feature_columns (regressor_of_width 72) service)
  = 71%nat.
Proof.
  destruct (PriceStrategiesMore.linear_columns_match_the_model
              (regressor_of_width 72) service (replicate 72 1) eq_refl)
    as (Hnd & _ & _ & Hmore).
  destruct (Hmore ltac:(rewrite length_replicate; lia))
    as ([k Hk] & Hfrom & _).
  rewrite Hk in Hnd. apply NoDup_app in Hnd as (_ & Hdisj & _).
  assert (k = []) as ->.
  { destruct k as [|c k]; [done|].
    destruct (Hfrom c) as [Hc|(d & Hd & ->)].
    - rewrite Hk, !elem_of_app. right. by left.
    - destruct (Hdisj c Hc). by left.
    - change (dept_values service) with [1; 3]%Z in Hd.
      destruct (Hdisj (dept_column d)); [|by left].
      apply elem_of_cons in Hd as [->|Hd];
        [|apply elem_of_cons in Hd as [->|Hd]];
        [| |by apply elem_of_nil in Hd];
        apply (bool_decide_unpack _); reflexivity. }
  rewrite Hk, app_nil_r. apply PriceStrategiesMore.length_linear_columns.
Defined.



(** The witness of X20: a fresh strategy imports on the machine with
    Keras, and is then asked again on the machine without. *)
Lemma keras_import_witness :
  DNN._ensure_keras_available no_keras
    (DNN._ensure_keras_available with_keras DNN.init).2
  = (Ok (), (DNN._ensure_keras_available with_keras DNN.init).2).
Proof.
  exact (proj2 (PriceStrategiesMore.keras_import_is_tried_once with_keras
                  DNN.init eq_refl eq_refl) no_keras).
Defined.

(** A model with one coefficient more than there are columns to give it:
    the regressor is handed a row it rejects. *)
Example one_column_short (df : list (string * cell)) :
  preprocess_price_features (H := StdCalendar.pandas) service 1 1
    "2012-11-02" None None = Ok df →
  (Linear.predict (linear_disk 72) Linear.init df).1
  = Raise (LibraryError "sklearn").
Proof.
  intros Hdf. vm_compute in Hdf. injection Hdf as <-. reflexivity.
Qed.
End PriceStrategiesMoreExamples.

Module PreprocessingServiceMore.
Import PreprocessingService.
Section WithRuntime.
Context `{PyRuntime}.

Lemma lazy_load_cached w self cfg enc :
  _demand_config self = Some cfg → _demand_encoders self = Some enc →
  _load_demand_config_and_encoders w self = (Ok (), self).
Proof.
  intros Hc He. unfold _load_demand_config_and_encoders. by rewrite Hc, He.
Qed.

(** With the configuration and the encoders in memory, the method is its
    body. *)
Lemma preprocess_loaded w self cfg enc week store_id sku_id base_price
    total_price f d :
  _demand_config self = Some cfg → _demand_encoders self = Some enc →
  preprocess_demand_features w self week store_id sku_id base_price
    total_price f d
  = (Encoder.preprocess_demand_features cfg enc week store_id sku_id
       base_price total_price f d, self).
Proof.
  intros Hc He. unfold preprocess_demand_features.
  rewrite (lazy_load_cached w self cfg enc Hc He). by rewrite Hc, He.
Qed.

(** A dictionary of features comes from the body on what is in memory
    afterwards. *)
Lemma preprocess_ok w self week store_id sku_id base_price total_price f d
    features self' :
  preprocess_demand_features w self week store_id sku_id base_price
    total_price f d = (Ok features, self') →
  ∃ cfg enc,
    _demand_config self' = Some cfg ∧ _demand_encoders self' = Some enc
    ∧ Encoder.preprocess_demand_features cfg enc week store_id sku_id
        base_price total_price f d = Ok features.
Proof.
  unfold preprocess_demand_features.
  destruct (_load_demand_config_and_encoders w self) as [[[]|e] s1];
    [|done].
  destruct (_demand_config s1) as [cfg|] eqn:Hc; [|done].
  destruct (_demand_encoders s1) as [enc|] eqn:He; [|done].
  intros [= Hpre <-]. by exists cfg, enc.
Qed.

(** X26.  The lazy load of the demand configuration and encoders, on a
    service that has no encoders yet.  It reads [config.json] and then
    [encoding_dicts.pkl]; it succeeds exactly when both reads do, and then
    keeps both, and no later call reads a file again.  When a read fails
    the encoders are still missing afterwards, so the failure is not
    remembered: the next call reads both files again and succeeds as soon
    as both can be read. *)
Theorem lazy_load_is_retried_until_it_succeeds w self :
  _demand_encoders self = None →
  match _load_demand_config_and_encoders w self with
  | (Ok _, self') =>
      ∃ cfg enc,
        config_json w = Ok cfg ∧ encoding_dicts_pkl w = Ok enc
        ∧ self' = {| _demand_config := Some cfg;
                     _demand_encoders := Some enc |}
        ∧ ∀ w', _load_demand_config_and_encoders w' self' = (Ok (), self')
  | (Raise e, self') =>
      (config_json w = Raise e ∧ self' = self
       ∨ ∃ cfg, config_json w = Ok cfg ∧ encoding_dicts_pkl w = Raise e
                ∧ self' = {| _demand_config := Some cfg;
                             _demand_encoders := None |})
      ∧ ∀ w' cfg' enc',
          config_json w' = Ok cfg' → encoding_dicts_pkl w' = Ok enc' →
          _load_demand_config_and_encoders w' self'
          = (Ok (), {| _demand_config := Some cfg';
                       _demand_encoders := Some enc' |})
  end.
Proof.
  intros He.
  assert (∀ s w' cfg' enc',
            _demand_encoders s = None →
            config_json w' = Ok cfg' → encoding_dicts_pkl w' = Ok enc' →
            _load_demand_config_and_encoders w' s
            = (Ok (), {| _demand_config := Some cfg';
                         _demand_encoders := Some enc' |})) as Hretry.
  { intros s w' cfg' enc' Hs Hc' He'. unfold _load_demand_config_and_encoders.
    rewrite Hs, Hc', He'. by destruct (_demand_config s). }
  destruct self as [c e]. simpl in He. subst e.
  unfold _load_demand_config_and_encoders at 1.
  cbn [_demand_config _demand_encoders].
  destruct (config_json w) as [cfg|e1];
    [destruct (encoding_dicts_pkl w) as [enc|e2]|].
  - assert (∀ w', _load_demand_config_and_encoders w'
                    {| _demand_config := Some cfg;
                       _demand_encoders := Some enc |}
                  = (Ok (), {| _demand_config := Some cfg;
                               _demand_encoders := Some enc |})) as Hcached
      by (intros w'; by apply (lazy_load_cached w' _ cfg enc)).
    destruct c; simpl; by exists cfg, enc.
  - destruct c; simpl; (split; [right; by exists cfg|]);
      intros w' cfg' enc'; by apply Hretry.
  - destruct c; simpl; (split; [by left|]);
      intros w' cfg' enc'; by apply Hretry.
Qed.
End WithRuntime.
End PreprocessingServiceMore.

Module PreprocessingServiceMoreExamples.
Import PreprocessingService Sample.

(** The witness of X26: the first call finds no file, the second finds
    both. *)
Lemma lazy_load_witness :
  (_load_demand_config_and_encoders encoder_files
     (_load_demand_config_and_encoders no_encoder_files init).2).1 = Ok ().
Proof.
  pose proof (PreprocessingServiceMore.lazy_load_is_retried_until_it_succeeds
                no_encoder_files init eq_refl) as Hload.
  destruct (_load_demand_config_and_encoders no_encoder_files init)
    as [[[]|e] self'].
  - by destruct Hload as (cfg & enc & Hcfg & _).
  - destruct Hload as [_ Hretry]. simpl.
    by rewrite (Hretry encoder_files cfg enc_json eq_refl eq_refl).
Defined.
End PreprocessingServiceMoreExamples.

Module PredictionServiceMore.
Import Base Registry PredictionService RegistryMore.
Section WithRuntime.
Context `{PyRuntime}.
Local Open Scope R_scope.

Lemma set_get_same {V} (d : list (string * V)) k v :
  PyDict.get k d = Some v → PyDict.set k v d = d.
Proof.
  induction d as [|[k0 v0] d IH]; simpl; [done|].
  case_decide as Hk; [by intros [= ->]|]. intros Hget. by rewrite IH.
Qed.

(** The handler on a name that is not registered. *)
Lemma handler_unknown w self request :
  strategy_or_default request
    ∉ PyDict.keys (_strategies (demand_registry self)) →
  handler w self request
  = (HTTPException 400
       (StrategyNotAvailable (strategy_or_default request)
          (PyDict.keys (_strategies (demand_registry self)))), self).
Proof.
  intros Hn. unfold handler, list_all. simpl.
  rewrite bool_decide_eq_false_2 by done. simpl. by destruct self.
Qed.

(** The handler on a registered name, in terms of the preprocessing and
    of the strategy's [predict]. *)
Lemma handler_known w self request strategy :
  PyDict.get (strategy_or_default request)
    (_strategies (demand_registry self)) = Some strategy →
  handler w self request
  = match PreprocessingService.preprocess_demand_features (encoder_dir w)
            (preprocessing_service self) (week request) (store_id request)
            (sku_id request) (base_price request) (total_price request)
            (is_featured_sku request) (is_display_sku request) with
    | (Raise (ValueError m), preprocessing) =>
        (HTTPException 400 (ErrorText (ValueError m)),
         {| demand_registry := demand_registry self;
            preprocessing_service := preprocessing |})
    | (Raise e, preprocessing) =>
        (HTTPException 500 (InternalServerError e),
         {| demand_registry := demand_registry self;
            preprocessing_service := preprocessing |})
    | (Ok features, preprocessing) =>
        let after := LightGBM.predict (model_dir w) strategy features in
        let self' :=
          {| demand_registry :=
               {| _strategies :=
                    PyDict.set (strategy_or_default request) after.2
                      (_strategies (demand_registry self));
                  _default_name := _default_name (demand_registry self) |};
             preprocessing_service := preprocessing |} in
        match after.1 with
        | Ok predicted =>
            (DemandForecastResponse
               {| predicted_units_sold := predicted;
                  record_id := None;
                  strategy_used := strategy_or_default request;
                  status := "success" |}, self')
        | Raise (ValueError m) =>
            (HTTPException 400 (ErrorText (ValueError m)), self')
        | Raise e => (HTTPException 500 (InternalServerError e), self')
        end
    end.
Proof.
  intros Hget. apply PyDictFacts.get_Some_elem in Hget as Hin.
  unfold handler, list_all, predict_demand, get, PyDict.contains. simpl.
  rewrite !bool_decide_eq_true_2 by done. simpl. rewrite Hget.
  destruct (PreprocessingService.preprocess_demand_features _ _ _ _ _ _ _ _ _)
    as [[features|e] preprocessing]; [|by destruct e].
  destruct (LightGBM.predict (model_dir w) strategy features)
    as [[r|e] s']; [done|by destruct e].
Qed.

(** X21.  The demand endpoint never changes which strategies are
    registered, in which order, nor the default, nor any strategy but the
    one the request names; and it leaves the whole registry as it is, so
    that no model file is read, when the strategy is not registered or the
    week does not parse. *)
Theorem handler_keeps_the_registry w self request :
  let name := strategy_or_default request in
  let registry := demand_registry self in
  let registry' := demand_registry (handler w self request).2 in
  PyDict.keys (_strategies registry') = PyDict.keys (_strategies registry)
  ∧ _default_name registry' = _default_name registry
  ∧ (∀ other, other ≠ name →
       PyDict.get other (_strategies registry')
       = PyDict.get other (_strategies registry))
  ∧ (name ∉ PyDict.keys (_strategies registry)
     ∨ strptime (week request) "%d/%m/%y" = None →
     registry' = registry).
Proof.
  intros name registry registry'. unfold registry', registry, name.
  destruct (PyDict.get (strategy_or_default request)
              (_strategies (demand_registry self)))
    as [strategy|] eqn:Hget.
  2:{ apply PyDictFacts.get_None_elem in Hget.
      by rewrite handler_unknown. }
  apply PyDictFacts.get_Some_elem in Hget as Hin.
  rewrite (handler_known w self request strategy Hget).
  destruct (PreprocessingService.preprocess_demand_features _ _ _ _ _ _ _ _ _)
    as [[features|e] preprocessing] eqn:Hpre; [|by destruct e].
  destruct (PreprocessingServiceMore.preprocess_ok _ _ _ _ _ _ _ _ _ _ _ Hpre)
    as (cfg & enc & _ & _ & Hbody).
  destruct (EncoderMore.preprocess_demand_cases cfg enc
              (week request) (store_id request) (sku_id request)
              (base_price request) (total_price request)
              (is_featured_sku request) (is_display_sku request))
    as [(? & _ & [? Hweek] & _)|[[_ Hno]|(_ & _ & Hno)]];
    cbv zeta in *; [|congruence..].
  assert (∀ r : response,
            let self' :=
              {| demand_registry :=
                   {| _strategies :=
                        PyDict.set (strategy_or_default request)
                          (LightGBM.predict (model_dir w) strategy
                             features).2
                          (_strategies (demand_registry self));
                      _default_name :=
                        _default_name (demand_registry self) |};
                 preprocessing_service := preprocessing |} in
            PyDict.keys (_strategies (demand_registry (r, self').2))
            = PyDict.keys (_strategies (demand_registry self))
            ∧ _default_name (demand_registry (r, self').2)
              = _default_name (demand_registry self)
            ∧ (∀ other, other ≠ strategy_or_default request →
                 PyDict.get other (_strategies (demand_registry (r, self').2))
                 = PyDict.get other (_strategies (demand_registry self)))
            ∧ (strategy_or_default request
                 ∉ PyDict.keys (_strategies (demand_registry self))
               ∨ strptime (week request) "%d/%m/%y" = None →
               demand_registry (r, self').2 = demand_registry self))
    as Hframe.
  { intros r. simpl. split; [|split; [done|split]].
    - by rewrite keys_set, bool_decide_eq_true_2.
    - intros other Hother. by apply PyDictFacts.get_set_ne.
    - intros [Hno|Hnone]; [done|congruence]. }
  destruct (LightGBM.predict (model_dir w) strategy features).1 as [r|[]];
    apply Hframe.
Qed.


(** X23.  Once the endpoint has answered a request, the configuration,
    the encoders and the models stay in memory: the same request is
    answered in the same way, and leaves everything as it is, whatever has
    become of the files. *)
Theorem answered_request_is_repeatable w self request :
  is_success (handler w self request).1 = true →
  ∀ w', handler w' (handler w self request).2 request
        = handler w self request.
Proof.
  intros Hok w'.
  destruct (PyDict.get (strategy_or_default request)
              (_strategies (demand_registry self)))
    as [strategy|] eqn:Hget.
  2:{ apply PyDictFacts.get_None_elem in Hget.
      by rewrite handler_unknown in Hok by done. }
  rewrite (handler_known w self request strategy Hget) in *.
  destruct (PreprocessingService.preprocess_demand_features (encoder_dir w)
              _ _ _ _ _ _ _ _)
    as [[features|e] preprocessing] eqn:Hpre; [|by destruct e].
  destruct (PreprocessingServiceMore.preprocess_ok _ _ _ _ _ _ _ _ _ _ _ Hpre)
    as (cfg & enc & Hcfg & Henc & Hbody).
  cbv zeta in *.
  destruct (LightGBM.predict (model_dir w) strategy features)
    as [r strategy'] eqn:Hp.
  simpl in *. destruct r as [r|e]; [|by destruct e].
  assert (LightGBM._loaded strategy' = true
          ∧ LightGBM.predict (model_dir w') strategy' features
            = (Ok r, strategy'))
    as [Hl Hagain].
  { unfold LightGBM.predict, ensure_loaded in Hp. simpl in Hp.
    assert (∀ s, LightGBM.score s features = (Ok r, strategy') →
                 s = strategy') as Hsame.
    { intros s. unfold LightGBM.score.
      destruct (LightGBM.config_dict s); [|done].
      destruct (LightGBM.feature_array features _); [|done].
      by intros [= _ <-]. }
    assert (∀ s, LightGBM._loaded s = true →
                 LightGBM.score s features = (Ok r, strategy') →
                 LightGBM._loaded strategy' = true
                 ∧ LightGBM.predict (model_dir w') strategy' features
                   = (Ok r, strategy')) as Hscore.
    { intros s Hs Hsc. pose proof (Hsame s Hsc) as ->. split; [done|].
      unfold LightGBM.predict, ensure_loaded. simpl. by rewrite Hs. }
    destruct (LightGBM._loaded strategy) eqn:Hls; simpl in Hp.
    - by apply (Hscore strategy).
    - destruct (LightGBM.load (model_dir w) strategy) as [[[]|e] s1]
        eqn:Hload; [|done].
      apply (Hscore s1); [|done].
      pose proof (LifecycleFacts.lightgbm_load_ok_loaded (model_dir w)
                    strategy Hls) as Hloaded.
      rewrite Hload in Hloaded. by apply Hloaded. }
  erewrite handler_known; [|simpl; apply PyDictFacts.get_set_eq].
  simpl.
  rewrite (PreprocessingServiceMore.preprocess_loaded _ _ cfg enc) by done.
  rewrite Hbody. cbv zeta. rewrite Hagain. simpl.
  by rewrite (set_get_same
                (PyDict.set (strategy_or_default request) strategy'
                   (_strategies (demand_registry self))) _ strategy')
    by apply PyDictFacts.get_set_eq.
Qed.
End WithRuntime.
End PredictionServiceMore.

Module PredictionServiceMoreExamples.
Import Registry PredictionService Sample.
Local Open Scope R_scope.



(** The witness of X23: the first request loads everything, the second
    finds the disk empty. *)
Lemma answered_request_witness :
  let w := {| model_dir := one_fold; encoder_dir := encoder_files |} in
  let w' := {| model_dir := empty_disk; encoder_dir := no_encoder_files |} in
  handler (H := StdCalendar.runtime) w'
    (handler (H := StdCalendar.runtime) w fresh_services demand_request).2
    demand_request
  = handler (H := StdCalendar.runtime) w fresh_services demand_request.
Proof.
  intros w w'.
  apply (PredictionServiceMore.answered_request_is_repeatable
           (H := StdCalendar.runtime)).
  vm_compute. reflexivity.
Defined.

(** A model directory without fold files is answered with status 400, and
    one without configuration with status 500. *)
Example no_fold_file_is_a_bad_request :
  (handler (H := StdCalendar.runtime)
     {| model_dir := config_only; encoder_dir := encoder_files |}
     fresh_services demand_request).1
  = HTTPException 400 (ErrorText (ValueError NoModelsLoaded)).
Proof. vm_compute. reflexivity. Qed.

Example no_configuration_is_a_server_error :
  (handler (H := StdCalendar.runtime)
     {| model_dir := empty_disk; encoder_dir := encoder_files |}
     fresh_services demand_request).1
  = HTTPException 500
      (InternalServerError (FileNotFoundError "config.json")).
Proof. vm_compute. reflexivity. Qed.
End PredictionServiceMoreExamples.

Module DataServiceLoadingMore.
Import DataServiceLoading.
Section Frames.
Context {Frame : Type}.
Variable convert_dates : Frame → result Frame.
Local Abbreviation load := (load_price_forecast_datasets convert_dates).

Lemma load_cached d self :
  is_Some (_train_df self) → load d self = (Ok (), self).
Proof.
  intros [train Htrain]. unfold load_price_forecast_datasets.
  by rewrite Htrain.
Qed.

Lemma guarded_missing table d self :
  is_Some (_train_df self) → table self = None →
  guarded convert_dates table d self = (Raise TypeError, self).
Proof.
  intros Htrain Hnone. unfold guarded.
  rewrite Hnone, load_cached by done. by rewrite Hnone.
Qed.

Lemma guarded_present table d self df :
  table self = Some df → guarded convert_dates table d self = (Ok df, self).
Proof. intros Hsome. unfold guarded. by rewrite !Hsome. Qed.

(** X24.  A load that succeeds on a service without training table has
    read the three files and converted the dates of the training and of the
    feature table; from then on the three tables are served from memory: no
    later call reads a file again, whatever has become of the files. *)
Theorem loaded_tables_are_cached d self :
  _train_df self = None →
  (load d self).1 = Ok () →
  ∃ train stores features train' features',
    train_csv d = Ok train ∧ stores_csv d = Ok stores
    ∧ features_csv d = Ok features
    ∧ convert_dates train = Ok train'
    ∧ convert_dates features = Ok features'
    ∧ (load d self).2
      = {| _train_df := Some train'; _stores_df := Some stores;
           _features_df := Some features' |}
    ∧ ∀ d',
        load d' (load d self).2 = (Ok (), (load d self).2)
        ∧ train_table convert_dates d' (load d self).2
          = (Ok train', (load d self).2)
        ∧ stores_table convert_dates d' (load d self).2
          = (Ok stores, (load d self).2)
        ∧ features_table convert_dates d' (load d self).2
          = (Ok features', (load d self).2).
Proof.
  intros Hnone Hok.
  assert (∃ train stores features train' features',
            train_csv d = Ok train ∧ stores_csv d = Ok stores
            ∧ features_csv d = Ok features
            ∧ convert_dates train = Ok train'
            ∧ convert_dates features = Ok features'
            ∧ (load d self).2
              = {| _train_df := Some train'; _stores_df := Some stores;
                   _features_df := Some features' |})
    as (train & stores & features & train' & features'
        & Ht & Hs & Hf & Hct & Hcf & Hloaded).
  { unfold load_price_forecast_datasets in *. rewrite Hnone in *.
    destruct (train_csv d) as [train|]; [|done].
    destruct (stores_csv d) as [stores|]; [|done].
    destruct (features_csv d) as [features|]; [|done].
    destruct (convert_dates train) as [train'|] eqn:Hct; [|done].
    destruct (convert_dates features) as [features'|] eqn:Hcf; [|done].
    exists train, stores, features, train', features'.
    repeat split; first [assumption|reflexivity]. }
  exists train, stores, features, train', features'.
  do 5 (split; [done|]). rewrite Hloaded. split; [done|]. intros d'.
  split; [by apply load_cached|].
  split; [|split]; by apply guarded_present.
Qed.

(** X25.  What a failed first load leaves behind.  When [train.csv]
    cannot be read nothing is kept, and the next call tries again.  When
    the failure comes later, the training table is kept, so that every later
    load returns at once without reading anything: a table that was not read
    is never read, and a getter that needs it raises [TypeError] on every
    call, also when the files are back; after a failed conversion the
    tables are kept with the dates as they were read. *)
Theorem failed_first_load_is_kept d e :
  (load d init).1 = Raise e →
  let self := (load d init).2 in
  match train_csv d, stores_csv d, features_csv d with
  | Raise e', _, _ =>
      e = e' ∧ self = init
  | Ok train, Raise e', _ =>
      e = e'
      ∧ self = {| _train_df := Some train; _stores_df := None;
                  _features_df := None |}
      ∧ ∀ d', load d' self = (Ok (), self)
              ∧ train_table convert_dates d' self = (Ok train, self)
              ∧ stores_table convert_dates d' self = (Raise TypeError, self)
              ∧ features_table convert_dates d' self
                = (Raise TypeError, self)
  | Ok train, Ok stores, Raise e' =>
      e = e'
      ∧ self = {| _train_df := Some train; _stores_df := Some stores;
                  _features_df := None |}
      ∧ ∀ d', load d' self = (Ok (), self)
              ∧ stores_table convert_dates d' self = (Ok stores, self)
              ∧ features_table convert_dates d' self
                = (Raise TypeError, self)
  | Ok train, Ok stores, Ok features =>
      (∀ d', load d' self = (Ok (), self))
      ∧ _stores_df self = Some stores
      ∧ _features_df self = Some features
      ∧ ((convert_dates train = Raise e ∧ _train_df self = Some train)
         ∨ (∃ train', convert_dates train = Ok train'
                      ∧ convert_dates features = Raise e
                      ∧ _train_df self = Some train'))
  end.
Proof.
  unfold load_price_forecast_datasets. simpl.
  destruct (train_csv d) as [train|e1]; simpl; [|by intros [= ->]].
  destruct (stores_csv d) as [stores|e2]; simpl.
  2:{ intros [= ->]. split; [done|]. split; [done|]. intros d'.
      split; [done|].
      split; [by apply guarded_present|].
      split; by apply guarded_missing. }
  destruct (features_csv d) as [features|e3]; simpl.
  2:{ intros [= ->]. split; [done|]. split; [done|]. intros d'.
      split; [done|].
      split; [by apply guarded_present|by apply guarded_missing]. }
  destruct (convert_dates train) as [train'|e4] eqn:Htrain; simpl.
  2:{ intros [= ->]. split; [done|].
      split; [done|]. split; [done|]. by left. }
  destruct (convert_dates features) as [features'|e5]; simpl; [done|].
  intros [= ->]. split; [done|].
  split; [done|]. split; [done|]. right. by exists train'.
Qed.
End Frames.
End DataServiceLoadingMore.

Module DataServiceLoadingMoreExamples.
Import DataServiceLoading Sample.

(** The witness of X24: the three files, with dates that convert, and a
    second call when [stores.csv] has gone. *)
Lemma loaded_tables_witness :
  stores_table Ok stores_missing
    (load_price_forecast_datasets Ok all_datasets init).2
  = (Ok "stores.csv", (load_price_forecast_datasets Ok all_datasets init).2).
Proof.
  destruct (DataServiceLoadingMore.loaded_tables_are_cached Ok all_datasets
              init eq_refl eq_refl)
    as (train & stores & features & train' & features' & _ & Hstores & _ & _
        & _ & _ & Hcached).
  injection Hstores as <-. apply (Hcached stores_missing).
Defined.

(** The witness of X25: [stores.csv] is missing at the first call and back
    at the second, which still finds no table of stores. *)
Lemma failed_first_load_witness :
  stores_table Ok all_datasets
    (load_price_forecast_datasets Ok stores_missing init).2
  = (Raise TypeError, (load_price_forecast_datasets Ok stores_missing init).2).
Proof.
  pose proof (DataServiceLoadingMore.failed_first_load_is_kept Ok
                stores_missing (FileNotFoundError "stores.csv") eq_refl)
    as (_ & _ & Hkept).
  apply (Hkept all_datasets).
Defined.
End DataServiceLoadingMoreExamples.
